(** * drissionpage-mcp: session manager, content pipeline and scroll controller

  A shallow embedding of [src/browser.py], [src/tools/markdown.py],
  [src/tools/advanced.py] and [find_elements] of [src/tools/basic.py].

  Conventions.
  - A Python [str] is a [string] holding its UTF-8 bytes.  A line feed and
    an ASCII substring read the same on the bytes as on the code points.
    [str.strip] reads white space as Python does, the code points beyond
    ASCII on their UTF-8 bytes; the split of a class attribute and letter
    case are read on the ASCII range.
  - A Python [int] is a [Z]; a [len(...)] is a [nat] injected with
    [Z.of_nat].
  - A call into a collaborator (the browser library, BeautifulSoup, the
    Markdown converters, the file system) either returns or raises; its
    result is an [outcome].  What a collaborator answers is an input of the
    model: a field of the handle the code holds.
  - [try ... except Exception as e] is [catch]. *)

From Stdlib Require Import ZArith List String Ascii Bool Arith Lia.
From Stdlib Require Import DecimalString.
From Stdlib Require Import Permutation.
Import ListNotations.

Set Warnings "-register-all".

Open Scope string_scope.
Open Scope list_scope.

(* ===================================================================== *)
(** * Part I: the program *)
(* ===================================================================== *)

(** ** Python-level helpers *)

Module Py.

(** The result of a call that may raise; [Raises msg] carries [str(e)]. *)
Inductive outcome (A : Type) : Type :=
| Returns (a : A)
| Raises (msg : string).
Arguments Returns {A} a.
Arguments Raises {A} msg.

Definition bind {A B} (c : outcome A) (k : A -> outcome B) : outcome B :=
  match c with
  | Returns a => k a
  | Raises msg => Raises msg
  end.

Definition catch {A} (c : outcome A) (handler : string -> A) : A :=
  match c with
  | Returns a => a
  | Raises msg => handler msg
  end.

(** Truthiness of an [Optional[str]]: [None] and [""] are false. *)
Definition truthy_opt_str (s : option string) : bool :=
  match s with
  | None => false
  | Some EmptyString => false
  | Some (String _ _) => true
  end.

(** The string of an [Optional[str]] that passed an [if]. *)
Definition selector_text (s : option string) : string :=
  match s with
  | Some sel => sel
  | None => ""
  end.

Definition truthy_str (s : string) : bool :=
  match s with
  | EmptyString => false
  | String _ _ => true
  end.

Definition truthy_list {A} (l : list A) : bool :=
  match l with
  | [] => false
  | _ :: _ => true
  end.

(** The line feed, ["\n"]. *)
Definition LF : ascii := ascii_of_nat 10.

(** [sub in s] for two [str]. *)
Fixpoint contains (sub s : string) : bool :=
  String.prefix sub s ||
  match s with
  | EmptyString => false
  | String _ rest => contains sub rest
  end.

(** White space, on the ASCII range: tab, line feed, vertical tab, form
    feed, carriage return, the four separators 28 to 31, and the space. *)
Definition is_space (c : ascii) : bool :=
  let n := nat_of_ascii c in
  ((9 <=? n)%nat && (n <=? 13)%nat) || ((28 <=? n)%nat && (n <=? 32)%nat).

(** A [str] from the bytes of its UTF-8 form. *)
Definition of_bytes (bytes : list nat) : string :=
  List.fold_right (fun b s => String (ascii_of_nat b) s) EmptyString bytes.

(** The white space beyond ASCII, in UTF-8: U+0085, U+00A0, U+1680, U+2000
    to U+200A, U+2028, U+2029, U+202F, U+205F and U+3000. *)
Definition wide_spaces : list string :=
  List.map of_bytes
    ([[194; 133]; [194; 160]; [225; 154; 128]]
     ++ List.map (fun k => [226; 128; 128 + k]) (List.seq 0 11)
     ++ [[226; 128; 168]; [226; 128; 169]; [226; 128; 175];
         [226; 129; 159]; [227; 128; 128]]).

(** The number of bytes of the white-space code point that [s] starts
    with, 0 if it starts with none. *)
Definition space_width (spaces : list string) (s : string) : nat :=
  match s with
  | EmptyString => 0
  | String c _ =>
      if is_space c then 1
      else match List.find (fun w => String.prefix w s) spaces with
           | Some w => String.length w
           | None => 0
           end
  end.

(** [s] without the white space it starts with; [skip] counts the bytes
    still to drop of a code point found to be white space. *)
Fixpoint drop_spaces (spaces : list string) (skip : nat) (s : string)
  : string :=
  match s with
  | EmptyString => EmptyString
  | String _ rest =>
      match skip with
      | S k => drop_spaces spaces k rest
      | O =>
          match space_width spaces s with
          | O => s
          | S k => drop_spaces spaces k rest
          end
      end
  end.

Definition reverse (s : string) : string :=
  string_of_list_ascii (List.rev (list_ascii_of_string s)).

Definition lstrip (s : string) : string := drop_spaces wide_spaces 0 s.

(** The same from the end: on the reversed bytes, the reversed forms. *)
Definition rstrip (s : string) : string :=
  reverse (drop_spaces (List.map reverse wide_spaces) 0 (reverse s)).

(** [s.strip()]. *)
Definition strip (s : string) : string := rstrip (lstrip s).

(** [s.split()], with white space read on the ASCII range: the maximal
    runs without white space; [cur] is the run being read. *)
Fixpoint split_from (cur s : string) : list string :=
  match s with
  | EmptyString => if truthy_str cur then [cur] else []
  | String c rest =>
      if is_space c then
        if truthy_str cur then cur :: split_from EmptyString rest
        else split_from EmptyString rest
      else split_from (cur ++ String c EmptyString) rest
  end.

Definition split (s : string) : list string := split_from EmptyString s.

(** [s.lower()], on the ASCII letters. *)
Definition lower_ascii (c : ascii) : ascii :=
  let n := nat_of_ascii c in
  if ((65 <=? n)%nat && (n <=? 90)%nat)%bool then ascii_of_nat (n + 32) else c.

Fixpoint lower (s : string) : string :=
  match s with
  | EmptyString => EmptyString
  | String c rest => String (lower_ascii c) (lower rest)
  end.

(** The values a JSON argument can hold that the program tests or prints. *)
Inductive value : Type :=
| VNone
| VBool (b : bool)
| VInt (z : Z)
| VStr (s : string).

(** [bool(v)]. *)
Definition truthy (v : value) : bool :=
  match v with
  | VNone => false
  | VBool b => b
  | VInt z => negb (z =? 0)%Z
  | VStr s => truthy_str s
  end.

(** [str(v)]. *)
Definition str (v : value) : string :=
  match v with
  | VNone => "None"
  | VBool true => "True"
  | VBool false => "False"
  | VInt z => NilZero.string_of_int (Z.to_int z)
  | VStr s => s
  end.

(** A [dict] with [str] keys, in insertion order. *)
Definition dict (V : Type) : Type := list (string * V).

(** [d[k] = v]: a key already there keeps its place. *)
Fixpoint dict_set {V} (k : string) (v : V) (d : dict V) : dict V :=
  match d with
  | [] => [(k, v)]
  | (k', v') :: rest =>
      if String.eqb k' k then (k', v) :: rest
      else (k', v') :: dict_set k v rest
  end.

(** [dict(pairs)]. *)
Definition dict_of {V} (pairs : list (string * V)) : dict V :=
  List.fold_left (fun d kv => dict_set (fst kv) (snd kv) d) pairs [].

Fixpoint mem (x : string) (l : list string) : bool :=
  match l with
  | [] => false
  | y :: rest => String.eqb x y || mem x rest
  end.

End Py.

Import Py.

Declare Scope py_scope.
Delimit Scope py_scope with py.
Notation "x <- c ;; k" := (Py.bind c (fun x => k))
(at level 61, c at next level, right associativity) : py_scope.
Notation "c ;;; k" := (Py.bind c (fun _ => k))
(at level 61, right associativity) : py_scope.

(* --------------------------------------------------------------------- *)
(** ** [src/browser.py]: the browser manager *)
(* --------------------------------------------------------------------- *)

Module Session.
Section Manager.

(** A tab handle of the browser library, and its two properties the
    manager reads. *)
Variable Tab : Type.
Variable tab_url : Tab -> outcome string.
Variable tab_title : Tab -> outcome string.

(** A [Chromium] handle: what each of its members answers.  [get_tabs] is
    [None] when the object has no such attribute ([hasattr] is false). *)
Record Chromium : Type := {
  quit : outcome unit;
  latest_tab : outcome (option Tab);
  get_tabs : option (outcome (list Tab))
}.

(** The two fields [__init__] sets. *)
Record BrowserManager : Type := {
  _browser : option Chromium;
  _current_tab : option Tab
}.

(** [__init__]. *)
Definition init : BrowserManager :=
  {| _browser := None; _current_tab := None |}.

(** The value of [get_status]. *)
Inductive Status : Type :=
| StatusNotInitialised                         (* running False, message *)
| StatusNoTab                                  (* running True, message *)
| StatusOk (url title : string) (tab_count : Z)  (* running True *)
| StatusFailed (error : string).               (* running False, error *)

Definition running (st : Status) : bool :=
  match st with
  | StatusNotInitialised => false
  | StatusNoTab => true
  | StatusOk _ _ _ => true
  | StatusFailed _ => false
  end.

(** A method of the manager: it may write the fields, and it may raise;
    a field written before a raise stays written. *)
Definition method (A : Type) : Type :=
  BrowserManager -> BrowserManager * outcome A.

(** [get_browser]. *)
Definition get_browser (m : BrowserManager) : option Chromium :=
  _browser m.

(** [get_current_tab]. *)
Definition get_current_tab : method (option Tab) := fun m =>
  match _browser m with
  | None => (m, Returns None)
  | Some b =>
      match _current_tab m with
      | None =>
          match latest_tab b with
          | Returns t =>
              ({| _browser := _browser m; _current_tab := t |}, Returns t)
          | Raises msg => (m, Raises msg)
          end
      | Some t => (m, Returns (Some t))
      end
  end.

(** [set_current_tab]. *)
Definition set_current_tab (tab : option Tab) (m : BrowserManager)
  : BrowserManager :=
  {| _browser := _browser m; _current_tab := tab |}.

(** The inner [try] of [get_status]: the tab count, 1 when the probe is
    missing or raises. *)
Definition probe_tab_count (b : Chromium) : Z :=
  match get_tabs b with
  | Some (Returns tabs) => Z.of_nat (List.length tabs)
  | Some (Raises _) => 1%Z
  | None => 1%Z
  end.

(** [get_status]. *)
Definition get_status (m : BrowserManager) : BrowserManager * Status :=
  match _browser m with
  | None => (m, StatusNotInitialised)
  | Some b =>
      let '(m1, r) := get_current_tab m in
      match r with
      | Raises msg => (m1, StatusFailed ("获取状态失败: " ++ msg))
      | Returns None => (m1, StatusNoTab)
      | Returns (Some tab) =>
          let tab_count := probe_tab_count b in
          (m1,
           catch (url <- tab_url tab ;;
                  title <- tab_title tab ;;
                  Returns (StatusOk url title tab_count))%py
                 (fun msg => StatusFailed ("获取状态失败: " ++ msg)))
      end
  end.

(** The value of [init_browser] and of [close_browser]. *)
Inductive InitResult : Type :=
| InitAlreadyRunning (status : Status)   (* success True *)
| InitLaunched (status : Status)         (* success True *)
| InitFailed (error : string).           (* success False *)

Definition init_success (r : InitResult) : bool :=
  match r with
  | InitAlreadyRunning _ => true
  | InitLaunched _ => true
  | InitFailed _ => false
  end.

Inductive CloseResult : Type :=
| CloseNotRunning                        (* success True *)
| CloseDone                              (* success True *)
| CloseFailed (error : string).          (* success False *)

Definition close_success (r : CloseResult) : bool :=
  match r with
  | CloseNotRunning => true
  | CloseDone => true
  | CloseFailed _ => false
  end.

(** [init_browser].  [launch] is what building the options and calling
    [Chromium(addr_or_opts=options)] gives for the arguments passed. *)
Definition init_browser (launch : outcome Chromium) (m : BrowserManager)
  : BrowserManager * InitResult :=
  match _browser m with
  | Some _ =>
      let '(m1, st) := get_status m in (m1, InitAlreadyRunning st)
  | None =>
      match launch with
      | Raises msg => (m, InitFailed ("初始化浏览器失败: " ++ msg))
      | Returns b =>
          let m1 := {| _browser := Some b; _current_tab := _current_tab m |} in
          match latest_tab b with
          | Raises msg => (m1, InitFailed ("初始化浏览器失败: " ++ msg))
          | Returns t =>
              let m2 := {| _browser := Some b; _current_tab := t |} in
              let '(m3, st) := get_status m2 in (m3, InitLaunched st)
          end
      end
  end.

(** [close_browser]. *)
Definition close_browser (m : BrowserManager)
  : BrowserManager * CloseResult :=
  match _browser m with
  | None => (m, CloseNotRunning)
  | Some b =>
      match quit b with
      | Returns _ =>
          ({| _browser := None; _current_tab := None |}, CloseDone)
      | Raises msg =>
          ({| _browser := None; _current_tab := None |},
           CloseFailed ("关闭浏览器失败: " ++ msg))
      end
  end.

(** [is_running]. *)
Definition is_running (m : BrowserManager) : bool :=
  match _browser m with
  | None => false
  | Some _ => true
  end.

(** [ensure_browser]; [launch] is what [init_browser()] with its default
    arguments would get. *)
Definition ensure_browser (launch : outcome Chromium) (m : BrowserManager)
  : BrowserManager * bool :=
  if negb (is_running m) then
    let '(m1, r) := init_browser launch m in (m1, init_success r)
  else (m, true).

(** The prologue every tool shares:
    [if not ensure_browser(): return error; tab = get_current_tab();
     if tab is None: return error]. *)
Inductive Acquired : Type :=
| NoBrowser                (* "无法初始化浏览器" *)
| NoTab                    (* "没有可用的标签页" *)
| GotTab (tab : Tab).

Definition acquire_tab (launch : outcome Chromium) : method Acquired :=
  fun m =>
    let '(m1, ok) := ensure_browser launch m in
    if negb ok then (m1, Returns NoBrowser)
    else
      let '(m2, r) := get_current_tab m1 in
      match r with
      | Raises msg => (m2, Raises msg)
      | Returns None => (m2, Returns NoTab)
      | Returns (Some tab) => (m2, Returns (GotTab tab))
      end.

(** Without a browser handle there is no tracked tab. *)
Definition tab_needs_browser (m : BrowserManager) : Prop :=
  _browser m = None -> _current_tab m = None.

(** One call on the manager, as the rest of the program makes them.
    [set_current_tab] is only called by [switch_to_tab], past its guard
    [browser = get_browser(); if browser is None: return ...]. *)
Inductive call : BrowserManager -> BrowserManager -> Prop :=
| call_init launch m :
    call m (fst (init_browser launch m))
| call_status m :
    call m (fst (get_status m))
| call_current_tab m :
    call m (fst (get_current_tab m))
| call_ensure launch m :
    call m (fst (ensure_browser launch m))
| call_set_tab tab m :
    get_browser m <> None ->
    call m (set_current_tab tab m)
| call_close m :
    call m (fst (close_browser m)).

(** The states the manager can be in: [__init__] followed by calls. *)
Inductive reachable : BrowserManager -> Prop :=
| reach_init : reachable init
| reach_call m m' : reachable m -> call m m' -> reachable m'.

End Manager.

Arguments quit {Tab} _.
Arguments latest_tab {Tab} _.
Arguments get_tabs {Tab} _.
Arguments _browser {Tab} _.
Arguments _current_tab {Tab} _.
Arguments init {Tab}.
Arguments get_browser {Tab} _.
Arguments get_current_tab {Tab} _.
Arguments set_current_tab {Tab} _ _.
Arguments close_browser {Tab} _.
Arguments is_running {Tab} _.
Arguments NoBrowser {Tab}.
Arguments NoTab {Tab}.
Arguments GotTab {Tab} _.
Arguments tab_needs_browser {Tab} _.

(** A browser whose [quit()] raises. *)
Definition stubborn_browser : Chromium unit :=
  {| quit := Raises "connection lost";
     latest_tab := Returns (Some tt);
     get_tabs := None |}.

Definition launched : BrowserManager unit :=
  fst (init_browser unit (fun _ => Returns "about:blank")
         (fun _ => Returns "") (Returns stubborn_browser) init).

End Session.

(* --------------------------------------------------------------------- *)
(** ** Element trees and the selectors the program uses *)
(* --------------------------------------------------------------------- *)

Module Dom.

(** What an element carries itself: [uid] stands for the identity of the
    Python object, so that a handle obtained earlier still names its
    element after the tree around it has changed. *)
Record label : Type := {
  uid : nat;
  tag : string;
  attrs : list (string * string)
}.

Inductive node : Type :=
| Element (l : label) (children : list node)
| Text (s : string).

(** A parsed document: the nodes under the document object. *)
Definition soup : Type := list node.

(** [element.get(name)]. *)
Fixpoint attr (name : string) (a : list (string * string)) : option string :=
  match a with
  | [] => None
  | (k, v) :: rest => if String.eqb k name then Some v else attr name rest
  end.

(** The selectors that occur in the program, parsed. *)
Inductive selector : Type :=
| ByTag (name : string)                  (* 'script', 'tag:thead' *)
| ByClass (name : string)                (* '.sidebar' *)
| ById (name : string)                   (* '#content' *)
| ByAttr (name value : string)           (* '[role="main"]' *)
| ByAttrContains (name value : string).  (* '[class*="ad-"]' *)

(** Whether an element matches a selector: it depends on the element's own
    tag and attributes only. *)
Definition matches (sel : selector) (l : label) : bool :=
  match sel with
  | ByTag name => String.eqb (tag l) name
  | ByClass name =>
      match attr "class" (attrs l) with
      | Some v => mem name (split v)
      | None => false
      end
  | ById name =>
      match attr "id" (attrs l) with
      | Some v => String.eqb v name
      | None => false
      end
  | ByAttr name value =>
      match attr name (attrs l) with
      | Some v => String.eqb v value
      | None => false
      end
  | ByAttrContains name value =>
      match attr name (attrs l) with
      | Some v => contains value v
      | None => false
      end
  end.

(** The elements below and including a node that satisfy [p], in document
    order. *)
Fixpoint find_all (p : label -> bool) (n : node) : list node :=
  match n with
  | Element l children =>
      (if p l then [n] else []) ++ flat_map (find_all p) children
  | Text _ => []
  end.

(** [soup.select(selector)]. *)
Definition select (sel : selector) (d : soup) : list node :=
  flat_map (find_all (matches sel)) d.

(** [soup.select_one(selector)]. *)
Definition select_one (sel : selector) (d : soup) : option node :=
  List.hd_error (select sel d).

(** [soup.find(name)]. *)
Definition find (name : string) (d : soup) : option node :=
  select_one (ByTag name) d.

(** [element.eles(sel)] and [element.ele(sel)] of the browser library:
    the matches strictly below the element. *)
Definition eles (sel : selector) (n : node) : list node :=
  match n with
  | Element _ children => select sel children
  | Text _ => []
  end.

Definition ele (sel : selector) (n : node) : option node :=
  List.hd_error (eles sel n).

(** The tree without the elements that satisfy [p], and without what is
    below them. *)
Fixpoint prune_node (p : label -> bool) (n : node) : list node :=
  match n with
  | Element l children =>
      if p l then [] else [Element l (flat_map (prune_node p) children)]
  | Text _ => [n]
  end.

Definition prune (p : label -> bool) (d : soup) : soup :=
  flat_map (prune_node p) d.

(** [element.decompose()]: the element with this identity leaves the
    tree, with all below it; nothing happens if it has left already. *)
Definition decompose (n : node) (d : soup) : soup :=
  match n with
  | Element l _ => prune (fun l' => Nat.eqb (uid l') (uid l)) d
  | Text _ => d
  end.

(** The labels of all elements of a tree, in document order. *)
Fixpoint labels (n : node) : list label :=
  match n with
  | Element l children => l :: flat_map labels children
  | Text _ => []
  end.

Definition soup_labels (d : soup) : list label := flat_map labels d.

(** The identities behind a list of handles. *)
Definition handle_ids (elements : list node) : list nat :=
  flat_map (fun n => match n with
                     | Element l _ => [uid l]
                     | Text _ => []
                     end) elements.

(** Whether some selector of a list matches. *)
Definition matches_any (selectors : list selector) (l : label) : bool :=
  List.existsb (fun sel => matches sel l) selectors.

(** No two elements of the document are the same object. *)
Definition distinct (d : soup) : Prop :=
  NoDup (List.map uid (soup_labels d)).

End Dom.

(* --------------------------------------------------------------------- *)
(** ** [src/tools/markdown.py] *)
(* --------------------------------------------------------------------- *)

Module Markdown.
Import Dom.

(** *** [re.sub(r'\n{3,}', '\n\n', text)] *)

(** The number of line feeds [text] starts with: what [\n{3,}], greedy,
    would take at this position. *)
Fixpoint leading_lf (text : string) : nat :=
  match text with
  | EmptyString => 0
  | String c rest => if Ascii.eqb c LF then S (leading_lf rest) else 0
  end.

(** The scan of [re.sub], left to right.  [skip] characters are still
    inside the last match and are passed over.  Past them the pattern is
    tried here: a run of three or more line feeds matches, whole, and two
    line feeds are written for it; otherwise the character is copied and
    the scan moves one character on. *)
Fixpoint sub_from (skip : nat) (text : string) : string :=
  match text with
  | EmptyString => EmptyString
  | String c rest =>
      match skip with
      | S skip' => sub_from skip' rest
      | O =>
          if (3 <=? leading_lf text)%nat then
            String LF (String LF (sub_from (leading_lf text - 1) rest))
          else String c (sub_from 0 rest)
      end
  end.

Definition collapse_blank_lines (text : string) : string := sub_from 0 text.

(** *** [_clean_html] *)

(** The selectors of the [for] loop, in its order. *)
Definition ad_selectors : list selector :=
  [ ByTag "script"; ByTag "style"; ByTag "iframe"; ByTag "noscript";
    ByAttrContains "class" "ad-"; ByAttrContains "class" "advertisement";
    ByAttrContains "id" "ad-"; ByAttrContains "id" "advertisement";
    ByClass "sidebar"; ByClass "footer"; ByClass "header-ad";
    ByAttrContains "class" "social-share"; ByAttrContains "class" "cookie" ].

(** [for element in elements: element.decompose()]. *)
Definition decompose_each (elements : list node) (d : soup) : soup :=
  List.fold_left (fun d element => decompose element d) elements d.

(** [for selector in selectors: for element in soup.select(selector): ...]. *)
Definition remove_selected (selectors : list selector) (d : soup) : soup :=
  List.fold_left (fun d sel => decompose_each (select sel d) d) selectors d.

(** *** [_extract_main_content] *)

Definition main_selectors : list selector :=
  [ ByTag "main"; ByTag "article"; ByAttr "role" "main";
    ByClass "main-content"; ById "main-content";
    ByClass "content"; ById "content";
    ByClass "post-content"; ByClass "article-content" ].

(** [for selector in main_selectors: main = soup.select_one(selector);
     if main: return ...]: the element returned, if the loop returns. *)
Fixpoint first_selected (selectors : list selector) (d : soup)
  : option node :=
  match selectors with
  | [] => None
  | sel :: rest =>
      match select_one sel d with
      | Some main => Some main
      | None => first_selected rest d
      end
  end.

(** *** The libraries the module imports *)

(** [markdownify] and [html2text] are [None] when the import failed.
    [markdownify] stands for [markdownify.markdownify] called with the
    options the program always passes (ATX headings, [-] bullets, [**],
    strip script and style); [html2text] for [HTML2Text().handle] after the
    nine assignments, given the value of [ignore_images]. *)
Record Libraries : Type := {
  parse : string -> soup;            (* BeautifulSoup(html, 'lxml') *)
  to_str : soup -> string;           (* str(soup); str(tag) is to_str [tag] *)
  markdownify : option (string -> outcome string);
  html2text : option (bool -> string -> outcome string);
  stem : string -> string;           (* Path(p).stem *)
  absolute : string -> string;       (* str(Path(p).absolute()) *)
  write_text : string -> string -> outcome unit
                                     (* mkdir(parents), open(p, 'w'), write *)
}.

Definition USE_MARKDOWNIFY (lib : Libraries) : bool :=
  match markdownify lib with Some _ => true | None => false end.

Definition USE_HTML2TEXT (lib : Libraries) : bool :=
  match html2text lib with Some _ => true | None => false end.

(** The tab: what its four properties answer. *)
Record Tab : Type := {
  url : outcome string;
  title : outcome string;
  html : outcome string;
  text : outcome string
}.

Definition Manager : Type := Session.BrowserManager Tab.

Section WithLibraries.

Variable lib : Libraries.

(** [_clean_html]. *)
Definition _clean_html (html : string) (remove_ads : bool) : string :=
  let soup := parse lib html in
  to_str lib (if remove_ads then remove_selected ad_selectors soup else soup).

(** [_extract_main_content]. *)
Definition _extract_main_content (html : string) : string :=
  let soup := parse lib html in
  match first_selected main_selectors soup with
  | Some main => to_str lib [main]
  | None =>
      match find "body" soup with
      | Some body => to_str lib [body]
      | None => html
      end
  end.

(** [_html_to_markdown_markdownify]; the name is unbound when the import
    failed. *)
Definition _html_to_markdown_markdownify (html : string) : outcome string :=
  match markdownify lib with
  | Some convert => convert html
  | None => Raises "name 'markdownify' is not defined"
  end.

(** [_html_to_markdown_html2text]. *)
Definition _html_to_markdown_html2text (html : string) (ignore_images : bool)
  : outcome string :=
  match html2text lib with
  | Some handle => handle ignore_images html
  | None => Raises "name 'html2text' is not defined"
  end.

(** The metadata block of [page_to_markdown]. *)
Definition metadata_block (title url file_path : string) : string :=
  "# " ++ title ++ String LF (String LF
  ("**URL**: " ++ url ++ "  " ++ String LF
  ("**转换时间**: " ++ stem lib file_path ++ String LF (String LF
  ("---" ++ String LF (String LF EmptyString)))))).

(** The dictionary [page_to_markdown] returns; its [message] and [stats]
    entries are left out. *)
Inductive SaveResult : Type :=
| SaveFailed (error : string)
| Saved (file_path url title converter : string).

(** Lines 193 to 199, shared with [get_page_content]: the optional
    narrowing to the main content and the optional cleaning. *)
Definition prepare (html : string) (extract_main remove_ads : bool)
  : string :=
  let html := if extract_main then _extract_main_content html else html in
  if remove_ads then _clean_html html true else html.

(** Lines 201 to 211: the converter an ["auto"] request resolves to;
    [None] is the early return for a missing library. *)
Definition choose_converter (converter : string) : option string :=
  if String.eqb converter "auto" then
    if USE_MARKDOWNIFY lib then Some "markdownify"
    else if USE_HTML2TEXT lib then Some "html2text"
    else None
  else Some converter.

(** Lines 213 to 238: the conversion, or the dictionary of an early
    return. *)
Definition convert (converter html : string) (include_images : bool)
  : outcome (SaveResult + string) :=
  (if String.eqb converter "markdownify" then
     if negb (USE_MARKDOWNIFY lib) then
       Returns (inl (SaveFailed "markdownify 未安装"))
     else
       md <- _html_to_markdown_markdownify html ;; Returns (inr md)
   else if String.eqb converter "html2text" then
     if negb (USE_HTML2TEXT lib) then
       Returns (inl (SaveFailed "html2text 未安装"))
     else
       md <- _html_to_markdown_html2text html (negb include_images) ;;
       Returns (inr md)
   else
     Returns (inl (SaveFailed ("不支持的转换器: " ++ converter)%string)))%py.

(** What [page_to_markdown] does once it holds the tab.  The second
    component is the text passed to [f.write], if the call got there. *)
Definition save_page (tab : Tab) (file_path : string)
  (include_images remove_ads extract_main : bool) (converter : string)
  (add_metadata : bool) : outcome (SaveResult * option string) :=
  (url <- url tab ;;
   title <- title tab ;;
   html <- html tab ;;
   if negb (truthy_str html) then
     Returns (SaveFailed "无法获取页面 HTML", None)
   else
     let html := prepare html extract_main remove_ads in
     match choose_converter converter with
     | None =>
         Returns
           (SaveFailed "未安装 Markdown 转换库，请安装 markdownify 或 html2text",
            None)
     | Some converter =>
         c <- convert converter html include_images ;;
         match c with
         | inl failure => Returns (failure, None)
         | inr markdown_content =>
             let markdown_content := collapse_blank_lines markdown_content in
             let markdown_content :=
               if add_metadata
               then (metadata_block title url file_path ++ markdown_content)%string
               else markdown_content in
             write_text lib file_path markdown_content ;;;
             Returns (Saved (absolute lib file_path) url title converter,
                      Some markdown_content)
         end
     end)%py.

(** [page_to_markdown].  A write that raised may have left a file behind;
    the text is reported only for a call that returned from the write. *)
Definition page_to_markdown
  (launch : outcome (Session.Chromium Tab)) (m : Manager)
  (file_path : string) (include_images remove_ads extract_main : bool)
  (converter : string) (add_metadata : bool)
  : Manager * (SaveResult * option string) :=
  let '(m1, a) := Session.acquire_tab Tab url title launch m in
  (m1,
   catch
     (a' <- a ;;
      match a' with
      | Session.NoBrowser => Returns (SaveFailed "无法初始化浏览器", None)
      | Session.NoTab => Returns (SaveFailed "没有可用的标签页", None)
      | Session.GotTab tab =>
          save_page tab file_path include_images remove_ads extract_main
            converter add_metadata
      end)%py
     (fun msg => (SaveFailed ("转换 Markdown 失败: " ++ msg), None))).

(** The dictionary [get_page_content] returns; [length] is left out. *)
Inductive ContentResult : Type :=
| ContentFailed (error : string)
| Content (url title format content : string).

(** What [get_page_content] does once it holds the tab. *)
Definition read_page (tab : Tab) (format : string)
  (extract_main remove_ads : bool) : outcome ContentResult :=
  (url <- url tab ;;
   title <- title tab ;;
   if String.eqb format "text" then
     content <- text tab ;;
     Returns (Content url title format content)
   else if String.eqb format "html" then
     html <- html tab ;;
     let html := prepare html extract_main remove_ads in
     Returns (Content url title format html)
   else if String.eqb format "markdown" then
     html <- html tab ;;
     let html := prepare html extract_main remove_ads in
     if USE_MARKDOWNIFY lib then
       content <- _html_to_markdown_markdownify html ;;
       Returns (Content url title format content)
     else if USE_HTML2TEXT lib then
       content <- _html_to_markdown_html2text html false ;;
       Returns (Content url title format content)
     else
       content <- text tab ;;
       Returns (Content url title "text" content)
   else
     Returns (ContentFailed ("不支持的格式: " ++ format)%string))%py.

(** [get_page_content]. *)
Definition get_page_content
  (launch : outcome (Session.Chromium Tab)) (m : Manager)
  (format : string) (extract_main remove_ads : bool)
  : Manager * ContentResult :=
  let '(m1, a) := Session.acquire_tab Tab url title launch m in
  (m1,
   catch
     (a' <- a ;;
      match a' with
      | Session.NoBrowser => Returns (ContentFailed "无法初始化浏览器")
      | Session.NoTab => Returns (ContentFailed "没有可用的标签页")
      | Session.GotTab tab => read_page tab format extract_main remove_ads
      end)%py
     (fun msg => ContentFailed ("获取页面内容失败: " ++ msg))).

End WithLibraries.

(** The elements [_clean_html] takes out, said in one piece: a script,
    style, iframe or noscript element; a class attribute containing "ad-",
    "advertisement", "social-share" or "cookie"; an id attribute containing
    "ad-" or "advertisement"; the class sidebar, footer or header-ad. *)
Definition denied (l : label) : bool :=
  mem (tag l) ["script"; "style"; "iframe"; "noscript"]
  || List.existsb (fun w => matches (ByAttrContains "class" w) l)
       ["ad-"; "advertisement"; "social-share"; "cookie"]
  || List.existsb (fun w => matches (ByAttrContains "id" w) l)
       ["ad-"; "advertisement"]
  || List.existsb (fun c => matches (ByClass c) l)
       ["sidebar"; "footer"; "header-ad"].

(** The same with the four words looked for in the id as well, as the
    specification has it. *)
Definition spec_denied (l : label) : bool :=
  mem (tag l) ["script"; "style"; "iframe"; "noscript"]
  || List.existsb (fun w => matches (ByAttrContains "class" w) l)
       ["ad-"; "advertisement"; "social-share"; "cookie"]
  || List.existsb (fun w => matches (ByAttrContains "id" w) l)
       ["ad-"; "advertisement"; "social-share"; "cookie"]
  || List.existsb (fun c => matches (ByClass c) l)
       ["sidebar"; "footer"; "header-ad"].

(** A stand-in for [str()]: tags without their attributes. *)
Fixpoint show (n : node) : string :=
  match n with
  | Element l children =>
      "<" ++ tag l ++ ">" ++ String.concat "" (List.map show children)
      ++ "</" ++ tag l ++ ">"
  | Text s => s
  end.

(** A setting whose parser answers [d] and that has no converter. *)
Definition lib_parsing (d : soup) : Libraries :=
  {| parse := fun _ => d;
     to_str := fun d => String.concat "" (List.map show d);
     markdownify := None;
     html2text := None;
     stem := fun p => p;
     absolute := fun p => p;
     write_text := fun _ _ => Returns tt |}.

Definition el (uid : nat) (tag : string) (attrs : list (string * string))
  (children : list node) : node :=
  Element {| uid := uid; tag := tag; attrs := attrs |} children.

(** [<html><body><div id="cookie-banner">We use cookies</div>
     <p>Hello</p></body></html>]. *)
Definition cookie_page : soup :=
  [ el 1 "html" []
      [ el 2 "body" []
          [ el 3 "div" [("id", "cookie-banner")] [Text "We use cookies"];
            el 4 "p" [] [Text "Hello"] ] ] ].

(** A page with an advertisement box that is also a sidebar and holds a
    script and a nested advertisement, an article before the main
    element, and a footer. *)
Definition busy_page : soup :=
  [ el 1 "html" []
      [ el 2 "body" []
          [ el 3 "div" [("class", "ad-box sidebar")]
              [ el 4 "script" [] [Text "track()"];
                el 5 "div" [("class", "advertisement")] [Text "Buy"] ];
            el 6 "article" [] [Text "Teaser"];
            el 7 "main" []
              [ el 8 "p" [] [Text "Story"];
                el 9 "div" [("id", "ad-slot")] [] ];
            el 10 "div" [("class", "footer")] [Text "Imprint"] ] ] ].

(** No run of three line feeds anywhere in the text. *)
Fixpoint settled (text : string) : bool :=
  match text with
  | EmptyString => true
  | String _ rest => (leading_lf text <? 3)%nat && settled rest
  end.

(** [n] line feeds. *)
Fixpoint lf_run (n : nat) : string :=
  match n with
  | O => EmptyString
  | S n' => String LF (lf_run n')
  end.

(** Two line feeds, ["\n\n"]. *)
Definition blank_line : string := String LF (String LF EmptyString).

(** A setting with markdownify alone, which answers with the text of a
    paragraph between blank lines; the parser is not called on. *)
Definition paragraph_lib : Libraries :=
  {| parse := fun _ => [];
     to_str := fun _ => "";
     markdownify :=
       Some (fun _ => Returns (blank_line ++ "hello" ++ blank_line)%string);
     html2text := None;
     stem := fun _ => "page";
     absolute := fun p => ("/srv/" ++ p)%string;
     write_text := fun _ _ => Returns tt |}.

(** The same without any converter. *)
Definition bare_lib : Libraries :=
  {| parse := fun _ => [];
     to_str := fun _ => "";
     markdownify := None;
     html2text := None;
     stem := fun _ => "page";
     absolute := fun p => ("/srv/" ++ p)%string;
     write_text := fun _ _ => Returns tt |}.

Definition paragraph_tab : Tab :=
  {| url := Returns "https://example.org/";
     title := Returns "Example";
     html := Returns "<p>hello</p>";
     text := Returns "hello" |}.

(** A manager that holds a browser with [tab] as its current tab. *)
Definition holding (tab : Tab) : Manager :=
  {| Session._browser :=
       Some {| Session.quit := Returns tt;
               Session.latest_tab := Returns (Some tab);
               Session.get_tabs := None |};
     Session._current_tab := Some tab |}.

End Markdown.

(* --------------------------------------------------------------------- *)
(** ** [src/tools/advanced.py]: [handle_infinite_scroll] *)
(* --------------------------------------------------------------------- *)

Module Scroll.

(** What the page answers during one pass of the loop body. *)
Record cycle : Type := {
  to_bottom : outcome unit;          (* tab.scroll.to_bottom() *)
  sleep : outcome unit;              (* time.sleep(scroll_pause) *)
  eles : string -> outcome nat;      (* tab.eles(sel, timeout=2), its len *)
  scrollHeight : outcome Z           (* tab.run_js('return document.body.scrollHeight') *)
}.

(** The tab: its answers in the first pass, the second pass, ... *)
Record Tab : Type := {
  url : outcome string;
  title : outcome string;
  cycles : nat -> cycle
}.

(** The calls made on the tab, in order (not a variable of the program). *)
Inductive tab_call : Type :=
| CallToBottom
| CallSleep
| CallEles (selector : string)
| CallRunJs.

Definition is_to_bottom (c : tab_call) : bool :=
  match c with
  | CallToBottom => true
  | _ => false
  end.

(** The local variables of the function, and the calls made so far. *)
Record Locals : Type := {
  scroll_count : Z;
  last_height : Z;
  last_count : Z;
  calls : list tab_call
}.

(** How the [for] loop was left. *)
Inductive exit : Type :=
| Break             (* the measurement equalled the last one *)
| RangeExhausted.   (* range(max_scrolls) ran out *)

Definition called (c : list tab_call) (l : Locals) : Locals :=
  {| scroll_count := scroll_count l;
     last_height := last_height l;
     last_count := last_count l;
     calls := calls l ++ c |}.

(** [for i in range(max_scrolls): ...] with [remaining] passes left and [i]
    passes done. *)
Fixpoint loop (tab : Tab) (check_selector : option string)
  (remaining i : nat) (l : Locals) : outcome (Locals * exit) :=
  match remaining with
  | O => Returns (l, RangeExhausted)
  | S remaining' =>
      let c := cycles tab i in
      (to_bottom c ;;;
       let l := called [CallToBottom] l in
       let l := {| scroll_count := scroll_count l + 1;
                   last_height := last_height l;
                   last_count := last_count l;
                   calls := calls l |} in
       sleep c ;;;
       let l := called [CallSleep] l in
       if truthy_opt_str check_selector then
         let sel := selector_text check_selector in
         n <- eles c sel ;;
         let l := called [CallEles sel] l in
         let current_count := Z.of_nat n in
         if (current_count =? last_count l)%Z then
           Returns (l, Break)
         else
           loop tab check_selector remaining' (S i)
                {| scroll_count := scroll_count l;
                   last_height := last_height l;
                   last_count := current_count;
                   calls := calls l |}
       else
         current_height <- scrollHeight c ;;
         let l := called [CallRunJs] l in
         if (current_height =? last_height l)%Z then
           Returns (l, Break)
         else
           loop tab check_selector remaining' (S i)
                {| scroll_count := scroll_count l;
                   last_height := current_height;
                   last_count := last_count l;
                   calls := calls l |})%py
  end.

(** [scroll_count = 0; last_height = 0; last_count = 0]. *)
Definition locals0 : Locals :=
  {| scroll_count := 0; last_height := 0; last_count := 0; calls := [] |}.

(** The body of the function once it holds the tab: the three assignments
    and the loop. *)
Definition run (tab : Tab) (max_scrolls : Z) (check_selector : option string)
  : outcome (Locals * exit) :=
  loop tab check_selector (Z.to_nat max_scrolls) 0 locals0.

(** The dictionary returned. *)
Inductive ScrollResult : Type :=
| ScrollDone (scroll_count : Z) (final_count final_height : option Z)
| ScrollFailed (error : string).

Definition Manager : Type := Session.BrowserManager Tab.

(** [handle_infinite_scroll]. *)
Definition handle_infinite_scroll
  (launch : outcome (Session.Chromium Tab)) (m : Manager)
  (max_scrolls : Z) (check_selector : option string)
  : Manager * ScrollResult :=
  let '(m1, a) := Session.acquire_tab Tab url title launch m in
  (m1,
   catch
     (a' <- a ;;
      match a' with
      | Session.NoBrowser => Returns (ScrollFailed "无法初始化浏览器")
      | Session.NoTab => Returns (ScrollFailed "没有可用的标签页")
      | Session.GotTab tab =>
          r <- run tab max_scrolls check_selector ;;
          let l := fst r in
          Returns
            (ScrollDone (scroll_count l)
               (if truthy_opt_str check_selector
                then Some (last_count l) else None)
               (if negb (truthy_opt_str check_selector)
                then Some (last_height l) else None))
      end)%py
     (fun msg => ScrollFailed ("处理无限滚动失败: " ++ msg))).

(** What pass [k] (counted from 0) measures: the number of elements that
    match [check_selector], or the scroll height of the page. *)
Definition measure (tab : Tab) (check_selector : option string) (k : nat)
  : outcome Z :=
  if truthy_opt_str check_selector then
    (n <- eles (cycles tab k) (selector_text check_selector) ;;
     Returns (Z.of_nat n))%py
  else scrollHeight (cycles tab k).

(** The variable the loop compares a measurement with, and writes it to. *)
Definition last_seen (check_selector : option string) (l : Locals) : Z :=
  if truthy_opt_str check_selector then last_count l else last_height l.

Definition seen (check_selector : option string) (v : Z) (l : Locals)
  : Locals :=
  if truthy_opt_str check_selector then
    {| scroll_count := scroll_count l;
       last_height := last_height l;
       last_count := v;
       calls := calls l |}
  else
    {| scroll_count := scroll_count l;
       last_height := v;
       last_count := last_count l;
       calls := calls l |}.

Definition measuring_call (check_selector : option string) : tab_call :=
  if truthy_opt_str check_selector
  then CallEles (selector_text check_selector)
  else CallRunJs.

(** The number of [to_bottom] calls made. *)
Definition scrolls_made (l : Locals) : Z :=
  Z.of_nat (List.length (List.filter is_to_bottom (calls l))).

(** A page that answers every call, with the given measurements. *)
Definition page_measuring (f : nat -> Z) : Tab :=
  {| url := Returns "about:blank";
     title := Returns "";
     cycles := fun k =>
       {| to_bottom := Returns tt;
          sleep := Returns tt;
          eles := fun _ => Returns (Z.to_nat (f k));
          scrollHeight := Returns (f k) |} |}.

(** A manager that holds a browser with [tab] as its current tab. *)
Definition holding (tab : Tab) : Manager :=
  {| Session._browser :=
       Some {| Session.quit := Returns tt;
               Session.latest_tab := Returns (Some tab);
               Session.get_tabs := None |};
     Session._current_tab := Some tab |}.

(** A page with nothing to measure in the first pass and content from the
    second pass on. *)
Definition late_page : Tab :=
  page_measuring (fun k => match k with O => 0 | S _ => 5 end)%Z.

(** A page that grows twice and then stays as it is. *)
Definition settling_page : Tab :=
  page_measuring (fun k => match k with O => 10 | 1%nat => 20 | _ => 30 end)%Z.

End Scroll.

(* --------------------------------------------------------------------- *)
(** ** [src/tools/advanced.py]: [extract_table_data] *)
(* --------------------------------------------------------------------- *)

Module Table.
Import Dom.

(** The tab: [ele] is [tab.ele(selector, timeout=10)], [None] for the
    empty element of a selector that matched nothing.  The element handed
    out is taken as it stands: the queries below it read this tree.
    [text_of] is [element.text] for the elements of the page: how the
    browser library lays out the text of an element (line breaks, white
    space) is its own affair and an input here. *)
Record Tab : Type := {
  url : outcome string;
  title : outcome string;
  ele : string -> outcome (option node);
  text_of : node -> string
}.

(** The file system: [json.dump] and [csv.writer] onto a path, parents
    made first. *)
Record Files : Type := {
  absolute : string -> string;
  write_json : string -> outcome unit;
  write_csv : string -> outcome unit
}.

Definition Manager : Type := Session.BrowserManager Tab.

(** [[cell.text.strip() for cell in cells]]; [text] is [element.text]. *)
Definition cell_texts (text : node -> string) (cells : list node)
  : list string :=
  List.map (fun cell => strip (text cell)) cells.

(** Lines 63 to 79: the header. *)
Definition extract_headers (text : node -> string) (table : node)
  : list string :=
  let headers :=
    match Dom.ele (ByTag "thead") table with
    | Some thead =>
        let header_cells := eles (ByTag "th") thead in
        let header_cells :=
          if negb (truthy_list header_cells)
          then eles (ByTag "td") thead else header_cells in
        cell_texts text header_cells
    | None => []
    end in
  if negb (truthy_list headers) then
    match Dom.ele (ByTag "tr") table with
    | Some first_row =>
        let cells := eles (ByTag "th") first_row in
        let cells :=
          if negb (truthy_list cells)
          then eles (ByTag "td") first_row else cells in
        cell_texts text cells
    | None => headers
    end
  else headers.

(** Lines 83 to 90: the rows to read. *)
Definition body_rows (table : node) (headers : list string)
  (include_header : bool) : list node :=
  match Dom.ele (ByTag "tbody") table with
  | Some tbody => eles (ByTag "tr") tbody
  | None =>
      let tr_list := eles (ByTag "tr") table in
      if truthy_list headers && include_header && truthy_list tr_list
      then List.tl tr_list else tr_list
  end.

(** Lines 92 to 99: the cells of each row; a row without cells is left
    out. *)
Fixpoint read_rows (text : node -> string) (tr_list : list node)
  : list (list string) :=
  match tr_list with
  | [] => []
  | tr :: rest =>
      let cells := eles (ByTag "td") tr in
      let cells :=
        if negb (truthy_list cells) then eles (ByTag "th") tr else cells in
      let row_data := cell_texts text cells in
      if truthy_list row_data then row_data :: read_rows text rest
      else read_rows text rest
  end.

(** The value under ["rows"]. *)
Inductive Rows : Type :=
| Records (data : list (dict string))
| Positional (data : list (list string)).

(** Lines 103 to 111. *)
Definition format_rows (headers : list string) (rows : list (list string))
  : Rows :=
  if truthy_list headers
  then Records (List.map (fun row => dict_of (List.combine headers row)) rows)
  else Positional rows.

(** The dictionary returned. *)
Inductive TableResult : Type :=
| TableFailed (error : string)
| TableJson (headers : option (list string)) (rows : Rows) (row_count : Z)
    (output_file : option string)
| TableCsv (row_count column_count : Z) (output_file : string).

Section WithFiles.

Variable fs : Files.

(** What [extract_table_data] does once it holds the tab. *)
Definition read_table (tab : Tab) (selector format : string)
  (output_file : option string) (include_header : bool)
  : outcome TableResult :=
  (found <- ele tab selector ;;
   match found with
   | None => Returns (TableFailed ("未找到表格: " ++ selector)%string)
   | Some table =>
       let headers := extract_headers (text_of tab) table in
       let rows :=
         read_rows (text_of tab) (body_rows table headers include_header) in
       if String.eqb format "json" then
         let data := format_rows headers rows in
         (if truthy_opt_str output_file
          then write_json fs (selector_text output_file)
          else Returns tt) ;;;
         Returns
           (TableJson (if include_header then Some headers else None)
              data (Z.of_nat (List.length rows)) output_file)
       else if String.eqb format "csv" then
         let output_file :=
           if negb (truthy_opt_str output_file) then "table_data.csv"
           else selector_text output_file in
         write_csv fs output_file ;;;
         Returns
           (TableCsv (Z.of_nat (List.length rows))
              (if truthy_list headers then Z.of_nat (List.length headers)
               else match rows with
                    | row :: _ => Z.of_nat (List.length row)
                    | [] => 0%Z
                    end)
              (absolute fs output_file))
       else
         Returns (TableFailed ("不支持的格式: " ++ format)%string)
   end)%py.

(** [extract_table_data]. *)
Definition extract_table_data
  (launch : outcome (Session.Chromium Tab)) (m : Manager)
  (selector format : string) (output_file : option string)
  (include_header : bool) : Manager * TableResult :=
  let '(m1, a) := Session.acquire_tab Tab url title launch m in
  (m1,
   catch
     (a' <- a ;;
      match a' with
      | Session.NoBrowser => Returns (TableFailed "无法初始化浏览器")
      | Session.NoTab => Returns (TableFailed "没有可用的标签页")
      | Session.GotTab tab =>
          read_table tab selector format output_file include_header
      end)%py
     (fun msg => TableFailed ("提取表格数据失败: " ++ msg))).

End WithFiles.

Definition cell (uid : nat) (tag text : string) : node :=
  Element {| uid := uid; tag := tag; attrs := [] |} [Text text].

Definition row (uid : nat) (cells : list node) : node :=
  Element {| uid := uid; tag := "tr"; attrs := [] |} cells.

(** The text nodes below an element, joined.  For an element that holds
    one text node, of one line and without white space at either end or
    in a run, this is what [element.text] answers; the cells of the tables
    below are such elements. *)
Fixpoint plain_text (n : node) : string :=
  match n with
  | Element _ children => String.concat "" (List.map plain_text children)
  | Text s => s
  end.

(** A table of two rows that sit directly below the [table] element, as a
    script leaves them that builds the table node by node. *)
Definition small_table : node :=
  Element {| uid := 1; tag := "table"; attrs := [] |}
    [ row 2 [cell 3 "th" "A"; cell 4 "th" "B"];
      row 5 [cell 6 "td" "1"; cell 7 "td" "2"] ].

(** The element the browser holds for the markup
    [<table><tr><th>A</th><th>B</th></tr><tr><td>1</td><td>2</td></tr>
     </table>]: the HTML parser puts rows written directly below [table]
    into a [tbody] of its own. *)
Definition small_table_in_tbody : node :=
  Element {| uid := 1; tag := "table"; attrs := [] |}
    [ Element {| uid := 8; tag := "tbody"; attrs := [] |}
        [ row 2 [cell 3 "th" "A"; cell 4 "th" "B"];
          row 5 [cell 6 "td" "1"; cell 7 "td" "2"] ] ].

(** A table with a [thead] whose cells are [td], and a [tbody]. *)
Definition headed_table : node :=
  Element {| uid := 1; tag := "table"; attrs := [] |}
    [ Element {| uid := 2; tag := "thead"; attrs := [] |}
        [ row 3 [cell 4 "td" "Name"; cell 5 "td" "Age"] ];
      Element {| uid := 6; tag := "tbody"; attrs := [] |}
        [ row 7 [cell 8 "td" "Ada"; cell 9 "td" "36"] ] ].

(** A page with one table, found by the tag locator [tag:table]; any other
    locator finds nothing. *)
Definition tab_showing (table : node) : Tab :=
  {| url := Returns "about:blank";
     title := Returns "";
     ele := fun selector =>
       Returns (if String.eqb selector "tag:table" then Some table
                else None);
     text_of := plain_text |}.

Definition no_files : Files :=
  {| absolute := fun p => p;
     write_json := fun _ => Returns tt;
     write_csv := fun _ => Returns tt |}.

Definition holding (tab : Tab) : Manager :=
  {| Session._browser :=
       Some {| Session.quit := Returns tt;
               Session.latest_tab := Returns (Some tab);
               Session.get_tabs := None |};
     Session._current_tab := Some tab |}.

End Table.

(* --------------------------------------------------------------------- *)
(** ** [src/tools/advanced.py]: [fill_form] *)
(* --------------------------------------------------------------------- *)

Module Form.

(** An element of a form: what its members answer. *)
Record Element : Type := {
  tag : outcome string;                  (* element.tag *)
  attr_type : outcome (option string);   (* element.attr('type') *)
  is_checked : outcome bool;             (* element.states.is_checked *)
  click : outcome unit;
  clear : outcome unit;
  input : string -> outcome unit;
  select : string -> outcome unit
}.

Record Tab : Type := {
  url : outcome string;
  title : outcome string;
  ele : string -> outcome (option Element);   (* tab.ele(sel, timeout=10) *)
  sleep : outcome unit                        (* time.sleep(wait_after_submit) *)
}.

Definition Manager : Type := Session.BrowserManager Tab.

(** Lines 313 to 343: the write, by tag and type. *)
Definition write_value (element : Element) (v : value) : outcome unit :=
  (t <- tag element ;;
   let tag := lower t in
   ty <- attr_type element ;;
   let input_type :=
     lower (match ty with
            | Some s => if truthy_str s then s else ""
            | None => ""
            end) in
   if String.eqb tag "input" then
     if mem input_type ["checkbox"; "radio"] then
       if truthy v then
         checked <- is_checked element ;;
         if negb checked then click element else Returns tt
       else
         checked <- is_checked element ;;
         if checked then click element else Returns tt
     else
       clear element ;;; input element (str v)
   else if String.eqb tag "textarea" then
     clear element ;;; input element (str v)
   else if String.eqb tag "select" then
     select element (str v)
   else
     clear element ;;; input element (str v))%py.

(** One pass of the loop over [fields.items()]: [None] when the selector
    went to [filled_fields], or the message that went to [errors]. *)
Definition fill_field (tab : Tab) (selector : string) (v : value)
  : option string :=
  catch
    (found <- ele tab selector ;;
     match found with
     | None => Returns (Some ("未找到元素: " ++ selector)%string)
     | Some element => write_value element v ;;; Returns None
     end)%py
    (fun msg => Some (selector ++ ": " ++ msg)%string).

(** The two lists the loop appends to. *)
Record Lists : Type := {
  filled_fields : list string;
  errors : list string
}.

(** [for selector, value in fields.items(): ...]. *)
Fixpoint fill_fields (tab : Tab) (fields : dict value) (l : Lists) : Lists :=
  match fields with
  | [] => l
  | (selector, v) :: rest =>
      fill_fields tab rest
        match fill_field tab selector v with
        | None =>
            {| filled_fields := filled_fields l ++ [selector];
               errors := errors l |}
        | Some message =>
            {| filled_fields := filled_fields l;
               errors := errors l ++ [message] |}
        end
  end.

(** Lines 352 to 363: the submit; the flag and the errors after it. *)
Definition submit (tab : Tab) (submit_selector : option string)
  (errors : list string) : bool * list string :=
  if truthy_opt_str submit_selector then
    let sel := selector_text submit_selector in
    catch
      (found <- ele tab sel ;;
       match found with
       | Some submit_btn =>
           click submit_btn ;;; sleep tab ;;; Returns (true, errors)
       | None =>
           Returns (false, errors ++ [("未找到提交按钮: " ++ sel)%string])
       end)%py
      (fun msg => (false, errors ++ [("提交表单失败: " ++ msg)%string]))
  else (false, errors).

(** The dictionary returned; its [message] entry is left out. *)
Inductive FormResult : Type :=
| FormFailed (error : string)
| FormDone (success : bool) (filled_fields : list string) (submitted : bool)
    (errors : option (list string)).

(** [fill_form]. *)
Definition fill_form
  (launch : outcome (Session.Chromium Tab)) (m : Manager)
  (fields : dict value) (submit_selector : option string)
  : Manager * FormResult :=
  let '(m1, a) := Session.acquire_tab Tab url title launch m in
  (m1,
   catch
     (a' <- a ;;
      match a' with
      | Session.NoBrowser => Returns (FormFailed "无法初始化浏览器")
      | Session.NoTab => Returns (FormFailed "没有可用的标签页")
      | Session.GotTab tab =>
          let l := fill_fields tab fields
                     {| filled_fields := []; errors := [] |} in
          let '(submitted, errors) := submit tab submit_selector (errors l) in
          Returns
            (FormDone (Nat.eqb (List.length errors) 0) (filled_fields l)
               submitted
               (if truthy_list errors then Some errors else None))
      end)%py
     (fun msg => FormFailed ("填写表单失败: " ++ msg))).

(** The selectors that went to [filled_fields], and the messages that
    went to [errors], said without the loop. *)
Definition filled_of (tab : Tab) (fields : dict value) : list string :=
  List.map fst
    (List.filter (fun f => match fill_field tab (fst f) (snd f) with
                           | None => true
                           | Some _ => false
                           end) fields).

Definition errors_of (tab : Tab) (fields : dict value) : list string :=
  flat_map (fun f => match fill_field tab (fst f) (snd f) with
                     | None => []
                     | Some message => [message]
                     end) fields.

(** A text input that takes what is typed. *)
Definition text_input : Element :=
  {| tag := Returns "INPUT";
     attr_type := Returns (Some "text");
     is_checked := Returns false;
     click := Returns tt;
     clear := Returns tt;
     input := fun _ => Returns tt;
     select := fun _ => Raises "not a select element" |}.

(** A page with one field, [#name]. *)
Definition login_page : Tab :=
  {| url := Returns "about:blank";
     title := Returns "";
     ele := fun selector =>
       Returns (if String.eqb selector "#name" then Some text_input
                else None);
     sleep := Returns tt |}.

Definition holding (tab : Tab) : Manager :=
  {| Session._browser :=
       Some {| Session.quit := Returns tt;
               Session.latest_tab := Returns (Some tab);
               Session.get_tabs := None |};
     Session._current_tab := Some tab |}.

End Form.

(* --------------------------------------------------------------------- *)
(** ** Measures on text *)
(* --------------------------------------------------------------------- *)

Module Text.

(** The text without its line feeds. *)
Fixpoint without_lf (text : string) : string :=
  match text with
  | EmptyString => EmptyString
  | String c rest =>
      if Ascii.eqb c LF then without_lf rest else String c (without_lf rest)
  end.

End Text.

(* --------------------------------------------------------------------- *)
(** ** Pages for the scroll loop *)
(* --------------------------------------------------------------------- *)

Module ScrollPages.
Import Scroll.

(** A page that answers every call of pass [k] and measures [f k]. *)
Definition measures (tab : Tab) (sel : option string) (f : nat -> Z)
  (k : nat) : Prop :=
  to_bottom (cycles tab k) = Returns tt /\
  sleep (cycles tab k) = Returns tt /\
  measure tab sel k = Returns (f k).

(** A page that is one unit longer in every pass. *)
Definition growing_page : Tab :=
  page_measuring (fun k => Z.of_nat k + 1)%Z.

End ScrollPages.

(* --------------------------------------------------------------------- *)
(** ** Reading results *)
(* --------------------------------------------------------------------- *)

Module Results.

(** [d.get(k)]. *)
Fixpoint dict_get {V} (k : string) (d : dict V) : option V :=
  match d with
  | [] => None
  | (k', v) :: rest => if String.eqb k' k then Some v else dict_get k rest
  end.

(** [list(d.keys())]. *)
Definition keys {V} (d : dict V) : list string := List.map fst d.

(** [len(data["rows"])]. *)
Definition rows_count (rows : Table.Rows) : nat :=
  match rows with
  | Table.Records data => List.length data
  | Table.Positional data => List.length data
  end.

End Results.

(* --------------------------------------------------------------------- *)
(** ** [src/tools/advanced.py]: [smart_extract] *)
(* --------------------------------------------------------------------- *)

Module Extract.

(** An element found below a container: what its members answer. *)
Record Found : Type := {
  tag : outcome string;                       (* element.tag *)
  text : outcome string;                      (* element.text *)
  attr : string -> outcome (option string)    (* element.attr(name) *)
}.

(** A container: [ele] is [container.ele(field_selector, timeout=2)],
    [None] for the empty element of a selector that matched nothing. *)
Record Container : Type := {
  ele : string -> outcome (option Found)
}.

(** The tab: [eles] is [tab.eles(selector, timeout=10)]. *)
Record Tab : Type := {
  url : outcome string;
  title : outcome string;
  eles : string -> outcome (list Container)
}.

Definition Manager : Type := Session.BrowserManager Tab.

(** The value stored under a field name. *)
Inductive FieldValue : Type :=
| Null                                        (* None *)
| Str (s : string)
| Link (text : string) (href : option string).  (* {"text": ..., "href": ...} *)

Definition of_attr (a : option string) : FieldValue :=
  match a with
  | Some s => Str s
  | None => Null
  end.

(** Lines 227 to 244: the value of one field of one container. *)
Definition extract_field (container : Container) (field_selector : string)
  : FieldValue :=
  catch
    (found <- ele container field_selector ;;
     match found with
     | Some element =>
         t <- tag element ;;
         if String.eqb t "img" then
           src <- attr element "src" ;; Returns (of_attr src)
         else if String.eqb t "a" then
           tx <- text element ;;
           href <- attr element "href" ;;
           Returns (Link tx href)
         else
           tx <- text element ;; Returns (Str (strip tx))
     | None => Returns Null
     end)%py
    (fun _ => Null).

(** [item = {}; for field_name, field_selector in fields.items(): ...]. *)
Definition extract_item (fields : dict string) (container : Container)
  : dict FieldValue :=
  List.fold_left
    (fun item f => dict_set (fst f) (extract_field container (snd f)) item)
    fields [].

(** [l[:limit]]: a negative [limit] counts from the end. *)
Definition slice_to {A} (limit : Z) (l : list A) : list A :=
  if (0 <=? limit)%Z then List.firstn (Z.to_nat limit) l
  else List.firstn (List.length l - Z.to_nat (- limit)) l.

(** The dictionary returned; its [message] entry is left out. *)
Inductive SmartResult : Type :=
| SmartFailed (error : string)
| SmartDone (count : Z) (data : list (dict FieldValue)).

(** [smart_extract]. *)
Definition smart_extract
  (launch : outcome (Session.Chromium Tab)) (m : Manager)
  (selector : string) (fields : dict string) (limit : Z)
  : Manager * SmartResult :=
  let '(m1, a) := Session.acquire_tab Tab url title launch m in
  (m1,
   catch
     (a' <- a ;;
      match a' with
      | Session.NoBrowser => Returns (SmartFailed "无法初始化浏览器")
      | Session.NoTab => Returns (SmartFailed "没有可用的标签页")
      | Session.GotTab tab =>
          containers <- eles tab selector ;;
          if negb (truthy_list containers) then
            Returns (SmartFailed ("未找到匹配的元素: " ++ selector)%string)
          else
            let containers := slice_to limit containers in
            let results := List.map (extract_item fields) containers in
            Returns (SmartDone (Z.of_nat (List.length results)) results)
      end)%py
     (fun msg => SmartFailed ("智能提取失败: " ++ msg))).

(** What the loop over the fields gives for one container, said without
    the loop. *)
Definition item_of (fields : dict string) (container : Container)
  : dict FieldValue :=
  List.map (fun f => (fst f, extract_field container (snd f))) fields.

(** A container below which no selector finds anything. *)
Definition bare_container : Container :=
  {| ele := fun _ => Returns None |}.

(** A page with three such containers under [.card]. *)
Definition three_cards : Tab :=
  {| url := Returns "about:blank";
     title := Returns "";
     eles := fun selector =>
       Returns (if String.eqb selector ".card"
                then [bare_container; bare_container; bare_container]
                else []) |}.

Definition holding (tab : Tab) : Manager :=
  {| Session._browser :=
       Some {| Session.quit := Returns tt;
               Session.latest_tab := Returns (Some tab);
               Session.get_tabs := None |};
     Session._current_tab := Some tab |}.

End Extract.

(* --------------------------------------------------------------------- *)
(** ** [src/tools/advanced.py]: [switch_to_tab] *)
(* --------------------------------------------------------------------- *)

Module Tabs.

(** A tab object: [tid] stands for its identity, which is what [==]
    between two tabs compares. *)
Record Tab : Type := {
  tid : nat;
  url : outcome string;
  title : outcome string;
  close : outcome unit
}.

Definition Manager : Type := Session.BrowserManager Tab.

(** A piece of code that reads and writes the manager and may raise. *)
Definition method (A : Type) : Type := Manager -> Manager * outcome A.

Definition ret {A} (a : A) : method A := fun m => (m, Returns a).

Definition lift {A} (c : outcome A) : method A := fun m => (m, c).

Definition mbind {A B} (c : method A) (k : A -> method B) : method B :=
  fun m =>
    let '(m1, r) := c m in
    match r with
    | Returns a => k a m1
    | Raises msg => (m1, Raises msg)
    end.

(** [browser_manager.set_current_tab(tab)]. *)
Definition set_tab (tab : option Tab) : method unit :=
  fun m => (Session.set_current_tab tab m, Returns tt).

(** [browser_manager.get_current_tab()]. *)
Definition current_tab : method (option Tab) := Session.get_current_tab.

(** [a == b] for two values that are a tab or [None]. *)
Definition same_tab (a b : option Tab) : bool :=
  match a, b with
  | Some x, Some y => Nat.eqb (tid x) (tid y)
  | None, None => true
  | _, _ => false
  end.

(** [tab.url], [tab.title] and [tab.close()] on a value that may be
    [None]. *)
Definition url_of (t : option Tab) : outcome string :=
  match t with
  | Some tab => url tab
  | None => Raises "'NoneType' object has no attribute 'url'"
  end.

Definition title_of (t : option Tab) : outcome string :=
  match t with
  | Some tab => title tab
  | None => Raises "'NoneType' object has no attribute 'title'"
  end.

Definition close_of (t : option Tab) : outcome unit :=
  match t with
  | Some tab => close tab
  | None => Raises "'NoneType' object has no attribute 'close'"
  end.

(** The dictionary of one tab in a listing, and the dictionary
    returned. *)
Record TabInfo : Type := {
  info_index : Z;
  info_url : string;
  info_title : string;
  is_current : bool
}.

Inductive TabResult : Type :=
| TabFailed (error : string)
| TabNew (url title : string)
| TabSwitched (index : option Z) (url title : string)
| TabClosed (index : option Z)
| TabListed (tabs : list TabInfo) (count : Z).

End Tabs.

Declare Scope tab_scope.
Delimit Scope tab_scope with tab.
Notation "x <- c ;; k" := (Tabs.mbind c (fun x => k))
  (at level 61, c at next level, right associativity) : tab_scope.
Notation "c ;;; k" := (Tabs.mbind c (fun _ => k))
  (at level 61, right associativity) : tab_scope.

Module TabSwitch.
Import Tabs.

(** [[browser_manager.get_current_tab()]]. *)
Definition current_alone : method (list (option Tab)) :=
  (t <- current_tab ;; ret [t])%tab.

(** Lines 616 to 619 and 720 to 723: the tabs to choose from.  Without a
    [get_tabs] member, or when it raises, the list holds the current tab
    alone; a [get_current_tab] that raises inside the [try] is caught and
    the call made again. *)
Definition list_tabs (browser : Session.Chromium Tab)
  : method (list (option Tab)) :=
  fun m =>
    match Session.get_tabs browser with
    | Some (Returns tabs) => (m, Returns (List.map Some tabs))
    | Some (Raises _) => current_alone m
    | None =>
        let '(m1, r) := current_alone m in
        match r with
        | Returns tabs => (m1, Returns tabs)
        | Raises _ => current_alone m1
        end
    end.

(** Lines 685 to 688: the same with the current tab already at hand. *)
Definition list_tabs_or (browser : Session.Chromium Tab)
  (current : option Tab) : list (option Tab) :=
  match Session.get_tabs browser with
  | Some (Returns tabs) => List.map Some tabs
  | Some (Raises _) => [current]
  | None => [current]
  end.

(** [0 <= index < len(tabs)]. *)
Definition in_range {A} (index : Z) (tabs : list A) : bool :=
  ((0 <=? index) && (index <? Z.of_nat (List.length tabs)))%Z.

(** [tabs[index]] for an index in range. *)
Definition at_index (index : Z) (tabs : list (option Tab)) : option Tab :=
  List.nth (Z.to_nat index) tabs None.

Definition out_of_range (index : Z) : TabResult :=
  TabFailed ("标签页索引 " ++ str (VInt index) ++ " 超出范围").

(** [for tab in tabs: if pattern in key(tab): ... return]: the first tab
    whose key holds the pattern, if the loop comes to one. *)
Fixpoint first_with (key : option Tab -> outcome string) (pattern : string)
  (tabs : list (option Tab)) : outcome (option (option Tab)) :=
  match tabs with
  | [] => Returns None
  | tab :: rest =>
      (k <- key tab ;;
       if contains pattern k then Returns (Some tab)
       else first_with key pattern rest)%py
  end.

(** [set_current_tab(tab); return {..., "url": tab.url, "title":
    tab.title}]. *)
Definition switch_to (index : option Z) (tab : option Tab)
  : method TabResult :=
  (set_tab tab ;;;
   u <- lift (url_of tab) ;;
   t <- lift (title_of tab) ;;
   ret (TabSwitched index u t))%tab.

(** The listing, from position [i] on. *)
Fixpoint describe (i : Z) (tabs : list (option Tab))
  : method (list TabInfo) :=
  match tabs with
  | [] => ret []
  | tab :: rest =>
      (u <- lift (url_of tab) ;;
       t <- lift (title_of tab) ;;
       current <- current_tab ;;
       infos <- describe (i + 1) rest ;;
       ret ({| info_index := i; info_url := u; info_title := t;
               is_current := same_tab tab current |} :: infos))%tab
  end.

(** Lines 601 to 744: the actions.  [new_tab] is what [browser.new_tab]
    answers for an address, [latest_then] what [browser.latest_tab]
    answers once a tab has been closed. *)
Definition act (browser : Session.Chromium Tab)
  (new_tab : string -> outcome Tab) (latest_then : outcome (option Tab))
  (action : string) (url : option string) (index : option Z)
  (title_pattern : option string) : method TabResult :=
  (if String.eqb action "new" then
     t <- lift (new_tab (if truthy_opt_str url then selector_text url
                         else "about:blank")) ;;
     set_tab (Some t) ;;;
     u <- lift (Tabs.url t) ;;
     ti <- lift (Tabs.title t) ;;
     ret (TabNew u ti)
   else if String.eqb action "switch" then
     tabs <- list_tabs browser ;;
     match index with
     | Some i =>
         if in_range i tabs then switch_to (Some i) (at_index i tabs)
         else ret (out_of_range i)
     | None =>
         if truthy_opt_str url then
           found <- lift (first_with url_of (selector_text url) tabs) ;;
           match found with
           | Some tab => switch_to None tab
           | None =>
               ret (TabFailed ("未找到匹配 URL 的标签页: "
                               ++ selector_text url))
           end
         else if truthy_opt_str title_pattern then
           found <- lift (first_with title_of (selector_text title_pattern)
                            tabs) ;;
           match found with
           | Some tab => switch_to None tab
           | None =>
               ret (TabFailed ("未找到匹配标题的标签页: "
                               ++ selector_text title_pattern))
           end
         else
           ret (TabFailed "切换标签页需要指定 index、url 或 title_pattern")
     end
   else if String.eqb action "close" then
     current <- current_tab ;;
     match index with
     | Some i =>
         let tabs := list_tabs_or browser current in
         if in_range i tabs then
           lift (close_of (at_index i tabs)) ;;;
           (if same_tab (at_index i tabs) current then
              latest <- lift latest_then ;; set_tab latest
            else ret tt) ;;;
           ret (TabClosed (Some i))
         else ret (out_of_range i)
     | None =>
         match current with
         | Some tab =>
             lift (Tabs.close tab) ;;;
             latest <- lift latest_then ;;
             set_tab latest ;;;
             ret (TabClosed None)
         | None => ret (TabFailed "没有可关闭的标签页")
         end
     end
   else if String.eqb action "list" then
     tabs <- list_tabs browser ;;
     infos <- describe 0 tabs ;;
     ret (TabListed infos (Z.of_nat (List.length infos)))
   else
     ret (TabFailed ("不支持的操作: " ++ action)))%tab.

(** [switch_to_tab]. *)
Definition switch_to_tab (launch : outcome (Session.Chromium Tab))
  (new_tab : string -> outcome Tab) (latest_then : outcome (option Tab))
  (action : string) (url : option string) (index : option Z)
  (title_pattern : option string) (m : Manager) : Manager * TabResult :=
  let '(m1, ok) := Session.ensure_browser Tab Tabs.url Tabs.title launch m in
  if negb ok then (m1, TabFailed "无法初始化浏览器")
  else
    match Session.get_browser m1 with
    | None => (m1, TabFailed "浏览器未初始化")
    | Some browser =>
        let '(m2, r) :=
          act browser new_tab latest_then action url index title_pattern m1 in
        (m2, catch r (fun msg => TabFailed ("Tab 管理失败: " ++ msg)))
    end.

(** A piece of code that takes reachable states with a browser to
    reachable states with a browser. *)
Definition keeps_session {A} (c : method A) : Prop :=
  forall m,
    Session.reachable Tab Tabs.url Tabs.title m ->
    Session._browser m <> None ->
    Session.reachable Tab Tabs.url Tabs.title (fst (c m)) /\
    Session._browser (fst (c m)) <> None.

(** Three tabs, and a browser that lists them. *)
Definition tab_at (n : nat) (address : string) : Tab :=
  {| tid := n; url := Returns address; title := Returns "";
     close := Returns tt |}.

Definition docs_tab : Tab := tab_at 1 "https://example.org/docs".
Definition mail_tab : Tab := tab_at 2 "https://mail.example.org/inbox".
Definition blog_tab : Tab := tab_at 3 "https://example.org/blog".

Definition three_tabs : Session.Chromium Tab :=
  {| Session.quit := Returns tt;
     Session.latest_tab := Returns (Some blog_tab);
     Session.get_tabs := Some (Returns [docs_tab; mail_tab; blog_tab]) |}.

(** The manager with that browser, on the first tab. *)
Definition on_docs : Manager :=
  {| Session._browser := Some three_tabs;
     Session._current_tab := Some docs_tab |}.

End TabSwitch.

(* --------------------------------------------------------------------- *)
(** ** [src/tools/basic.py]: [find_elements] *)
(* --------------------------------------------------------------------- *)

Module Basic.

(** An element: what its three properties answer. *)
Record Element : Type := {
  tag : outcome string;
  text : outcome string;
  attrs : outcome (dict string)
}.

(** The tab: [ele] and [eles] are [tab.ele(locator, timeout=timeout)] and
    [tab.eles(locator, timeout=timeout)]. *)
Record Tab : Type := {
  url : outcome string;
  title : outcome string;
  ele : string -> outcome (option Element);
  eles : string -> outcome (list Element)
}.

Definition Manager : Type := Session.BrowserManager Tab.

(** The dictionary written for one element. *)
Record ElementInfo : Type := {
  info_tag : string;
  info_text : string;
  info_attrs : dict string
}.

(** [{"tag": el.tag, "text": el.text, "attrs": el.attrs}]. *)
Definition describe (el : Element) : outcome ElementInfo :=
  (t <- tag el ;;
   x <- text el ;;
   a <- attrs el ;;
   Returns {| info_tag := t; info_text := x; info_attrs := a |})%py.

(** [[{...} for el in elements]]. *)
Fixpoint describe_each (elements : list Element)
  : outcome (list ElementInfo) :=
  match elements with
  | [] => Returns []
  | el :: rest =>
      (info <- describe el ;;
       infos <- describe_each rest ;;
       Returns (info :: infos))%py
  end.

(** Lines 99 to 118: the locator passed to the tab for a selector type,
    [None] for a type that is not supported. *)
Definition locator (selector_type selector : string) : option string :=
  if String.eqb selector_type "css" then Some selector
  else if String.eqb selector_type "xpath"
  then Some ("xpath:" ++ selector)%string
  else if String.eqb selector_type "text"
  then Some ("text:" ++ selector)%string
  else None.

(** The dictionary returned; its [message] entry is left out. *)
Inductive FindResult : Type :=
| FindFailed (error : string)
| FoundOne (element : ElementInfo)               (* found True, count 1 *)
| FoundMany (count : Z) (elements : list ElementInfo)   (* found True *)
| FoundNone.                                     (* found False, count 0 *)

(** What [find_elements] does once it holds the tab. *)
Definition find_in (tab : Tab) (selector selector_type : string)
  (single : bool) : outcome FindResult :=
  match locator selector_type selector with
  | None =>
      Returns (FindFailed ("不支持的选择器类型: " ++ selector_type)%string)
  | Some loc =>
      (if single then
         element <- ele tab loc ;;
         match element with
         | Some el => info <- describe el ;; Returns (FoundOne info)
         | None => Returns FoundNone
         end
       else
         element <- eles tab loc ;;
         if truthy_list element then
           infos <- describe_each (List.firstn 10 element) ;;
           Returns (FoundMany (Z.of_nat (List.length element)) infos)
         else Returns FoundNone)%py
  end.

(** [find_elements]. *)
Definition find_elements
  (launch : outcome (Session.Chromium Tab)) (m : Manager)
  (selector selector_type : string) (single : bool)
  : Manager * FindResult :=
  let '(m1, a) := Session.acquire_tab Tab url title launch m in
  (m1,
   catch
     (a' <- a ;;
      match a' with
      | Session.NoBrowser => Returns (FindFailed "无法初始化浏览器")
      | Session.NoTab => Returns (FindFailed "没有可用的标签页")
      | Session.GotTab tab => find_in tab selector selector_type single
      end)%py
     (fun msg => FindFailed ("查找元素失败: " ++ msg))).

(** A list item, and one whose text cannot be read. *)
Definition item (label : string) : Element :=
  {| tag := Returns "li"; text := Returns label; attrs := Returns [] |}.

Definition stale_item : Element :=
  {| tag := Returns "li"; text := Raises "stale element";
     attrs := Returns [] |}.

(** A page with twelve items under [li], the last two stale. *)
Definition long_list : Tab :=
  {| url := Returns "about:blank";
     title := Returns "";
     ele := fun _ => Returns None;
     eles := fun loc =>
       Returns (if String.eqb loc "li"
                then List.repeat (item "x") 10 ++ [stale_item; stale_item]
                else []) |}.

Definition holding (tab : Tab) : Manager :=
  {| Session._browser :=
       Some {| Session.quit := Returns tt;
               Session.latest_tab := Returns (Some tab);
               Session.get_tabs := None |};
     Session._current_tab := Some tab |}.

End Basic.

(* ===================================================================== *)
(** * Part II: the properties *)
(* ===================================================================== *)

(* --------------------------------------------------------------------- *)
(** ** The browser manager *)
(* --------------------------------------------------------------------- *)

Module SessionFacts.
Import Session.

Section Manager.

Variable Tab : Type.
Variable tab_url : Tab -> outcome string.
Variable tab_title : Tab -> outcome string.

Lemma get_current_tab_browser (m : BrowserManager Tab) :
  _browser (fst (get_current_tab m)) = _browser m.
Proof.
  unfold get_current_tab.
  destruct m as [[b|] [t|]]; simpl; try reflexivity.
  destruct (latest_tab b); reflexivity.
Qed.

Lemma get_current_tab_keeps (m : BrowserManager Tab) :
  tab_needs_browser m -> tab_needs_browser (fst (get_current_tab m)).
Proof.
  intros Hm H. rewrite get_current_tab_browser in H.
  unfold get_current_tab. rewrite H. simpl. now apply Hm.
Qed.

Lemma get_status_state (m : BrowserManager Tab) :
  fst (get_status Tab tab_url tab_title m) = m \/
  fst (get_status Tab tab_url tab_title m) = fst (get_current_tab m).
Proof.
  unfold get_status.
  destruct (_browser m); [|now left].
  right. destruct (get_current_tab m) as [m1 [[t|]|msg]]; reflexivity.
Qed.

Lemma get_status_keeps (m : BrowserManager Tab) :
  tab_needs_browser m ->
  tab_needs_browser (fst (get_status Tab tab_url tab_title m)).
Proof.
  intros Hm. destruct (get_status_state m) as [-> | ->]; [assumption|].
  now apply get_current_tab_keeps.
Qed.

Lemma get_status_browser (m : BrowserManager Tab) :
  _browser (fst (get_status Tab tab_url tab_title m)) = _browser m.
Proof.
  destruct (get_status_state m) as [-> | ->]; [reflexivity|].
  apply get_current_tab_browser.
Qed.

Lemma init_browser_keeps launch (m : BrowserManager Tab) :
  tab_needs_browser m ->
  tab_needs_browser (fst (init_browser Tab tab_url tab_title launch m)).
Proof.
  intros Hm. unfold init_browser.
  destruct (_browser m) as [b|] eqn:Hb.
  - pose proof (get_status_keeps m Hm) as H.
    destruct (get_status Tab tab_url tab_title m). exact H.
  - destruct launch as [b|msg]; [|exact Hm].
    destruct (latest_tab b) as [t|msg] eqn:Ht.
    + set (m2 := {| _browser := Some b; _current_tab := t |}).
      pose proof (get_status_browser m2) as H.
      destruct (get_status Tab tab_url tab_title m2) as [m3 st].
      simpl in *. intros H3. rewrite H in H3. discriminate.
    + intros H. discriminate.
Qed.

Lemma close_browser_clears_fields (m : BrowserManager Tab) :
  tab_needs_browser m ->
  _browser (fst (close_browser m)) = None /\
  _current_tab (fst (close_browser m)) = None.
Proof.
  intros Hm. unfold close_browser.
  destruct (_browser m) as [b|] eqn:Hb.
  - destruct (quit b); simpl; auto.
  - simpl. auto.
Qed.

Lemma call_keeps (m m' : BrowserManager Tab) :
  call Tab tab_url tab_title m m' ->
  tab_needs_browser m -> tab_needs_browser m'.
Proof.
  intros Hc Hm. destruct Hc.
  - now apply init_browser_keeps.
  - now apply get_status_keeps.
  - now apply get_current_tab_keeps.
  - unfold ensure_browser.
    destruct (negb (is_running m)); [|exact Hm].
    pose proof (init_browser_keeps launch m Hm) as H.
    destruct (init_browser Tab tab_url tab_title launch m). exact H.
  - unfold get_browser in *. intros Hb. simpl in Hb. contradiction.
  - intros _. now apply close_browser_clears_fields.
Qed.

Lemma reachable_tab_needs_browser (m : BrowserManager Tab) :
  reachable Tab tab_url tab_title m -> tab_needs_browser m.
Proof.
  induction 1 as [|m m' _ IH Hc].
  - intros _. reflexivity.
  - exact (call_keeps m m' Hc IH).
Qed.

Lemma status_without_browser (m : BrowserManager Tab) :
  _browser m = None ->
  get_status Tab tab_url tab_title m = (m, StatusNotInitialised).
Proof. intros H. unfold get_status. now rewrite H. Qed.

(** A manager that holds a browser and a current tab hands that tab out
    and stays as it is. *)
Lemma acquire_held launch (m : BrowserManager Tab) b tab :
  _browser m = Some b ->
  _current_tab m = Some tab ->
  acquire_tab Tab tab_url tab_title launch m = (m, Returns (GotTab tab)).
Proof.
  intros Hb Ht.
  unfold acquire_tab, ensure_browser, is_running, get_current_tab.
  rewrite Hb. simpl. rewrite Hb, Ht. reflexivity.
Qed.

Lemma close_browser_clears_browser (m : BrowserManager Tab) :
  _browser (fst (close_browser m)) = None.
Proof.
  unfold close_browser.
  destruct (_browser m) as [b|] eqn:Hb; [|exact Hb].
  destruct (quit b); reflexivity.
Qed.

(** C3.  After [close_browser], whether [quit()] returned or raised,
    [_browser] is [None] and a [get_status] call made next reports
    [running: False]; this holds of any two field values.  In every state
    the manager can reach, [_current_tab] is [None] as well, and that
    [get_status] call leaves both fields at [None]. *)
Theorem close_browser_always_clears (m : BrowserManager Tab) :
  let m' := fst (close_browser m) in
  (_browser m' = None /\
   running (snd (get_status Tab tab_url tab_title m')) = false) /\
  (reachable Tab tab_url tab_title m ->
   _current_tab m' = None /\
   fst (get_status Tab tab_url tab_title m') = m').
Proof.
  intros m'.
  pose proof (close_browser_clears_browser m) as Hb. fold m' in Hb.
  rewrite (status_without_browser m' Hb). cbn [fst snd running].
  split; [auto|]. intros Hr. split; [|reflexivity].
  apply (close_browser_clears_fields m (reachable_tab_needs_browser m Hr)).
Qed.

End Manager.

Lemma close_browser_always_clears_witness :
  close_success (snd (close_browser launched)) = false /\
  _browser (fst (close_browser launched)) = None /\
  _current_tab (fst (close_browser launched)) = None.
Proof.
  split; [reflexivity|].
  destruct (close_browser_always_clears unit
              (fun _ => Returns "about:blank") (fun _ => Returns "")
              launched) as [[Hb _] Ht].
  split; [exact Hb|]. apply Ht.
  eapply reach_call; [apply reach_init|]. unfold launched. apply call_init.
Defined.

End SessionFacts.

(* --------------------------------------------------------------------- *)
(** ** Element trees *)
(* --------------------------------------------------------------------- *)

Module DomFacts.
Import Dom.

(** Induction on a tree, with the hypothesis for every child. *)
Lemma node_induction (P : node -> Prop) :
  (forall l children, Forall P children -> P (Element l children)) ->
  (forall s, P (Text s)) ->
  forall n, P n.
Proof.
  intros HE HT.
  fix IH 1. intros [l children|s]; [|apply HT].
  apply HE. induction children as [|c cs IHcs]; constructor.
  - apply IH.
  - exact IHcs.
Qed.

Lemma flat_map_flat_map {A B C} (f : A -> list B) (g : B -> list C) l :
  flat_map g (flat_map f l) = flat_map (fun a => flat_map g (f a)) l.
Proof.
  induction l as [|a l IH]; [reflexivity|].
  simpl. now rewrite flat_map_app, IH.
Qed.

Lemma flat_map_Forall_ext {A B} (f g : A -> list B) l :
  Forall (fun a => f a = g a) l -> flat_map f l = flat_map g l.
Proof.
  induction 1 as [|a l Ha _ IH]; [reflexivity|].
  simpl. now rewrite Ha, IH.
Qed.

(** *** [select] *)




Lemma find_all_ids p n :
  handle_ids (find_all p n) = List.map uid (List.filter p (labels n)).
Proof.
  induction n as [l children IH|s] using node_induction; [|reflexivity].
  cbn [find_all labels List.filter]. unfold handle_ids in *.
  rewrite flat_map_app.
  assert (Hc : flat_map
                 (fun n => match n with
                           | Element l0 _ => [uid l0]
                           | Text _ => []
                           end) (flat_map (find_all p) children)
               = List.map uid (List.filter p (flat_map labels children))).
  { clear l. induction IH as [|c cs Hc _ IHcs]; [reflexivity|].
    simpl. rewrite flat_map_app, filter_app, map_app, Hc, IHcs.
    reflexivity. }
  rewrite Hc. destruct (p l); reflexivity.
Qed.

Lemma select_ids sel d :
  handle_ids (select sel d)
  = List.map uid (List.filter (matches sel) (soup_labels d)).
Proof.
  unfold select, soup_labels, handle_ids.
  induction d as [|n d IH]; [reflexivity|].
  simpl. rewrite flat_map_app, filter_app, map_app, IH.
  f_equal. apply find_all_ids.
Qed.

(** *** [prune] *)

Lemma prune_node_ext_in p q n :
  (forall l, In l (labels n) -> p l = q l) ->
  prune_node p n = prune_node q n.
Proof.
  induction n as [l children IH|s] using node_induction; [|reflexivity].
  intros H. cbn [prune_node].
  rewrite <- (H l) by (left; reflexivity).
  destruct (p l); [reflexivity|]. f_equal. f_equal.
  apply flat_map_Forall_ext.
  rewrite Forall_forall in IH |- *. intros c Hc. apply IH; [exact Hc|].
  intros l' Hl'. apply H. right. apply in_flat_map. eauto.
Qed.

Lemma prune_ext_in p q d :
  (forall l, In l (soup_labels d) -> p l = q l) ->
  prune p d = prune q d.
Proof.
  intros H. unfold prune. apply flat_map_Forall_ext.
  apply Forall_forall. intros n Hn. apply prune_node_ext_in.
  intros l Hl. apply H. apply in_flat_map. eauto.
Qed.

Lemma prune_ext p q d :
  (forall l, p l = q l) -> prune p d = prune q d.
Proof. intros H. apply prune_ext_in. intros l _. apply H. Qed.

(** Pruning twice is pruning by either predicate. *)
Lemma prune_node_twice p q n :
  flat_map (prune_node q) (prune_node p n)
  = prune_node (fun l => p l || q l) n.
Proof.
  induction n as [l children IH|s] using node_induction; [|reflexivity].
  cbn [prune_node]. destruct (p l); [reflexivity|].
  cbn [flat_map prune_node orb]. rewrite app_nil_r.
  destruct (q l); [reflexivity|]. f_equal. f_equal.
  rewrite flat_map_flat_map. apply flat_map_Forall_ext. exact IH.
Qed.

Lemma prune_twice p q d :
  prune q (prune p d) = prune (fun l => p l || q l) d.
Proof.
  unfold prune. rewrite flat_map_flat_map.
  apply flat_map_Forall_ext, Forall_forall. intros n _.
  apply prune_node_twice.
Qed.

(** Pruning adds no element. *)
Lemma prune_node_labels p n :
  incl (flat_map labels (prune_node p n)) (labels n).
Proof.
  induction n as [l children IH|s] using node_induction;
    [|apply incl_refl].
  cbn [prune_node]. destruct (p l); [intros x []|].
  cbn [flat_map labels]. rewrite app_nil_r.
  apply incl_cons; [left; reflexivity|]. apply incl_tl.
  induction IH as [|c cs Hc _ IHcs]; [apply incl_refl|].
  simpl. rewrite flat_map_app. apply incl_app.
  - apply incl_appl. exact Hc.
  - apply incl_appr. exact IHcs.
Qed.

Lemma prune_labels p d :
  incl (soup_labels (prune p d)) (soup_labels d).
Proof.
  unfold soup_labels, prune.
  induction d as [|n d IH]; [apply incl_refl|].
  simpl. rewrite flat_map_app. apply incl_app.
  - apply incl_appl. apply prune_node_labels.
  - apply incl_appr. exact IH.
Qed.

(** No element that satisfies [p] is left. *)
Lemma prune_node_clears p n :
  Forall (fun l => p l = false) (flat_map labels (prune_node p n)).
Proof.
  induction n as [l children IH|s] using node_induction; [|constructor].
  cbn [prune_node]. destruct (p l) eqn:Hp; [constructor|].
  cbn [flat_map labels]. rewrite app_nil_r.
  constructor; [exact Hp|].
  induction IH as [|c cs Hc _ IHcs]; [constructor|].
  simpl. rewrite flat_map_app. apply Forall_app. split; assumption.
Qed.

Lemma prune_clears p d :
  Forall (fun l => p l = false) (soup_labels (prune p d)).
Proof.
  unfold soup_labels, prune.
  induction d as [|n d IH]; [constructor|].
  simpl. rewrite flat_map_app. apply Forall_app. split; [|exact IH].
  apply prune_node_clears.
Qed.

(** *** [decompose] *)

Lemma flat_map_singleton {A} (l : list A) : flat_map (fun a => [a]) l = l.
Proof. induction l; simpl; congruence. Qed.

(** Pruning by a predicate nothing satisfies changes nothing. *)
Lemma prune_nothing p d :
  (forall l, p l = false) -> prune p d = d.
Proof.
  intros Hp. unfold prune.
  rewrite <- (flat_map_singleton d) at 2.
  apply flat_map_Forall_ext, Forall_forall. intros n _.
  induction n as [l children IHn|s] using node_induction; [|reflexivity].
  cbn [prune_node]. rewrite Hp. f_equal. f_equal.
  rewrite <- (flat_map_singleton children) at 2.
  apply flat_map_Forall_ext. exact IHn.
Qed.

Lemma decompose_each_prune elements : forall d,
  Markdown.decompose_each elements d
  = prune (fun l => List.existsb (Nat.eqb (uid l)) (handle_ids elements)) d.
Proof.
  unfold Markdown.decompose_each.
  induction elements as [|e es IH]; intros d.
  - simpl. symmetry. now apply prune_nothing.
  - cbn [List.fold_left]. rewrite IH.
    destruct e as [l cs|s]; cbn [decompose handle_ids flat_map].
    + rewrite prune_twice. apply prune_ext. intros l'. reflexivity.
    + reflexivity.
Qed.

Lemma same_uid_same_label (L : list label) x y :
  NoDup (List.map uid L) -> In x L -> In y L -> uid x = uid y -> x = y.
Proof.
  induction L as [|a L IH]; intros Hnd Hx Hy Huid; [destruct Hx|].
  simpl in Hnd. inversion Hnd as [|? ? Hnotin Hnd']; subst.
  destruct Hx as [<-|Hx], Hy as [<-|Hy]; auto.
  - exfalso. apply Hnotin. rewrite Huid. now apply in_map.
  - exfalso. apply Hnotin. rewrite <- Huid. now apply in_map.
Qed.

(** Among distinct objects, the handles [select] returns name exactly the
    elements that match. *)
Lemma selected_iff_matches (L : list label) sel d l :
  NoDup (List.map uid L) ->
  incl (soup_labels d) L ->
  In l (soup_labels d) ->
  List.existsb (Nat.eqb (uid l)) (handle_ids (select sel d)) = matches sel l.
Proof.
  intros Hnd Hincl Hl. rewrite select_ids.
  destruct (matches sel l) eqn:Hm.
  - apply existsb_exists. exists (uid l). split; [|apply Nat.eqb_refl].
    apply in_map. apply filter_In. auto.
  - apply Bool.not_true_is_false. intros H.
    apply existsb_exists in H. destruct H as (u & Hu & Heq).
    apply Nat.eqb_eq in Heq. subst u.
    apply in_map_iff in Hu. destruct Hu as (l' & Huid & Hl').
    apply filter_In in Hl'. destruct Hl' as [Hl' Hm'].
    assert (l' = l)
      by (apply (same_uid_same_label L); auto).
    congruence.
Qed.

(** The two nested loops of [_clean_html] amount to one pruning. *)
Lemma remove_selected_prune (L : list label) selectors : forall d,
  NoDup (List.map uid L) ->
  incl (soup_labels d) L ->
  Markdown.remove_selected selectors d = prune (matches_any selectors) d.
Proof.
  unfold Markdown.remove_selected.
  induction selectors as [|sel rest IH]; intros d Hnd Hincl.
  - simpl. symmetry. now apply prune_nothing.
  - cbn [List.fold_left]. rewrite decompose_each_prune.
    rewrite (prune_ext_in _ (matches sel) d)
      by (intros l Hl; now apply (selected_iff_matches L)).
    rewrite IH; [|exact Hnd|].
    + rewrite prune_twice. apply prune_ext. intros l. reflexivity.
    + eapply incl_tran; [apply prune_labels|exact Hincl].
Qed.

Lemma matches_any_permutation s1 s2 l :
  Permutation s1 s2 -> matches_any s1 l = matches_any s2 l.
Proof.
  unfold matches_any.
  induction 1 as [|x a b _ IH|x y a|a b c _ IH1 _ IH2]; simpl.
  - reflexivity.
  - now rewrite IH.
  - now rewrite !orb_assoc, (orb_comm (matches y l)).
  - congruence.
Qed.

End DomFacts.

(* --------------------------------------------------------------------- *)
(** ** The scroll loop *)
(* --------------------------------------------------------------------- *)

Module ScrollFacts.
Import Scroll.

Local Open Scope Z_scope.

(** One pass of the loop, spelled out for a pass whose calls return. *)
Lemma loop_pass tab sel n i l v :
  to_bottom (cycles tab i) = Returns tt ->
  sleep (cycles tab i) = Returns tt ->
  measure tab sel i = Returns v ->
  exists l1,
    loop tab sel (S n) i l =
      (if v =? last_seen sel l then Returns (l1, Break)
       else loop tab sel n (S i) (seen sel v l1)) /\
    scroll_count l1 = scroll_count l + 1 /\
    scrolls_made l1 = scrolls_made l + 1 /\
    calls l1 = calls l ++ [CallToBottom; CallSleep; measuring_call sel] /\
    last_seen sel l1 = last_seen sel l /\
    scroll_count (seen sel v l1) = scroll_count l1 /\
    scrolls_made (seen sel v l1) = scrolls_made l1 /\
    last_seen sel (seen sel v l1) = v.
Proof.
  intros Hb Hs Hm. unfold measure in Hm.
  exists (called [measuring_call sel]
            (called [CallSleep]
               {| scroll_count := scroll_count l + 1;
                  last_height := last_height l;
                  last_count := last_count l;
                  calls := calls l ++ [CallToBottom] |})).
  simpl loop. rewrite Hb, Hs. simpl.
  unfold last_seen, seen, measuring_call, scrolls_made.
  destruct (truthy_opt_str sel) eqn:Hsel.
  - destruct (eles (cycles tab i) (selector_text sel)) as [k|] eqn:He;
      simpl in Hm; [|discriminate].
    injection Hm as <-. simpl.
    rewrite !List.filter_app, !List.length_app, <- !List.app_assoc. simpl.
    repeat split; lia.
  - rewrite Hm. simpl.
    rewrite !List.filter_app, !List.length_app, <- !List.app_assoc. simpl.
    repeat split; lia.
Qed.

(** A pass that returns: its three calls returned. *)
Lemma loop_returned tab sel n i l r :
  loop tab sel (S n) i l = Returns r ->
  to_bottom (cycles tab i) = Returns tt /\
  sleep (cycles tab i) = Returns tt /\
  exists v, measure tab sel i = Returns v.
Proof.
  simpl. unfold measure.
  destruct (to_bottom (cycles tab i)) as [[]|]; simpl; [|discriminate].
  destruct (sleep (cycles tab i)) as [[]|]; simpl; [|discriminate].
  destruct (truthy_opt_str sel).
  - destruct (eles (cycles tab i) (selector_text sel)); simpl;
      [eauto|discriminate].
  - destruct (scrollHeight (cycles tab i)); simpl; [eauto|discriminate].
Qed.

(** The counter follows the scrolls made and stays within the range. *)
Lemma loop_counts tab sel n : forall i l l' e,
  loop tab sel n i l = Returns (l', e) ->
  scroll_count l <= scroll_count l' <= scroll_count l + Z.of_nat n /\
  scrolls_made l' - scrolls_made l = scroll_count l' - scroll_count l /\
  (e = RangeExhausted -> scroll_count l' = scroll_count l + Z.of_nat n) /\
  (e = Break -> scroll_count l < scroll_count l').
Proof.
  induction n as [|n IH]; intros i l l' e H.
  - simpl in H. injection H as <- <-. repeat split; try lia. discriminate.
  - destruct (loop_returned _ _ _ _ _ _ H) as (Hb & Hs & v & Hm).
    destruct (loop_pass tab sel n i l v Hb Hs Hm)
      as (l1 & Heq & Hc & Hsm & _ & _ & Hc2 & Hsm2 & _).
    rewrite Heq in H. destruct (v =? last_seen sel l).
    + injection H as <- <-. repeat split; try lia. discriminate.
    + apply IH in H. destruct H as (H1 & H2 & H3 & H4).
      split; [lia|]. split; [lia|]. split; intros He.
      * specialize (H3 He). lia.
      * specialize (H4 He). lia.
Qed.

(** A measurement equal to the last one seen ends the loop in that pass. *)
Lemma loop_stops_at_once tab sel n i l l' e :
  loop tab sel n i l = Returns (l', e) ->
  measure tab sel i = Returns (last_seen sel l) ->
  scroll_count l' <= scroll_count l + 1.
Proof.
  intros H Hm. destruct n as [|n].
  - simpl in H. injection H as <- <-. lia.
  - destruct (loop_returned _ _ _ _ _ _ H) as (Hb & Hs & _).
    destruct (loop_pass tab sel n i l _ Hb Hs Hm) as (l1 & Heq & Hc & _).
    rewrite Heq, Z.eqb_refl in H. injection H as <- <-. lia.
Qed.

(** Two equal measurements in a row end the loop in the pass of the
    second one, if not before. *)
Lemma loop_stops tab sel n : forall i l l' e k v,
  loop tab sel n i l = Returns (l', e) ->
  (i <= k)%nat ->
  measure tab sel k = Returns v ->
  measure tab sel (S k) = Returns v ->
  scroll_count l' <= scroll_count l + Z.of_nat (k - i) + 2.
Proof.
  induction n as [|n IH]; intros i l l' e k v H Hik Hk HSk.
  - simpl in H. injection H as <- <-. lia.
  - destruct (loop_returned _ _ _ _ _ _ H) as (Hb & Hs & w & Hm).
    destruct (loop_pass tab sel n i l w Hb Hs Hm)
      as (l1 & Heq & Hc & _ & _ & _ & Hc2 & _ & Hlast).
    rewrite Heq in H. destruct (w =? last_seen sel l).
    + injection H as <- <-. lia.
    + destruct (Nat.eq_dec i k) as [->|Hne].
      * assert (w = v) by congruence. subst w.
        rewrite <- Hlast in HSk.
        pose proof (loop_stops_at_once _ _ _ _ _ _ _ H HSk). lia.
      * pose proof (IH (S i) _ _ _ k v H ltac:(lia) Hk HSk). lia.
Qed.

(** The loop returns when the page answers its calls. *)
Lemma loop_returns tab sel n : forall i l,
  (forall k, (i <= k < i + n)%nat ->
     to_bottom (cycles tab k) = Returns tt /\
     sleep (cycles tab k) = Returns tt /\
     exists v, measure tab sel k = Returns v) ->
  exists l' e, loop tab sel n i l = Returns (l', e).
Proof.
  induction n as [|n IH]; intros i l Hok.
  - simpl. eauto.
  - destruct (Hok i ltac:(lia)) as (Hb & Hs & v & Hm).
    destruct (loop_pass tab sel n i l v Hb Hs Hm)
      as (l1 & Heq & _).
    rewrite Heq. destruct (v =? last_seen sel l); [eauto|].
    apply IH. intros k Hk. apply Hok. lia.
Qed.

Lemma handle_held launch (m : Manager) b tab max sel :
  Session._browser m = Some b ->
  Session._current_tab m = Some tab ->
  handle_infinite_scroll launch m max sel =
  (m, catch
        (r <- run tab max sel ;;
         Returns
           (ScrollDone (scroll_count (fst r))
              (if truthy_opt_str sel then Some (last_count (fst r)) else None)
              (if negb (truthy_opt_str sel)
               then Some (last_height (fst r)) else None)))%py
        (fun msg => ScrollFailed ("处理无限滚动失败: " ++ msg))).
Proof.
  intros Hb Ht. unfold handle_infinite_scroll.
  rewrite (SessionFacts.acquire_held Tab url title launch m b tab Hb Ht).
  reflexivity.
Qed.

Lemma handle_done launch (m m' : Manager) max sel sc fc fh :
  handle_infinite_scroll launch m max sel = (m', ScrollDone sc fc fh) ->
  exists tab l e,
    snd (Session.acquire_tab Tab url title launch m)
      = Returns (Session.GotTab tab) /\
    run tab max sel = Returns (l, e) /\
    sc = scroll_count l.
Proof.
  unfold handle_infinite_scroll.
  destruct (Session.acquire_tab Tab url title launch m) as [m1 [a|msg]];
    simpl; [|intros H; discriminate].
  destruct a as [| |tab]; simpl; try (intros H; discriminate).
  destruct (run tab max sel) as [[l e]|msg] eqn:Hrun; simpl;
    [|intros H; discriminate].
  intros H. injection H as _ <- _ _.
  exists tab, l, e. auto.
Qed.

(** C4.  With [max_scrolls >= 1], whenever [handle_infinite_scroll] returns
    a [scroll_count], that number is the number of [to_bottom] scrolls it
    made, lies between 1 and [max_scrolls], and is at most [k + 2] for every
    [k] such that passes [k] and [k + 1] (counted from 0) measure the same:
    the loop is left in the pass of the second of two equal measurements.
    And it does return one when the manager holds a tab that answers the
    calls of the first [max_scrolls] passes. *)
Theorem scroll_count_counts_passes launch (m : Manager) max sel :
  1 <= max ->
  (forall m' sc fc fh,
     handle_infinite_scroll launch m max sel = (m', ScrollDone sc fc fh) ->
     exists tab l e,
       snd (Session.acquire_tab Tab url title launch m)
         = Returns (Session.GotTab tab) /\
       run tab max sel = Returns (l, e) /\
       sc = scrolls_made l /\
       1 <= sc <= max /\
       (forall k v,
          measure tab sel k = Returns v ->
          measure tab sel (S k) = Returns v ->
          sc <= Z.of_nat k + 2)) /\
  (forall b tab,
     Session._browser m = Some b ->
     Session._current_tab m = Some tab ->
     (forall k, (k < Z.to_nat max)%nat ->
        to_bottom (cycles tab k) = Returns tt /\
        sleep (cycles tab k) = Returns tt /\
        exists v, measure tab sel k = Returns v) ->
     exists sc fc fh,
       handle_infinite_scroll launch m max sel = (m, ScrollDone sc fc fh)).
Proof.
  intros Hmax. split.
  - intros m' sc fc fh H.
    destruct (handle_done _ _ _ _ _ _ _ _ H) as (tab & l & e & Ha & Hrun & ->).
    exists tab, l, e. split; [exact Ha|]. split; [exact Hrun|].
    unfold run in Hrun.
    destruct (loop_counts _ _ _ _ _ _ _ Hrun) as (Hle & Hsm & Hex & Hbr).
    change (scroll_count locals0) with 0 in *.
    change (scrolls_made locals0) with 0 in *.
    split; [lia|]. split.
    + destruct e; [specialize (Hbr eq_refl)|specialize (Hex eq_refl)]; lia.
    + intros k v Hk HSk.
      pose proof (loop_stops _ _ _ _ _ _ _ k v Hrun (Nat.le_0_l k) Hk HSk) as Hs.
      change (scroll_count locals0) with 0 in Hs. lia.
  - intros b tab Hb Ht Hok.
    rewrite (handle_held launch m b tab max sel Hb Ht).
    destruct (loop_returns tab sel (Z.to_nat max) 0 locals0) as (l & e & Hrun).
    { intros k Hk. apply Hok. lia. }
    unfold run. rewrite Hrun. simpl. eauto.
Qed.

Lemma scroll_count_counts_passes_witness :
  (1 <= 10) /\
  exists l e,
    run settling_page 10 None = Returns (l, e) /\
    4 = scrolls_made l /\
    1 <= 4 <= 10.
Proof.
  split; [lia|].
  destruct (scroll_count_counts_passes (Raises "") (holding settling_page)
              10 None ltac:(lia)) as [H _].
  destruct (H (holding settling_page) 4 None (Some 30) eq_refl)
    as (tab & l & e & Ha & Hrun & Hsc & Hle & _).
  injection Ha as <-.
  exists l, e. auto.
Defined.

(** C1, as the code has it.  On a page whose first measurement is 0, with
    [max_scrolls >= 1], the loop is left by [break] in its first pass: one
    scroll, one measurement, [scroll_count] 1 and a final measurement of 0,
    whatever the page would have measured next. *)
Theorem first_zero_stops_first_pass launch (m : Manager) b tab max sel :
  1 <= max ->
  Session._browser m = Some b ->
  Session._current_tab m = Some tab ->
  to_bottom (cycles tab 0) = Returns tt ->
  sleep (cycles tab 0) = Returns tt ->
  measure tab sel 0 = Returns 0 ->
  (exists l,
     run tab max sel = Returns (l, Break) /\
     scroll_count l = 1 /\
     last_seen sel l = 0 /\
     calls l = [CallToBottom; CallSleep; measuring_call sel]) /\
  handle_infinite_scroll launch m max sel =
    (m, ScrollDone 1
          (if truthy_opt_str sel then Some 0 else None)
          (if truthy_opt_str sel then None else Some 0)).
Proof.
  intros Hmax Hb Ht Hbot Hsl Hm.
  assert (Hrun : exists l,
     run tab max sel = Returns (l, Break) /\
     scroll_count l = 1 /\
     last_seen sel l = 0 /\
     calls l = [CallToBottom; CallSleep; measuring_call sel]).
  { unfold run. destruct (Z.to_nat max) as [|n] eqn:Hn; [lia|].
    destruct (loop_pass tab sel n 0 locals0 0 Hbot Hsl Hm)
      as (l1 & Heq & Hc & _ & Hcalls & Hlast & _).
    exists l1. rewrite Heq.
    replace (last_seen sel locals0) with 0
      by (unfold last_seen; destruct (truthy_opt_str sel); reflexivity).
    simpl. repeat split.
    - rewrite Hc. reflexivity.
    - rewrite Hlast. unfold last_seen.
      destruct (truthy_opt_str sel); reflexivity.
    - rewrite Hcalls. reflexivity. }
  split; [exact Hrun|].
  destruct Hrun as (l & Hrun & Hc & Hlast & _).
  rewrite (handle_held launch m b tab max sel Hb Ht), Hrun. simpl.
  unfold last_seen in Hlast. rewrite Hc.
  destruct (truthy_opt_str sel); simpl; rewrite Hlast; reflexivity.
Qed.

Lemma first_zero_stops_first_pass_witness :
  handle_infinite_scroll (Raises "") (holding late_page) 10 (Some ".item") =
  (holding late_page, ScrollDone 1 (Some 0) None).
Proof.
  refine (proj2 (first_zero_stops_first_pass (Raises "") (holding late_page)
                   _ late_page 10 (Some ".item") _ eq_refl eq_refl
                   eq_refl eq_refl eq_refl)).
  lia.
Defined.

(** C1, as stated, fails.  [late_page] measures 0 in the first pass and 5
    in the second: the measurement does not stay 0 for two passes.  Yet
    with [max_scrolls = 10] the call ends in the first pass, by [break],
    after one measurement, and reports [scroll_count] 1; by element count
    and by scroll height alike. *)
Lemma first_zero_is_taken_as_converged :
  measure late_page None 0 = Returns 0 /\
  measure late_page None 1 = Returns 5 /\
  measure late_page (Some ".item") 0 = Returns 0 /\
  measure late_page (Some ".item") 1 = Returns 5 /\
  run late_page 10 None =
    Returns ({| scroll_count := 1; last_height := 0; last_count := 0;
                calls := [CallToBottom; CallSleep; CallRunJs] |}, Break) /\
  run late_page 10 (Some ".item") =
    Returns ({| scroll_count := 1; last_height := 0; last_count := 0;
                calls := [CallToBottom; CallSleep; CallEles ".item"] |},
             Break) /\
  snd (handle_infinite_scroll (Raises "") (holding late_page) 10 None) =
    ScrollDone 1 None (Some 0) /\
  snd (handle_infinite_scroll (Raises "") (holding late_page) 10
         (Some ".item")) =
    ScrollDone 1 (Some 0) None.
Proof. repeat split; reflexivity. Qed.

End ScrollFacts.

(* --------------------------------------------------------------------- *)
(** ** The Markdown pipeline *)
(* --------------------------------------------------------------------- *)

Module MarkdownFacts.
Import Dom Markdown.

Local Open Scope string_scope.

(** *** The blank-line collapse *)

Example collapse_four :
  collapse_blank_lines
    ("a" ++ String LF (String LF (String LF (String LF "b"))))
  = "a" ++ String LF (String LF "b").
Proof. reflexivity. Qed.

Example collapse_keeps_two :
  collapse_blank_lines ("a" ++ String LF (String LF "b") ++ String LF "c")
  = "a" ++ String LF (String LF "b") ++ String LF "c".
Proof. reflexivity. Qed.

Lemma leading_lf_cons c rest :
  leading_lf (String c rest) =
  if Ascii.eqb c LF then S (leading_lf rest) else 0%nat.
Proof. reflexivity. Qed.

Lemma leading_lf_run n text :
  leading_lf (lf_run n ++ text) = (n + leading_lf text)%nat.
Proof.
  induction n as [|n IH]; [reflexivity|].
  cbn [lf_run append]. now rewrite leading_lf_cons, Ascii.eqb_refl, IH.
Qed.

Lemma sub_from_skips_run n text :
  sub_from n (lf_run n ++ text) = sub_from 0 text.
Proof. induction n as [|n IH]; [reflexivity|exact IH]. Qed.

(** A character other than a line feed is copied. *)
Lemma collapse_copies c text :
  c <> LF ->
  collapse_blank_lines (String c text) = String c (collapse_blank_lines text).
Proof.
  intros Hc. unfold collapse_blank_lines. cbn [sub_from].
  rewrite leading_lf_cons.
  destruct (Ascii.eqb_spec c LF); [contradiction|reflexivity].
Qed.

(** A whole run of [n] line feeds comes out as [n] line feeds if [n] is
    below three and as two if not. *)
Lemma collapse_run n text :
  leading_lf text = 0%nat ->
  collapse_blank_lines (lf_run n ++ text)
  = lf_run (Nat.min n 2) ++ collapse_blank_lines text.
Proof.
  intros H0. unfold collapse_blank_lines.
  destruct n as [|[|[|n]]].
  - reflexivity.
  - cbn [lf_run append sub_from Nat.min].
    rewrite leading_lf_cons, Ascii.eqb_refl, H0. reflexivity.
  - cbn [lf_run append sub_from Nat.min].
    rewrite !leading_lf_cons, !Ascii.eqb_refl, H0. reflexivity.
  - change (Nat.min (S (S (S n))) 2) with 2%nat.
    cbn [lf_run append sub_from].
    change (String LF (String LF (String LF (lf_run n ++ text))))
      with (lf_run (S (S (S n))) ++ text).
    rewrite leading_lf_run, H0.
    replace (3 <=? S (S (S n)) + 0)%nat with true
      by (symmetry; apply Nat.leb_le; lia).
    replace (S (S (S n)) + 0 - 1)%nat with (S (S n)) by lia.
    change (String LF (String LF (lf_run n ++ text)))
      with (lf_run (S (S n)) ++ text).
    now rewrite sub_from_skips_run.
Qed.

(** Text without a long run is left as it is. *)
Lemma sub_from_settled text :
  settled text = true -> sub_from 0 text = text.
Proof.
  induction text as [|c rest IH]; [reflexivity|].
  cbn [settled sub_from]. intros H.
  apply andb_true_iff in H. destruct H as [Hrun Hrest].
  apply Nat.ltb_lt in Hrun.
  destruct (Nat.leb_spec 3 (leading_lf (String c rest))); [lia|].
  now rewrite IH.
Qed.

(** A short run at the start is kept. *)
Lemma leading_lf_sub_short text :
  (leading_lf text < 3)%nat ->
  leading_lf (sub_from 0 text) = leading_lf text.
Proof.
  induction text as [|c rest IH]; [reflexivity|].
  intros H. cbn [sub_from].
  destruct (Nat.leb_spec 3 (leading_lf (String c rest))); [lia|].
  rewrite leading_lf_cons in H. rewrite !leading_lf_cons.
  destruct (Ascii.eqb c LF); [|reflexivity].
  rewrite IH; [reflexivity|lia].
Qed.

(** Past a whole run the output does not start with a line feed. *)
Lemma leading_lf_after_run text :
  leading_lf (sub_from (leading_lf text) text) = 0%nat.
Proof.
  induction text as [|c rest IH]; [reflexivity|].
  rewrite leading_lf_cons.
  destruct (Ascii.eqb c LF) eqn:Hc.
  - cbn [sub_from]. exact IH.
  - cbn [sub_from].
    rewrite leading_lf_cons, Hc. cbn [Nat.leb].
    rewrite leading_lf_cons, Hc. reflexivity.
Qed.

(** The output has no run of three line feeds. *)
Lemma sub_from_is_settled text : forall skip,
  settled (sub_from skip text) = true.
Proof.
  induction text as [|c rest IH]; intros skip; [reflexivity|].
  destruct skip as [|skip]; cbn [sub_from]; [|apply IH].
  destruct (Nat.leb_spec 3 (leading_lf (String c rest))) as [Hlong|Hshort].
  - rewrite leading_lf_cons in Hlong. rewrite leading_lf_cons.
    destruct (Ascii.eqb c LF) eqn:Hc; [|lia].
    replace (S (leading_lf rest) - 1)%nat with (leading_lf rest) by lia.
    pose proof (leading_lf_after_run rest) as H0.
    cbn [settled]. rewrite !leading_lf_cons, Ascii.eqb_refl, H0, IH.
    reflexivity.
  - cbn [settled]. rewrite IH, andb_true_r. apply Nat.ltb_lt.
    rewrite leading_lf_cons in Hshort. rewrite leading_lf_cons.
    destruct (Ascii.eqb c LF); [|lia].
    rewrite leading_lf_sub_short; lia.
Qed.

(** C7.  The blank-line collapse is idempotent: applied to its own output
    it changes nothing. *)
Theorem collapse_blank_lines_idempotent (x : string) :
  collapse_blank_lines (collapse_blank_lines x) = collapse_blank_lines x.
Proof.
  unfold collapse_blank_lines.
  apply sub_from_settled, sub_from_is_settled.
Qed.

(** *** [_extract_main_content] *)





(** *** [_clean_html] *)

Lemma denied_is_matches_any l : matches_any ad_selectors l = denied l.
Proof.
  unfold matches_any, denied, ad_selectors, mem, List.existsb.
  change (matches (ByTag "script") l) with (String.eqb (tag l) "script").
  change (matches (ByTag "style") l) with (String.eqb (tag l) "style").
  change (matches (ByTag "iframe") l) with (String.eqb (tag l) "iframe").
  change (matches (ByTag "noscript") l) with (String.eqb (tag l) "noscript").
  repeat match goal with
         | |- context [matches ?sel l] =>
             generalize (matches sel l); intro
         | |- context [String.eqb (tag l) ?t] =>
             generalize (String.eqb (tag l) t); intro
         end.
  repeat match goal with b : bool |- _ => destruct b; try reflexivity end.
Qed.

(** C8, as the code has it.  On a parsed document whose elements are
    distinct objects, [_clean_html] with [remove_ads] renders the document
    without every script, style, iframe and noscript element, every
    element whose class contains "ad-", "advertisement", "social-share" or
    "cookie", every element whose id contains "ad-" or "advertisement",
    and every element of class sidebar, footer or header-ad, each with all
    below it; no such element is left, matches inside or across one
    another included, and the selectors may be taken in any order. *)
Theorem clean_html_removes_denied (lib : Libraries) (html : string) :
  distinct (parse lib html) ->
  _clean_html lib html true = to_str lib (prune denied (parse lib html)) /\
  Forall (fun l => denied l = false)
    (soup_labels (remove_selected ad_selectors (parse lib html))) /\
  (forall selectors,
     Permutation ad_selectors selectors ->
     remove_selected selectors (parse lib html)
     = remove_selected ad_selectors (parse lib html)).
Proof.
  intros Hd. unfold distinct in Hd.
  assert (Hrs : forall selectors,
            remove_selected selectors (parse lib html)
            = prune (matches_any selectors) (parse lib html))
    by (intros; apply (DomFacts.remove_selected_prune _ _ _ Hd),
                  incl_refl).
  assert (Heq : remove_selected ad_selectors (parse lib html)
                = prune denied (parse lib html)).
  { rewrite Hrs. apply DomFacts.prune_ext, denied_is_matches_any. }
  split; [|split].
  - unfold _clean_html. now rewrite Heq.
  - rewrite Heq. apply DomFacts.prune_clears.
  - intros selectors Hperm. rewrite !Hrs.
    apply DomFacts.prune_ext. intros l. symmetry.
    now apply DomFacts.matches_any_permutation.
Qed.

Lemma clean_html_removes_denied_witness :
  _clean_html (lib_parsing busy_page) "<html>...</html>" true
  = "<html><body><article>Teaser</article><main><p>Story</p></main></body></html>".
Proof.
  destruct (clean_html_removes_denied (lib_parsing busy_page)
              "<html>...</html>") as (H & _).
  - unfold distinct. cbv.
    repeat (constructor; [intros H; repeat destruct H as [H|H];
                          try discriminate; try contradiction|]).
    constructor.
  - rewrite H. reflexivity.
Defined.

(** C8, as stated, fails.  The [div] of [cookie_page] has an id that
    contains "cookie", and an id is among what the statement has looked
    at; the document comes back whole, banner included. *)
Lemma id_cookie_banner_is_kept :
  distinct cookie_page /\
  spec_denied {| uid := 3; tag := "div"; attrs := [("id", "cookie-banner")] |}
    = true /\
  remove_selected ad_selectors cookie_page = cookie_page /\
  _clean_html (lib_parsing cookie_page) "<html>...</html>" true
  = "<html><body><div>We use cookies</div><p>Hello</p></body></html>".
Proof.
  split; [|repeat split; reflexivity].
  unfold distinct. cbv.
  repeat (constructor; [intros H; repeat destruct H as [H|H];
                        try discriminate; try contradiction|]).
  constructor.
Qed.

(** *** [page_to_markdown] and [get_page_content] *)

Section WithLibraries.

Variable lib : Libraries.

Lemma page_to_markdown_held launch (m : Manager) b tab fp ii ra em conv am :
  Session._browser m = Some b ->
  Session._current_tab m = Some tab ->
  page_to_markdown lib launch m fp ii ra em conv am =
  (m, catch (save_page lib tab fp ii ra em conv am)
        (fun msg => (SaveFailed ("转换 Markdown 失败: " ++ msg), None))).
Proof.
  intros Hb Ht. unfold page_to_markdown.
  rewrite (SessionFacts.acquire_held Tab url title launch m b tab Hb Ht).
  reflexivity.
Qed.

Lemma get_page_content_held launch (m : Manager) b tab format em ra :
  Session._browser m = Some b ->
  Session._current_tab m = Some tab ->
  get_page_content lib launch m format em ra =
  (m, catch (read_page lib tab format em ra)
        (fun msg => ContentFailed ("获取页面内容失败: " ++ msg))).
Proof.
  intros Hb Ht. unfold get_page_content.
  rewrite (SessionFacts.acquire_held Tab url title launch m b tab Hb Ht).
  reflexivity.
Qed.

(** A call that got to the write went through every step before it. *)
Lemma save_page_wrote tab fp ii ra em conv am r content :
  save_page lib tab fp ii ra em conv am = Returns (r, Some content) ->
  exists u t h c md,
    url tab = Returns u /\ title tab = Returns t /\ html tab = Returns h /\
    choose_converter lib conv = Some c /\
    convert lib c (prepare lib h em ra) ii = Returns (inr md) /\
    content = (if am then metadata_block lib t u fp ++ collapse_blank_lines md
               else collapse_blank_lines md) /\
    write_text lib fp content = Returns tt /\
    r = Saved (absolute lib fp) u t c.
Proof.
  unfold save_page.
  destruct (url tab) as [u|]; cbn [bind]; [|discriminate].
  destruct (title tab) as [t|]; cbn [bind]; [|discriminate].
  destruct (html tab) as [h|]; cbn [bind]; [|discriminate].
  destruct (truthy_str h); cbn [negb]; [|discriminate].
  destruct (choose_converter lib conv) as [c|]; [|discriminate].
  destruct (convert lib c (prepare lib h em ra) ii) as [[f|md]|] eqn:Hmd;
    cbn [bind]; try discriminate.
  match goal with
  | |- context [write_text lib fp ?x] =>
      destruct (write_text lib fp x) as [[]|] eqn:Hw; cbn [bind];
      [|discriminate]
  end.
  intros H. injection H as <- <-.
  exists u, t, h, c, md. repeat split; assumption || reflexivity.
Qed.

Lemma page_to_markdown_wrote launch (m m' : Manager) fp ii ra em conv am
  r content :
  page_to_markdown lib launch m fp ii ra em conv am = (m', (r, Some content)) ->
  exists tab,
    snd (Session.acquire_tab Tab url title launch m)
      = Returns (Session.GotTab tab) /\
    save_page lib tab fp ii ra em conv am = Returns (r, Some content).
Proof.
  unfold page_to_markdown.
  destruct (Session.acquire_tab Tab url title launch m) as [m1 [a|msg]];
    simpl; [|intros H; discriminate].
  destruct a as [| |tab]; simpl; try (intros H; discriminate).
  destruct (save_page lib tab fp ii ra em conv am) as [[r' c']|] eqn:Hs;
    simpl; [|intros H; discriminate].
  intros H. injection H as _ <- <-. eauto.
Qed.

(** C2, as the code has it.  With [add_metadata] true, every text that
    [page_to_markdown] writes is the metadata block, once, followed by the
    collapsed output of the converter: the block is joined after the
    collapse and is not passed through it.  And the call does write that
    text when the manager holds a tab whose properties answer, the page
    has HTML, the converter returns and the write succeeds. *)
Theorem metadata_joined_after_collapse launch (m : Manager) fp ii ra em conv :
  (forall m' r content,
     page_to_markdown lib launch m fp ii ra em conv true
       = (m', (r, Some content)) ->
     exists tab u t h c md,
       snd (Session.acquire_tab Tab url title launch m)
         = Returns (Session.GotTab tab) /\
       url tab = Returns u /\ title tab = Returns t /\ html tab = Returns h /\
       choose_converter lib conv = Some c /\
       convert lib c (prepare lib h em ra) ii = Returns (inr md) /\
       content = metadata_block lib t u fp ++ collapse_blank_lines md) /\
  (forall b tab u t h c md,
     Session._browser m = Some b ->
     Session._current_tab m = Some tab ->
     url tab = Returns u -> title tab = Returns t -> html tab = Returns h ->
     truthy_str h = true ->
     choose_converter lib conv = Some c ->
     convert lib c (prepare lib h em ra) ii = Returns (inr md) ->
     write_text lib fp (metadata_block lib t u fp ++ collapse_blank_lines md)
       = Returns tt ->
     page_to_markdown lib launch m fp ii ra em conv true =
     (m, (Saved (absolute lib fp) u t c,
          Some (metadata_block lib t u fp ++ collapse_blank_lines md)))).
Proof.
  split.
  - intros m' r content H.
    destruct (page_to_markdown_wrote _ _ _ _ _ _ _ _ _ _ _ H) as (tab & Ha & Hs).
    destruct (save_page_wrote _ _ _ _ _ _ _ _ _ Hs)
      as (u & t & h & c & md & Hu & Ht & Hh & Hc & Hmd & Hcontent & _).
    exists tab, u, t, h, c, md. auto 10.
  - intros b tab u t h c md Hb Htab Hu Ht Hh Hne Hc Hmd Hw.
    rewrite (page_to_markdown_held launch m b tab _ _ _ _ _ _ Hb Htab).
    unfold save_page. rewrite Hu, Ht, Hh. cbn [bind]. rewrite Hne.
    cbn [negb]. rewrite Hc, Hmd. cbn [bind]. rewrite Hw. reflexivity.
Qed.

(** C10.  With neither converter imported: [get_page_content] asked for
    ["markdown"] on a page whose properties answer returns the page's
    plain text, with success and with [format] ["text"]; while
    [page_to_markdown] fails whatever its arguments and writes nothing,
    and for the ["auto"] converter on such a page it fails with the
    missing-library error. *)
Theorem no_converter_text_fallback launch (m : Manager) :
  markdownify lib = None ->
  html2text lib = None ->
  (forall b tab u t h x em ra,
     Session._browser m = Some b ->
     Session._current_tab m = Some tab ->
     url tab = Returns u -> title tab = Returns t ->
     html tab = Returns h -> text tab = Returns x ->
     get_page_content lib launch m "markdown" em ra
       = (m, Content u t "text" x)) /\
  (forall fp ii ra em conv am,
     exists error,
       snd (page_to_markdown lib launch m fp ii ra em conv am)
         = (SaveFailed error, None)) /\
  (forall b tab u t h fp ii ra em am,
     Session._browser m = Some b ->
     Session._current_tab m = Some tab ->
     url tab = Returns u -> title tab = Returns t ->
     html tab = Returns h -> truthy_str h = true ->
     page_to_markdown lib launch m fp ii ra em "auto" am
       = (m, (SaveFailed
                "未安装 Markdown 转换库，请安装 markdownify 或 html2text",
              None))).
Proof.
  intros Hmd Hh2t.
  assert (Hu1 : USE_MARKDOWNIFY lib = false)
    by (unfold USE_MARKDOWNIFY; now rewrite Hmd).
  assert (Hu2 : USE_HTML2TEXT lib = false)
    by (unfold USE_HTML2TEXT; now rewrite Hh2t).
  split; [|split].
  - intros b tab u t h x em ra Hb Htab Hu Ht Hh Hx.
    rewrite (get_page_content_held launch m b tab _ _ _ Hb Htab).
    unfold read_page. rewrite Hu, Ht, Hh, Hx, Hu1, Hu2. reflexivity.
  - intros fp ii ra em conv am. unfold page_to_markdown.
    destruct (Session.acquire_tab Tab url title launch m) as [m1 [a|msg]];
      simpl; [|eauto].
    destruct a as [| |tab]; simpl; eauto.
    unfold save_page.
    destruct (url tab) as [u|]; cbn [bind catch]; [|eauto].
    destruct (title tab) as [t|]; cbn [bind catch]; [|eauto].
    destruct (html tab) as [h|]; cbn [bind catch]; [|eauto].
    destruct (truthy_str h); cbn [negb catch]; [|eauto].
    unfold choose_converter, convert. rewrite Hu1, Hu2.
    destruct (String.eqb conv "auto"); cbn [negb bind catch]; [eauto|].
    destruct (String.eqb conv "markdownify"); cbn [negb bind catch];
      [eauto|].
    destruct (String.eqb conv "html2text"); cbn [negb bind catch]; eauto.
  - intros b tab u t h fp ii ra em am Hb Htab Hu Ht Hh Hne.
    rewrite (page_to_markdown_held launch m b tab _ _ _ _ _ _ Hb Htab).
    unfold save_page. rewrite Hu, Ht, Hh. cbn [bind]. rewrite Hne.
    cbn [negb]. unfold choose_converter. rewrite Hu1, Hu2. reflexivity.
Qed.

End WithLibraries.

Lemma metadata_joined_after_collapse_witness :
  page_to_markdown paragraph_lib (Raises "") (holding paragraph_tab)
    "out/page.md" true false false "auto" true =
  (holding paragraph_tab,
   (Saved "/srv/out/page.md" "https://example.org/" "Example" "markdownify",
    Some (metadata_block paragraph_lib "Example" "https://example.org/"
            "out/page.md"
          ++ collapse_blank_lines (blank_line ++ "hello" ++ blank_line)))).
Proof.
  refine (proj2 (metadata_joined_after_collapse paragraph_lib (Raises "")
                   (holding paragraph_tab) "out/page.md" true false false
                   "auto")
            _ paragraph_tab _ _ "<p>hello</p>" _ _
            eq_refl eq_refl eq_refl eq_refl eq_refl eq_refl eq_refl
            eq_refl eq_refl).
Defined.

Lemma no_converter_text_fallback_witness :
  get_page_content bare_lib (Raises "") (holding paragraph_tab)
    "markdown" true true
  = (holding paragraph_tab,
     Content "https://example.org/" "Example" "text" "hello").
Proof.
  refine (proj1 (no_converter_text_fallback bare_lib (Raises "")
                   (holding paragraph_tab) eq_refl eq_refl)
            _ paragraph_tab _ _ "<p>hello</p>" _ true true
            eq_refl eq_refl eq_refl eq_refl eq_refl eq_refl).
Defined.

(** C2, as stated, fails.  markdownify answers [<p>hello</p>] with the
    paragraph between blank lines.  The text written has the block's
    closing blank line followed by the body's opening one, four line feeds
    in a row: it is not what the collapse would make of the block and body
    together, and the collapse would still change it. *)
Lemma metadata_spacing_not_collapsed :
  let written :=
    metadata_block paragraph_lib "Example" "https://example.org/"
      "out/page.md"
    ++ blank_line ++ "hello" ++ blank_line in
  snd (snd (page_to_markdown paragraph_lib (Raises "")
              (holding paragraph_tab) "out/page.md" true false false
              "auto" true)) = Some written /\
  contains (blank_line ++ blank_line) written = true /\
  written <>
    collapse_blank_lines
      (metadata_block paragraph_lib "Example" "https://example.org/"
         "out/page.md"
       ++ (blank_line ++ "hello" ++ blank_line)) /\
  collapse_blank_lines written <> written.
Proof.
  cbv zeta. split; [reflexivity|]. split; [reflexivity|].
  split; intros H; apply (f_equal String.length) in H;
    vm_compute in H; discriminate.
Qed.

End MarkdownFacts.

(* --------------------------------------------------------------------- *)
(** ** Table extraction *)
(* --------------------------------------------------------------------- *)

Module TableFacts.
Import Dom Table.

Lemma cell_texts_truthy text cells :
  cells <> [] -> truthy_list (cell_texts text cells) = true.
Proof. destruct cells; [congruence|reflexivity]. Qed.

Lemma truthy_list_nonempty {A} (l : list A) :
  l <> [] -> truthy_list l = true.
Proof. destruct l; [congruence|reflexivity]. Qed.

(** *** The header *)

(** With a [thead] that has cells, the header is the text of its [th]
    cells, and of its [td] cells if it has no [th]. *)
Lemma headers_of_thead text table thead :
  Dom.ele (ByTag "thead") table = Some thead ->
  (eles (ByTag "th") thead <> [] ->
   extract_headers text table = cell_texts text (eles (ByTag "th") thead)) /\
  (eles (ByTag "th") thead = [] ->
   eles (ByTag "td") thead <> [] ->
   extract_headers text table = cell_texts text (eles (ByTag "td") thead)).
Proof.
  intros Hthead. unfold extract_headers. rewrite Hthead. split.
  - intros Hth. rewrite (truthy_list_nonempty _ Hth). cbn [negb].
    now rewrite (cell_texts_truthy _ _ Hth).
  - intros Hth Htd. rewrite Hth. cbn [truthy_list negb].
    now rewrite (cell_texts_truthy _ _ Htd).
Qed.

Example headers_of_headed_table :
  extract_headers plain_text headed_table = ["Name"; "Age"].
Proof.
  refine (proj2 (headers_of_thead plain_text headed_table _ eq_refl)
            eq_refl _).
  discriminate.
Qed.

(** Without a [thead], the header is the text of the cells of the first
    row: its [th] cells, and its [td] cells if it has no [th]. *)
Lemma headers_of_first_row text table first_row :
  Dom.ele (ByTag "thead") table = None ->
  Dom.ele (ByTag "tr") table = Some first_row ->
  extract_headers text table =
  cell_texts text (match eles (ByTag "th") first_row with
                   | [] => eles (ByTag "td") first_row
                   | cells => cells
                   end).
Proof.
  intros Hthead Hrow. unfold extract_headers.
  rewrite Hthead, Hrow. cbn [truthy_list negb].
  destruct (eles (ByTag "th") first_row); reflexivity.
Qed.

(** *** The rows *)

(** The rows of a [tbody] are read as they are, whatever the header was
    taken from. *)
Lemma body_rows_of_tbody table tbody headers include_header :
  Dom.ele (ByTag "tbody") table = Some tbody ->
  body_rows table headers include_header = eles (ByTag "tr") tbody.
Proof. intros Htbody. unfold body_rows. now rewrite Htbody. Qed.

(** Without a [tbody], the first row is left out when a header was found
    and [include_header] is set, and only then. *)
Lemma body_rows_without_tbody table headers include_header :
  Dom.ele (ByTag "tbody") table = None ->
  body_rows table headers include_header
  = if truthy_list headers && include_header
    then List.tl (eles (ByTag "tr") table)
    else eles (ByTag "tr") table.
Proof.
  intros Htbody. unfold body_rows. rewrite Htbody.
  destruct (truthy_list headers && include_header);
    destruct (eles (ByTag "tr") table); reflexivity.
Qed.

(** A row of [th] cells alone is read as the text of these cells. *)
Lemma read_rows_header_row text first_row rest :
  eles (ByTag "th") first_row <> [] ->
  eles (ByTag "td") first_row = [] ->
  read_rows text (first_row :: rest)
  = cell_texts text (eles (ByTag "th") first_row) :: read_rows text rest.
Proof.
  intros Hth Htd. cbn [read_rows]. rewrite Htd. cbn [truthy_list negb].
  now rewrite (cell_texts_truthy _ _ Hth).
Qed.

(** What [extract_table_data] answers for the format ["json"] without an
    output file, on a manager that holds the tab, from the header and the
    rows to read. *)
Lemma extract_table_data_json fs launch (m : Manager) b tab selector table
  include_header :
  Session._browser m = Some b ->
  Session._current_tab m = Some tab ->
  ele tab selector = Returns (Some table) ->
  let headers := extract_headers (text_of tab) table in
  let rows :=
    read_rows (text_of tab) (body_rows table headers include_header) in
  extract_table_data fs launch m selector "json" None include_header
  = (m, TableJson (if include_header then Some headers else None)
          (format_rows headers rows) (Z.of_nat (List.length rows)) None).
Proof.
  intros Hb Ht He headers rows. unfold extract_table_data.
  rewrite (SessionFacts.acquire_held Tab url title launch m b tab Hb Ht).
  cbn [bind catch]. unfold read_table. rewrite He. reflexivity.
Qed.

(** C5.  The header row is returned as a record.  Take a table without a
    [thead] whose first row has [th] cells alone, so that the header is
    the text of these cells.  When the rows sit in a [tbody], which is
    where the browser puts the rows of the markup
    [<table><tr>...</tr>...</table>], [extract_table_data] returns the
    header row once more as the first record, each header name under
    itself, and counts it in [row_count].  When the rows sit directly
    below the table, the same call leaves the header row out, as line 88
    says it should, unless [include_header] is [False]. *)
Theorem header_row_returned_as_record fs launch (m : Manager) b tab selector
  table first_row rest (include_header : bool) :
  Session._browser m = Some b ->
  Session._current_tab m = Some tab ->
  ele tab selector = Returns (Some table) ->
  Dom.ele (ByTag "thead") table = None ->
  Dom.ele (ByTag "tr") table = Some first_row ->
  eles (ByTag "th") first_row <> [] ->
  eles (ByTag "td") first_row = [] ->
  let headers := cell_texts (text_of tab) (eles (ByTag "th") first_row) in
  let answer (rows : list (list string)) :=
    (m, TableJson (if include_header then Some headers else None)
          (Records
             (List.map (fun row => dict_of (List.combine headers row)) rows))
          (Z.of_nat (List.length rows)) None) in
  (forall tbody,
     Dom.ele (ByTag "tbody") table = Some tbody ->
     eles (ByTag "tr") tbody = first_row :: rest ->
     extract_table_data fs launch m selector "json" None include_header
     = answer (headers :: read_rows (text_of tab) rest)) /\
  (Dom.ele (ByTag "tbody") table = None ->
   eles (ByTag "tr") table = first_row :: rest ->
   extract_table_data fs launch m selector "json" None include_header
   = answer (if include_header then read_rows (text_of tab) rest
             else headers :: read_rows (text_of tab) rest)).
Proof.
  intros Hb Ht He Hthead Hrow Hth Htd headers answer.
  pose proof (extract_table_data_json fs launch m b tab selector table
                include_header Hb Ht He) as Hjson.
  cbv zeta in Hjson.
  rewrite (headers_of_first_row _ _ _ Hthead Hrow) in Hjson.
  destruct (eles (ByTag "th") first_row) as [|c cells] eqn:Ecells;
    [congruence|].
  fold headers in Hjson.
  assert (Hh : truthy_list headers = true) by reflexivity.
  unfold format_rows in Hjson. rewrite Hh in Hjson.
  assert (Hfirst : read_rows (text_of tab) (first_row :: rest)
                   = headers :: read_rows (text_of tab) rest).
  { subst headers. rewrite <- Ecells.
    apply read_rows_header_row; [rewrite Ecells; discriminate|exact Htd]. }
  split.
  - intros tbody Htbody Hrows. rewrite Hjson.
    rewrite (body_rows_of_tbody _ _ _ _ Htbody), Hrows, Hfirst.
    reflexivity.
  - intros Htbody Hrows. rewrite Hjson.
    rewrite (body_rows_without_tbody _ _ _ Htbody), Hrows, Hh.
    cbn [andb List.tl]. destruct include_header; [reflexivity|].
    rewrite Hfirst. reflexivity.
Qed.

Lemma header_row_returned_as_record_witness :
  extract_table_data no_files (Raises "")
    (holding (tab_showing small_table_in_tbody)) "tag:table" "json" None true
  = (holding (tab_showing small_table_in_tbody),
     TableJson (Some ["A"; "B"])
       (Records [[("A", "A"); ("B", "B")]; [("A", "1"); ("B", "2")]])
       2 None) /\
  extract_table_data no_files (Raises "")
    (holding (tab_showing small_table)) "tag:table" "json" None true
  = (holding (tab_showing small_table),
     TableJson (Some ["A"; "B"]) (Records [[("A", "1"); ("B", "2")]])
       1 None).
Proof.
  split.
  - refine (proj1 (header_row_returned_as_record no_files (Raises "")
                     (holding (tab_showing small_table_in_tbody)) _
                     (tab_showing small_table_in_tbody) "tag:table"
                     small_table_in_tbody
                     (row 2 [cell 3 "th" "A"; cell 4 "th" "B"])
                     [row 5 [cell 6 "td" "1"; cell 7 "td" "2"]] true
                     eq_refl eq_refl eq_refl eq_refl eq_refl _ eq_refl)
              _ eq_refl eq_refl).
    discriminate.
  - refine (proj2 (header_row_returned_as_record no_files (Raises "")
                     (holding (tab_showing small_table)) _
                     (tab_showing small_table) "tag:table" small_table
                     (row 2 [cell 3 "th" "A"; cell 4 "th" "B"])
                     [row 5 [cell 6 "td" "1"; cell 7 "td" "2"]] true
                     eq_refl eq_refl eq_refl eq_refl eq_refl _ eq_refl)
              eq_refl eq_refl).
    discriminate.
Defined.

End TableFacts.

(* --------------------------------------------------------------------- *)
(** ** Form filling *)
(* --------------------------------------------------------------------- *)

Module FormFacts.
Import Form.

Lemma fill_fields_lists tab fields : forall l,
  fill_fields tab fields l =
  {| filled_fields := filled_fields l ++ filled_of tab fields;
     errors := errors l ++ errors_of tab fields |}.
Proof.
  unfold filled_of, errors_of.
  induction fields as [|[selector v] rest IH]; intros l.
  - simpl. rewrite !app_nil_r. now destruct l.
  - cbn [fill_fields List.filter flat_map fst snd]. rewrite IH.
    destruct (fill_field tab selector v); cbn [filled_fields errors List.map];
      now rewrite <- ?app_assoc.
Qed.

Lemma every_field_tried tab fields :
  (List.length (filled_of tab fields) + List.length (errors_of tab fields)
   = List.length fields)%nat.
Proof.
  unfold filled_of, errors_of.
  induction fields as [|[selector v] rest IH]; [reflexivity|].
  cbn [List.filter flat_map fst snd].
  destruct (fill_field tab selector v); simpl; rewrite ?length_app; simpl; lia.
Qed.

Lemma fill_field_written tab selector v element :
  ele tab selector = Returns (Some element) ->
  write_value element v = Returns tt ->
  fill_field tab selector v = None.
Proof. intros He Hw. unfold fill_field. now rewrite He; cbn; rewrite Hw. Qed.

Lemma fill_field_not_found tab selector v :
  ele tab selector = Returns None ->
  fill_field tab selector v = Some ("未找到元素: " ++ selector)%string.
Proof. intros He. unfold fill_field. now rewrite He. Qed.

Lemma fill_field_raised tab selector v msg :
  ele tab selector = Raises msg ->
  fill_field tab selector v = Some (selector ++ ": " ++ msg)%string.
Proof. intros He. unfold fill_field. now rewrite He. Qed.

(** C9.  [fill_form] goes through every field: each selector ends up
    either in [filled_fields] or with one message in [errors], in the
    order of the fields, and [success] says whether [errors] is empty.
    With two fields, one whose element is found and written and one that
    fails, in either order and without a submit selector, the result has
    [success: False], [filled_fields] holding the first selector alone and
    [errors] holding the one message of the second; for a selector that
    finds nothing that message is the not-found message, for a lookup that
    raises it is the selector followed by the exception's text. *)
Theorem fill_form_goes_on (launch : outcome (Session.Chromium Tab))
  (m : Manager) b tab :
  Session._browser m = Some b ->
  Session._current_tab m = Some tab ->
  (forall fields submit_selector,
     fill_form launch m fields submit_selector =
     (m, FormDone
           (Nat.eqb (List.length
                       (snd (submit tab submit_selector
                               (errors_of tab fields)))) 0)
           (filled_of tab fields)
           (fst (submit tab submit_selector (errors_of tab fields)))
           (if truthy_list
                 (snd (submit tab submit_selector (errors_of tab fields)))
            then Some (snd (submit tab submit_selector
                              (errors_of tab fields)))
            else None))) /\
  (forall fields,
     (List.length (filled_of tab fields)
      + List.length (errors_of tab fields) = List.length fields)%nat) /\
  (forall good bad v1 v2 element message,
     ele tab good = Returns (Some element) ->
     write_value element v1 = Returns tt ->
     fill_field tab bad v2 = Some message ->
     fill_form launch m [(good, v1); (bad, v2)] None =
       (m, FormDone false [good] false (Some [message])) /\
     fill_form launch m [(bad, v2); (good, v1)] None =
       (m, FormDone false [good] false (Some [message]))) /\
  (forall bad v,
     ele tab bad = Returns None ->
     fill_field tab bad v = Some ("未找到元素: " ++ bad)%string) /\
  (forall bad v msg,
     ele tab bad = Raises msg ->
     fill_field tab bad v = Some (bad ++ ": " ++ msg)%string).
Proof.
  intros Hb Ht.
  assert (Hall : forall fields submit_selector,
     fill_form launch m fields submit_selector =
     (m, FormDone
           (Nat.eqb (List.length
                       (snd (submit tab submit_selector
                               (errors_of tab fields)))) 0)
           (filled_of tab fields)
           (fst (submit tab submit_selector (errors_of tab fields)))
           (if truthy_list
                 (snd (submit tab submit_selector (errors_of tab fields)))
            then Some (snd (submit tab submit_selector
                              (errors_of tab fields)))
            else None))).
  { intros fields submit_selector. unfold fill_form.
    rewrite (SessionFacts.acquire_held Tab url title launch m b tab Hb Ht).
    cbn [bind catch]. rewrite fill_fields_lists. cbn [filled_fields errors].
    cbn [app].
    destruct (submit tab submit_selector (errors_of tab fields)).
    reflexivity. }
  split; [exact Hall|]. split; [apply every_field_tried|].
  split; [|split].
  - intros good bad v1 v2 element message Hgood Hwrite Hbad.
    rewrite !Hall. unfold filled_of, errors_of.
    cbn [List.filter flat_map fst snd].
    rewrite (fill_field_written tab good v1 element Hgood Hwrite), Hbad.
    split; reflexivity.
  - intros bad v. apply fill_field_not_found.
  - intros bad v msg. apply fill_field_raised.
Qed.

Lemma fill_form_goes_on_witness :
  fill_form (Raises "") (holding login_page)
    [("#nickname", VStr "ada"); ("#name", VStr "Ada")] None
  = (holding login_page,
     FormDone false ["#name"] false (Some ["未找到元素: #nickname"])).
Proof.
  destruct (fill_form_goes_on (Raises "") (holding login_page) _ login_page
              eq_refl eq_refl) as (_ & _ & H & _).
  exact (proj2 (H "#name" "#nickname" (VStr "Ada") (VStr "ada") text_input
                  _ eq_refl eq_refl eq_refl)).
Defined.

End FormFacts.

(* --------------------------------------------------------------------- *)
(** ** The browser manager: life cycle *)
(* --------------------------------------------------------------------- *)

Module SessionLifeCycle.
Import Session.

Section Manager.

Variable Tab : Type.
Variable tab_url : Tab -> outcome string.
Variable tab_title : Tab -> outcome string.

(** X1.  A browser handle the manager holds is never replaced by another
    one: after any call it is the same handle, or the call was
    [close_browser] and there is none. *)
Theorem running_browser_is_kept (m m' : BrowserManager Tab) b :
  call Tab tab_url tab_title m m' ->
  _browser m = Some b ->
  _browser m' = Some b \/
  (m' = fst (close_browser m) /\ _browser m' = None).
Proof.
  intros Hc Hb. destruct Hc.
  - left. unfold init_browser. rewrite Hb.
    pose proof (SessionFacts.get_status_browser Tab tab_url tab_title m) as H.
    destruct (get_status Tab tab_url tab_title m). simpl in *. congruence.
  - left. rewrite SessionFacts.get_status_browser. exact Hb.
  - left. rewrite SessionFacts.get_current_tab_browser. exact Hb.
  - left. unfold ensure_browser, is_running. rewrite Hb. exact Hb.
  - left. exact Hb.
  - right. split; [reflexivity|].
    apply SessionFacts.close_browser_clears_browser.
Qed.

(** X2.  When [ensure_browser] answers [True] the manager holds a browser,
    and asking again answers [True] and changes nothing, whatever a launch
    would give. *)
Theorem ensure_browser_settles launch (m : BrowserManager Tab) :
  snd (ensure_browser Tab tab_url tab_title launch m) = true ->
  let m' := fst (ensure_browser Tab tab_url tab_title launch m) in
  is_running m' = true /\
  forall launch', ensure_browser Tab tab_url tab_title launch' m' = (m', true).
Proof.
  intros Hok m'.
  assert (Hrun : is_running m' = true).
  { subst m'. revert Hok. unfold ensure_browser.
    destruct (is_running m) eqn:Hr; cbn [negb]; [intros _; exact Hr|].
    unfold init_browser. unfold is_running in Hr.
    destruct (_browser m) eqn:Hb; [discriminate|].
    destruct launch as [b|msg]; [|intros H; discriminate H].
    destruct (latest_tab b) as [t|msg]; [|intros H; discriminate H].
    set (m2 := {| _browser := Some b; _current_tab := t |}).
    pose proof (SessionFacts.get_status_browser Tab tab_url tab_title m2) as H.
    destruct (get_status Tab tab_url tab_title m2) as [m3 st].
    cbn [fst snd] in *. intros _. unfold is_running. now rewrite H. }
  split; [exact Hrun|].
  intros launch'. unfold ensure_browser. now rewrite Hrun.
Qed.

(** X3.  A launch that succeeds followed by a [latest_tab] that raises
    makes [ensure_browser] answer [False] with the new handle already
    stored: the manager is running, and the next [ensure_browser] answers
    [True] without launching. *)
Theorem ensure_browser_failure_keeps_handle (m : BrowserManager Tab) b msg :
  _browser m = None ->
  latest_tab b = Raises msg ->
  let m' := fst (ensure_browser Tab tab_url tab_title (Returns b) m) in
  snd (ensure_browser Tab tab_url tab_title (Returns b) m) = false /\
  _browser m' = Some b /\
  _current_tab m' = _current_tab m /\
  forall launch', ensure_browser Tab tab_url tab_title launch' m' = (m', true).
Proof.
  intros Hb Hl m'.
  assert (Hm : ensure_browser Tab tab_url tab_title (Returns b) m
               = ({| _browser := Some b; _current_tab := _current_tab m |},
                  false)).
  { unfold ensure_browser, is_running. rewrite Hb. cbn [negb].
    unfold init_browser. now rewrite Hb, Hl. }
  subst m'. rewrite Hm. cbn [fst snd _browser _current_tab].
  repeat split.
Qed.

(** X4.  Once [get_current_tab] has answered with a tab, the manager
    tracks that tab: the browser handle is as before, and asking again
    answers with the same tab and changes nothing, without a look at
    [latest_tab]. *)
Theorem get_current_tab_is_remembered (m m1 : BrowserManager Tab) t :
  get_current_tab m = (m1, Returns (Some t)) ->
  _browser m1 = _browser m /\
  _current_tab m1 = Some t /\
  get_current_tab m1 = (m1, Returns (Some t)).
Proof.
  unfold get_current_tab.
  destruct m as [[b|] [t0|]]; cbn [_browser _current_tab].
  - intros H. injection H as <- <-. auto.
  - destruct (latest_tab b) as [[t1|]|msg]; intros H; try discriminate H.
    injection H as <- <-. auto.
  - intros H. discriminate H.
  - intros H. discriminate H.
Qed.

(** X5.  Closing twice is closing once: the second [close_browser] finds
    no browser, answers with success and changes nothing.  After a close
    in a reachable state, an [init_browser] whose launch and [latest_tab]
    return starts afresh with the launched handle and its tab. *)
Theorem close_then_init (m : BrowserManager Tab) :
  let m' := fst (close_browser m) in
  close_browser m' = (m', CloseNotRunning) /\
  (reachable Tab tab_url tab_title m ->
   forall b t,
     latest_tab b = Returns t ->
     exists st,
       init_browser Tab tab_url tab_title (Returns b) m'
       = ({| _browser := Some b; _current_tab := t |}, InitLaunched st)).
Proof.
  intros m'.
  pose proof (SessionFacts.close_browser_clears_browser Tab m) as Hb.
  fold m' in Hb. split.
  - unfold close_browser. now rewrite Hb.
  - intros Hr b t Hl. unfold init_browser. rewrite Hb, Hl.
    set (m2 := {| _browser := Some b; _current_tab := t |}).
    pose proof (SessionFacts.get_status_state Tab tab_url tab_title m2) as Hs.
    destruct (get_status Tab tab_url tab_title m2) as [m3 st] eqn:Hst.
    cbn [fst] in Hs. exists st. f_equal.
    destruct Hs as [->| ->]; [reflexivity|].
    unfold get_current_tab, m2. cbn [_browser _current_tab].
    destruct t as [t|]; [reflexivity|]. rewrite Hl. reflexivity.
Qed.

(** X6.  [get_status] leaves the browser handle alone and answers
    [running: True] only when there is one.  The converse fails: with a
    tracked tab whose [url] raises, the answer is [running: False] with
    the error, although the handle is still there. *)
Theorem get_status_running (m : BrowserManager Tab) :
  _browser (fst (get_status Tab tab_url tab_title m)) = _browser m /\
  (running (snd (get_status Tab tab_url tab_title m)) = true ->
   is_running m = true) /\
  (forall b tab msg,
     _browser m = Some b ->
     _current_tab m = Some tab ->
     tab_url tab = Raises msg ->
     get_status Tab tab_url tab_title m
     = (m, StatusFailed ("获取状态失败: " ++ msg)) /\
     is_running m = true).
Proof.
  split; [apply SessionFacts.get_status_browser|]. split.
  - unfold get_status, is_running.
    destruct (_browser m); [reflexivity|]. intros H. discriminate H.
  - intros b tab msg Hb Ht Hu. unfold get_status, get_current_tab, is_running.
    rewrite Hb, Ht, Hu. split; reflexivity.
Qed.

End Manager.

Lemma running_browser_is_kept_witness :
  _browser (fst (init_browser unit (fun _ => Returns "") (fun _ => Returns "")
                   (Returns {| quit := Returns tt;
                               latest_tab := Returns None;
                               get_tabs := None |})
                   launched))
  = Some stubborn_browser.
Proof.
  destruct (running_browser_is_kept unit (fun _ => Returns "")
              (fun _ => Returns "") launched _ stubborn_browser
              (call_init unit (fun _ => Returns "") (fun _ => Returns "")
                 (Returns {| quit := Returns tt;
                             latest_tab := Returns None;
                             get_tabs := None |}) launched)
              eq_refl) as [H|[_ H]].
  - exact H.
  - discriminate H.
Defined.

Lemma ensure_browser_settles_witness :
  is_running
    (fst (ensure_browser unit (fun _ => Returns "") (fun _ => Returns "")
            (Returns stubborn_browser) init)) = true.
Proof.
  exact (proj1 (ensure_browser_settles unit (fun _ => Returns "")
                  (fun _ => Returns "") (Returns stubborn_browser) init
                  eq_refl)).
Defined.

Lemma ensure_browser_failure_keeps_handle_witness :
  let b := {| quit := Returns tt;
              latest_tab := Raises "no tab";
              get_tabs := None |} in
  snd (ensure_browser unit (fun _ => Returns "") (fun _ => Returns "")
         (Returns b) init) = false /\
  _browser (fst (ensure_browser unit (fun _ => Returns "")
                   (fun _ => Returns "") (Returns b) init)) = Some b.
Proof.
  intros b.
  destruct (ensure_browser_failure_keeps_handle unit
              (fun _ => Returns "") (fun _ => Returns "") init
              b "no tab" eq_refl eq_refl) as (Hf & Hb & _).
  split; [exact Hf|exact Hb].
Defined.

Lemma get_current_tab_is_remembered_witness :
  get_current_tab
    {| _browser := Some stubborn_browser; _current_tab := Some tt |}
  = ({| _browser := Some stubborn_browser; _current_tab := Some tt |},
     Returns (Some tt)).
Proof.
  exact (proj2 (proj2 (get_current_tab_is_remembered unit
                         {| _browser := Some stubborn_browser;
                            _current_tab := None |} _ tt eq_refl))).
Defined.

Lemma close_then_init_witness :
  exists st,
    init_browser unit (fun _ => Returns "about:blank") (fun _ => Returns "")
      (Returns stubborn_browser) (fst (close_browser launched))
    = ({| _browser := Some stubborn_browser; _current_tab := Some tt |},
       InitLaunched st).
Proof.
  refine (proj2 (close_then_init unit (fun _ => Returns "about:blank")
                   (fun _ => Returns "") launched)
            _ stubborn_browser (Some tt) eq_refl).
  eapply reach_call; [apply reach_init|]. unfold launched. apply call_init.
Defined.

Lemma get_status_running_witness :
  get_status unit (fun _ => Raises "target closed") (fun _ => Returns "")
    {| _browser := Some stubborn_browser; _current_tab := Some tt |}
  = ({| _browser := Some stubborn_browser; _current_tab := Some tt |},
     StatusFailed "获取状态失败: target closed").
Proof.
  exact (proj1 (proj2 (proj2 (get_status_running unit
                  (fun _ => Raises "target closed") (fun _ => Returns "")
                  {| _browser := Some stubborn_browser;
                     _current_tab := Some tt |}))
                 stubborn_browser tt "target closed" eq_refl eq_refl eq_refl)).
Defined.

End SessionLifeCycle.

(* --------------------------------------------------------------------- *)
(** ** The Markdown pipeline: further properties *)
(* --------------------------------------------------------------------- *)

Module MarkdownMore.
Import Dom Markdown Text.

Local Open Scope string_scope.

(** *** The blank-line collapse *)

Lemma prefix_lf_run n : forall text,
  String.prefix (lf_run n) text = (n <=? leading_lf text)%nat.
Proof.
  induction n as [|n IH]; intros text; [destruct text; reflexivity|].
  destruct text as [|c rest]; [reflexivity|].
  cbn [lf_run String.prefix leading_lf].
  destruct (Ascii.ascii_dec LF c) as [<-|Hne].
  - rewrite Ascii.eqb_refl. apply IH.
  - destruct (Ascii.eqb_spec c LF); [congruence|reflexivity].
Qed.

Lemma settled_no_long_run text :
  settled text = negb (contains (lf_run 3) text).
Proof.
  induction text as [|c rest IH]; [reflexivity|].
  cbn [settled contains]. rewrite IH, prefix_lf_run, negb_orb.
  now rewrite Nat.ltb_antisym.
Qed.

Lemma sub_from_no_long_run text skip :
  contains (lf_run 3) (sub_from skip text) = false.
Proof.
  pose proof (MarkdownFacts.sub_from_is_settled text skip) as H.
  rewrite settled_no_long_run in H.
  now apply negb_true_iff in H.
Qed.

(** X7.  What the collapse returns never has three line feeds in a
    row. *)
Theorem collapse_leaves_no_long_run (x : string) :
  contains (lf_run 3) (collapse_blank_lines x) = false.
Proof. unfold collapse_blank_lines. apply sub_from_no_long_run. Qed.

(** X8.  The collapse changes a text exactly when the text has three line
    feeds in a row somewhere. *)
Theorem collapse_fixed_points (x : string) :
  collapse_blank_lines x = x <-> contains (lf_run 3) x = false.
Proof.
  split.
  - intros H. rewrite <- H. apply sub_from_no_long_run.
  - intros H. apply MarkdownFacts.sub_from_settled.
    rewrite settled_no_long_run, H. reflexivity.
Qed.

Lemma collapse_fixed_points_witness :
  collapse_blank_lines ("a" ++ blank_line ++ "b") = "a" ++ blank_line ++ "b".
Proof.
  apply (proj2 (collapse_fixed_points ("a" ++ blank_line ++ "b"))).
  reflexivity.
Defined.

Lemma sub_from_inside_run text : forall skip,
  (skip <= leading_lf text)%nat ->
  without_lf (sub_from skip text) = without_lf text /\
  (String.length (sub_from skip text) + skip <= String.length text)%nat.
Proof.
  induction text as [|c rest IH]; intros skip Hskip.
  - cbn in Hskip. replace skip with 0%nat by lia. split; [reflexivity|].
    cbn. lia.
  - pose proof (MarkdownFacts.leading_lf_cons c rest) as Hlead.
    destruct skip as [|skip]; cbn [sub_from].
    + destruct (Nat.leb_spec 3 (leading_lf (String c rest))) as [Hlong|_].
      * destruct (Ascii.eqb c LF) eqn:Hc; [|lia].
        destruct (IH (leading_lf (String c rest) - 1)%nat ltac:(lia))
          as [Hw Hl].
        cbn [without_lf String.length]. rewrite Ascii.eqb_refl, Hc.
        split; [exact Hw|lia].
      * destruct (IH 0%nat ltac:(lia)) as [Hw Hl].
        cbn [without_lf String.length]. rewrite Hw. split; [reflexivity|lia].
    + destruct (Ascii.eqb c LF) eqn:Hc; [|lia].
      destruct (IH skip ltac:(lia)) as [Hw Hl].
      cbn [without_lf String.length]. rewrite Hc. split; [exact Hw|lia].
Qed.

(** X9.  The collapse only takes line feeds away: the text is never
    longer than before, and all that is not a line feed is kept, in
    order. *)
Theorem collapse_only_drops_line_feeds (x : string) :
  without_lf (collapse_blank_lines x) = without_lf x /\
  (String.length (collapse_blank_lines x) <= String.length x)%nat.
Proof.
  destruct (sub_from_inside_run x 0 (Nat.le_0_l _)) as [Hw Hl].
  split; [exact Hw|]. unfold collapse_blank_lines. lia.
Qed.

(** *** [_clean_html] *)

Lemma flat_map_nil_iff {A B} (f : A -> list B) l :
  flat_map f l = [] <-> Forall (fun a => f a = []) l.
Proof.
  induction l as [|a l IH]; [split; [constructor|reflexivity]|].
  cbn [flat_map]. split.
  - intros H. apply app_eq_nil in H. destruct H as [H1 H2].
    constructor; [exact H1|now apply IH].
  - intros H. inversion H as [|? ? H1 H2]; subst.
    rewrite H1. now apply IH.
Qed.

Lemma Forall_iff_in {A} (P Q : A -> Prop) l :
  Forall (fun a => P a <-> Q a) l -> Forall P l <-> Forall Q l.
Proof.
  induction 1 as [|a l Ha _ IH]; [split; constructor|].
  split; intros H; inversion H; subst; constructor;
    try (now apply Ha); now apply IH.
Qed.

Lemma find_all_nothing p n :
  find_all p n = [] <-> Forall (fun l => p l = false) (labels n).
Proof.
  induction n as [l children IH|s] using DomFacts.node_induction.
  - cbn [find_all labels].
    assert (Hc : flat_map (find_all p) children = [] <->
                 Forall (fun l => p l = false) (flat_map labels children)).
    { rewrite flat_map_nil_iff, Forall_flat_map.
      apply Forall_iff_in. exact IH. }
    split.
    + intros H. apply app_eq_nil in H. destruct H as [Hl Hn].
      constructor; [destruct (p l); [discriminate|reflexivity]|].
      now apply Hc.
    + intros H. inversion H as [|? ? Hl Hn]; subst. rewrite Hl.
      cbn [app]. now apply Hc.
  - split; [constructor|reflexivity].
Qed.

Lemma select_nothing sel d :
  select sel d = [] <->
  Forall (fun l => matches sel l = false) (soup_labels d).
Proof.
  unfold select, soup_labels.
  induction d as [|n d IH]; [split; [constructor|reflexivity]|].
  cbn [flat_map]. split.
  - intros H. apply app_eq_nil in H. destruct H as [H1 H2].
    apply Forall_app. split; [now apply find_all_nothing|now apply IH].
  - intros H. apply Forall_app in H. destruct H as [H1 H2].
    rewrite (proj2 (find_all_nothing _ _) H1). now apply IH.
Qed.

Lemma remove_selected_untouched selectors : forall d,
  Forall (fun l => matches_any selectors l = false) (soup_labels d) ->
  remove_selected selectors d = d.
Proof.
  unfold remove_selected.
  induction selectors as [|sel rest IH]; intros d H; [reflexivity|].
  cbn [List.fold_left].
  assert (Hsel : select sel d = []).
  { apply select_nothing. eapply Forall_impl; [|exact H].
    intros l Hl. unfold matches_any in Hl. cbn [List.existsb] in Hl.
    now apply orb_false_iff in Hl. }
  rewrite Hsel. cbn [decompose_each List.fold_left]. apply IH.
  eapply Forall_impl; [|exact H].
  intros l Hl. unfold matches_any in *. cbn [List.existsb] in Hl.
  now apply orb_false_iff in Hl.
Qed.

(** X10.  A document in which no element is on the denylist comes out of
    [_clean_html] as it went in: the rendering of the parsed document. *)
Theorem clean_html_keeps_clean_page (lib : Libraries) (html : string) :
  Forall (fun l => denied l = false) (soup_labels (parse lib html)) ->
  remove_selected ad_selectors (parse lib html) = parse lib html /\
  _clean_html lib html true = to_str lib (parse lib html).
Proof.
  intros H.
  assert (Heq : remove_selected ad_selectors (parse lib html)
                = parse lib html).
  { apply remove_selected_untouched. eapply Forall_impl; [|exact H].
    intros l Hl. now rewrite MarkdownFacts.denied_is_matches_any. }
  split; [exact Heq|]. unfold _clean_html. now rewrite Heq.
Qed.

Lemma clean_html_keeps_clean_page_witness :
  _clean_html (lib_parsing cookie_page) "<html>...</html>" true
  = to_str (lib_parsing cookie_page) cookie_page.
Proof.
  refine (proj2 (clean_html_keeps_clean_page (lib_parsing cookie_page)
                   "<html>...</html>" _)).
  repeat constructor.
Defined.

(** X11.  Cleaning a cleaned document changes nothing: on a document whose
    elements are distinct objects, the two loops of [_clean_html] run a
    second time remove nothing more. *)
Theorem clean_html_twice (d : soup) :
  distinct d ->
  remove_selected ad_selectors (remove_selected ad_selectors d)
  = remove_selected ad_selectors d.
Proof.
  intros Hd. apply remove_selected_untouched.
  rewrite (DomFacts.remove_selected_prune _ _ _ Hd (incl_refl _)).
  apply DomFacts.prune_clears.
Qed.

Lemma clean_html_twice_witness :
  remove_selected ad_selectors (remove_selected ad_selectors busy_page)
  = remove_selected ad_selectors busy_page.
Proof.
  apply clean_html_twice. unfold distinct. cbv.
  repeat (constructor; [intros H; repeat destruct H as [H|H];
                        try discriminate; try contradiction|]).
  constructor.
Defined.

(** *** [_extract_main_content] *)

Lemma select_one_nothing sel d :
  select_one sel d = None <->
  Forall (fun l => matches sel l = false) (soup_labels d).
Proof.
  rewrite <- select_nothing. unfold select_one.
  destruct (select sel d); split; intros H; reflexivity || discriminate H.
Qed.

Lemma Forall_and_iff {A} (P Q : A -> Prop) l :
  Forall (fun a => P a /\ Q a) l <-> Forall P l /\ Forall Q l.
Proof.
  induction l as [|a l IH].
  - split; [split; constructor|constructor].
  - split.
    + intros H. inversion H as [|? ? [Hp Hq] Hl]; subst.
      apply IH in Hl. destruct Hl. split; constructor; assumption.
    + intros [Hp Hq]. inversion Hp; inversion Hq; subst.
      constructor; [split; assumption|]. apply IH. split; assumption.
Qed.

(** X12.  The loop of [_extract_main_content] finds nothing, so that the
    body or the input is returned, exactly when no element of the
    document matches any of the selectors. *)
Theorem main_content_fallback (selectors : list selector) (d : soup) :
  first_selected selectors d = None <->
  Forall (fun l => matches_any selectors l = false) (soup_labels d).
Proof.
  induction selectors as [|sel rest IH].
  - split; [intros _|reflexivity].
    apply Forall_forall. intros l _. reflexivity.
  - cbn [first_selected].
    assert (Hsplit :
      Forall (fun l => matches_any (sel :: rest) l = false) (soup_labels d)
      <-> Forall (fun l => matches sel l = false) (soup_labels d) /\
          Forall (fun l => matches_any rest l = false) (soup_labels d)).
    { rewrite <- Forall_and_iff. split; intros H;
        (eapply Forall_impl; [|exact H]); intros l Hl;
        unfold matches_any in *; cbn [List.existsb] in *;
        now apply orb_false_iff. }
    rewrite Hsplit, <- IH, <- select_one_nothing.
    destruct (select_one sel d); split.
    + intros H. discriminate H.
    + intros [H _]. discriminate H.
    + intros H. split; [reflexivity|exact H].
    + intros [_ H]. exact H.
Qed.

Lemma main_content_fallback_witness :
  first_selected main_selectors cookie_page = None.
Proof.
  apply (proj2 (main_content_fallback main_selectors cookie_page)).
  repeat constructor.
Defined.

(** *** [page_to_markdown] and [get_page_content] *)

(** X13.  Without metadata, a text that [page_to_markdown] writes never
    has three line feeds in a row. *)
Theorem saved_text_without_metadata lib launch (m m' : Manager)
  fp ii ra em conv r content :
  page_to_markdown lib launch m fp ii ra em conv false
    = (m', (r, Some content)) ->
  contains (lf_run 3) content = false.
Proof.
  intros H.
  destruct (MarkdownFacts.page_to_markdown_wrote _ _ _ _ _ _ _ _ _ _ _ _ H)
    as (tab & _ & Hs).
  destruct (MarkdownFacts.save_page_wrote _ _ _ _ _ _ _ _ _ _ Hs)
    as (u & t & h & c & md & _ & _ & _ & _ & _ & -> & _).
  apply sub_from_no_long_run.
Qed.

Lemma saved_text_without_metadata_witness :
  contains (lf_run 3) (blank_line ++ "hello" ++ blank_line) = false.
Proof.
  apply (saved_text_without_metadata paragraph_lib (Raises "")
           (holding paragraph_tab) (holding paragraph_tab)
           "out/page.md" true false false "auto"
           (Saved "/srv/out/page.md" "https://example.org/" "Example"
              "markdownify")).
  reflexivity.
Defined.

(** X14.  The [format] that [get_page_content] reports with a content is
    the one asked for, which is then "text", "html" or "markdown"; the one
    exception is a "markdown" request answered as "text", and it needs
    both converters to be missing. *)
Theorem get_page_content_format lib launch (m m' : Manager)
  format em ra u t f c :
  get_page_content lib launch m format em ra = (m', Content u t f c) ->
  (f = format /\
   (format = "text" \/ format = "html" \/ format = "markdown")) \/
  (format = "markdown" /\ f = "text" /\
   markdownify lib = None /\ html2text lib = None).
Proof.
  unfold get_page_content.
  destruct (Session.acquire_tab Tab url title launch m) as [m1 [a|msg]];
    cbn [bind catch]; [|intros H; discriminate H].
  destruct a as [| |tab]; cbn [bind catch]; try (intros H; discriminate H).
  unfold read_page.
  destruct (url tab) as [u0|]; cbn [bind catch]; [|intros H; discriminate H].
  destruct (title tab) as [t0|]; cbn [bind catch];
    [|intros H; discriminate H].
  destruct (String.eqb_spec format "text") as [Htext|_].
  { destruct (text tab); cbn [bind catch]; intros H; [|discriminate H].
    injection H as _ _ _ <- _. left. auto. }
  destruct (String.eqb_spec format "html") as [Hhtml|_].
  { destruct (html tab); cbn [bind catch]; intros H; [|discriminate H].
    injection H as _ _ _ <- _. left. auto. }
  destruct (String.eqb_spec format "markdown") as [Hmd|_];
    [|cbn [catch]; intros H; discriminate H].
  destruct (html tab) as [h|]; cbn [bind catch]; [|intros H; discriminate H].
  unfold USE_MARKDOWNIFY, USE_HTML2TEXT, _html_to_markdown_markdownify,
    _html_to_markdown_html2text.
  destruct (markdownify lib) as [md|].
  { destruct (md _); cbn [bind catch]; intros H; [|discriminate H].
    injection H as _ _ _ <- _. left. auto. }
  destruct (html2text lib) as [h2t|].
  { destruct (h2t _ _); cbn [bind catch]; intros H; [|discriminate H].
    injection H as _ _ _ <- _. left. auto. }
  destruct (text tab); cbn [bind catch]; intros H; [|discriminate H].
  injection H as _ _ _ <- _. right. auto.
Qed.

Lemma get_page_content_format_witness :
  ("text" = "markdown" /\
   ("markdown" = "text" \/ "markdown" = "html" \/ "markdown" = "markdown")) \/
  ("markdown" = "markdown" /\ "text" = "text" /\
   markdownify bare_lib = None /\ html2text bare_lib = None).
Proof.
  apply (get_page_content_format bare_lib (Raises "")
           (holding paragraph_tab) (holding paragraph_tab)
           "markdown" true true "https://example.org/" "Example" "text"
           "hello").
  reflexivity.
Defined.

End MarkdownMore.

(* --------------------------------------------------------------------- *)
(** ** The scroll loop: further properties *)
(* --------------------------------------------------------------------- *)

Module ScrollMore.
Import Scroll ScrollPages.

Local Open Scope Z_scope.

(** After at least one pass, the variable the loop compares with holds
    what the last pass measured. *)
Lemma loop_last_seen tab sel n : forall i l l' e k,
  loop tab sel n i l = Returns (l', e) ->
  scroll_count l' = scroll_count l + Z.of_nat (S k) ->
  measure tab sel (i + k) = Returns (last_seen sel l').
Proof.
  induction n as [|n IH]; intros i l l' e k H Hk.
  - simpl in H. injection H as <- <-. lia.
  - destruct (ScrollFacts.loop_returned _ _ _ _ _ _ H) as (Hb & Hs & v & Hm).
    destruct (ScrollFacts.loop_pass tab sel n i l v Hb Hs Hm)
      as (l1 & Heq & Hc & _ & _ & Hlast & Hc2 & _ & Hseen).
    rewrite Heq in H. destruct (Z.eqb_spec v (last_seen sel l)) as [Hv|Hv].
    + injection H as <- <-.
      replace k with 0%nat by lia. rewrite Nat.add_0_r, Hlast, <- Hv.
      exact Hm.
    + destruct k as [|k].
      * destruct (ScrollFacts.loop_counts _ _ _ _ _ _ _ H)
          as (Hle & _ & Hex & Hbr).
        destruct e; [specialize (Hbr eq_refl); lia|].
        specialize (Hex eq_refl).
        destruct n as [|n]; [|lia].
        simpl in H. injection H as <-.
        rewrite Nat.add_0_r, Hseen. exact Hm.
      * replace (i + S k)%nat with (S i + k)%nat by lia.
        apply (IH (S i) (seen sel v l1) l' e k H). lia.
Qed.

(** X15.  The final measurement [handle_infinite_scroll] reports, with
    [max_scrolls >= 1], is what its last pass measured: the count under
    [final_count] when a [check_selector] was given, with [final_height]
    [None], and the height under [final_height] otherwise, with
    [final_count] [None]. *)
Theorem final_measurement_is_last launch (m m' : Manager) max sel sc fc fh :
  1 <= max ->
  handle_infinite_scroll launch m max sel = (m', ScrollDone sc fc fh) ->
  exists tab v,
    snd (Session.acquire_tab Tab url title launch m)
      = Returns (Session.GotTab tab) /\
    1 <= sc /\
    measure tab sel (Z.to_nat sc - 1) = Returns v /\
    fc = (if truthy_opt_str sel then Some v else None) /\
    fh = (if truthy_opt_str sel then None else Some v).
Proof.
  intros Hmax H. unfold handle_infinite_scroll in H.
  destruct (Session.acquire_tab Tab url title launch m) as [m1 [a|msg]];
    cbn [bind catch snd] in *; [|discriminate H].
  destruct a as [| |tab]; cbn [bind catch] in H; try discriminate H.
  destruct (run tab max sel) as [[l e]|msg] eqn:Hrun; cbn [bind catch fst] in H;
    [|discriminate H].
  injection H as _ <- <- <-.
  exists tab, (last_seen sel l). unfold run in Hrun.
  destruct (ScrollFacts.loop_counts _ _ _ _ _ _ _ Hrun) as (Hle & _ & Hex & Hbr).
  change (scroll_count locals0) with 0 in *.
  assert (Hsc : 1 <= scroll_count l).
  { destruct e; [specialize (Hbr eq_refl)|specialize (Hex eq_refl)]; lia. }
  split; [reflexivity|]. split; [exact Hsc|]. split.
  - pose proof (loop_last_seen tab sel _ 0%nat locals0 l e
                  (Z.to_nat (scroll_count l) - 1)%nat Hrun) as HL.
    cbn [Nat.add] in HL. apply HL.
    change (scroll_count locals0) with 0. lia.
  - unfold last_seen. destruct (truthy_opt_str sel); split; reflexivity.
Qed.

Lemma final_measurement_is_last_witness :
  exists tab v,
    snd (Session.acquire_tab Tab url title (Raises "") (holding settling_page))
      = Returns (Session.GotTab tab) /\
    1 <= 4 /\
    measure tab None (Z.to_nat 4 - 1) = Returns v /\
    Some 30 = Some v.
Proof.
  destruct (final_measurement_is_last (Raises "") (holding settling_page)
              (holding settling_page) 10 None 4 None (Some 30)
              ltac:(lia) eq_refl) as (tab & v & Ha & Hsc & Hm & _ & Hfh).
  exists tab, v. auto.
Defined.

Lemma loop_runs_out tab sel f n : forall i l,
  (forall k, (i <= k < i + n)%nat -> measures tab sel f k) ->
  (n <> 0%nat -> f i <> last_seen sel l) ->
  (forall k, (i <= k)%nat -> (S k < i + n)%nat -> f (S k) <> f k) ->
  exists l',
    loop tab sel n i l = Returns (l', RangeExhausted) /\
    scroll_count l' = scroll_count l + Z.of_nat n.
Proof.
  induction n as [|n IH]; intros i l Hm Hfirst Hnext.
  - exists l. split; [reflexivity|]. lia.
  - destruct (Hm i ltac:(lia)) as (Hb & Hs & Hmi).
    destruct (ScrollFacts.loop_pass tab sel n i l (f i) Hb Hs Hmi)
      as (l1 & Heq & Hc & _ & _ & _ & Hc2 & _ & Hseen).
    rewrite Heq.
    destruct (Z.eqb_spec (f i) (last_seen sel l)) as [Hv|_];
      [now apply Hfirst in Hv|].
    destruct (IH (S i) (seen sel (f i) l1)) as (l' & Hl' & Hsc').
    + intros k Hk. apply Hm. lia.
    + intros Hn. rewrite Hseen. apply Hnext; lia.
    + intros k Hk1 Hk2. apply Hnext; lia.
    + exists l'. split; [exact Hl'|]. lia.
Qed.

(** X16.  On a page that keeps changing, the loop runs out its range: when
    every pass up to [max_scrolls] answers with a measurement different
    from the one before it, the first one different from 0, the result
    reports [scroll_count = max_scrolls]. *)
Theorem changing_page_exhausts launch (m : Manager) b tab max sel f :
  0 <= max ->
  Session._browser m = Some b ->
  Session._current_tab m = Some tab ->
  (forall k, (k < Z.to_nat max)%nat -> measures tab sel f k) ->
  f 0%nat <> 0 ->
  (forall k, (S k < Z.to_nat max)%nat -> f (S k) <> f k) ->
  exists l fc fh,
    run tab max sel = Returns (l, RangeExhausted) /\
    handle_infinite_scroll launch m max sel = (m, ScrollDone max fc fh).
Proof.
  intros Hmax Hb Ht Hm H0 Hnext.
  destruct (loop_runs_out tab sel f (Z.to_nat max) 0 locals0)
    as (l & Hrun & Hsc).
  - intros k Hk. apply Hm. lia.
  - intros _. unfold last_seen.
    destruct (truthy_opt_str sel); exact H0.
  - intros k _ Hk. apply Hnext. lia.
  - change (scroll_count locals0) with 0 in Hsc.
    rewrite (ScrollFacts.handle_held launch m b tab max sel Hb Ht).
    unfold run. rewrite Hrun. cbn [bind catch fst].
    replace (scroll_count l) with max by lia. eauto.
Qed.

Lemma changing_page_exhausts_witness :
  exists l fc fh,
    run growing_page 3 None = Returns (l, RangeExhausted) /\
    handle_infinite_scroll (Raises "") (holding growing_page) 3 None
    = (holding growing_page, ScrollDone 3 fc fh).
Proof.
  eapply (changing_page_exhausts (Raises "") (holding growing_page) _
            growing_page 3 None (fun k => Z.of_nat k + 1)).
  - lia.
  - reflexivity.
  - reflexivity.
  - intros k _. repeat split.
  - lia.
  - intros k _. lia.
Defined.

End ScrollMore.

(* --------------------------------------------------------------------- *)
(** ** Table extraction: further properties *)
(* --------------------------------------------------------------------- *)

Module TableMore.
Import Dom Table Results.

(** *** [dict(zip(headers, row))] *)

Lemma dict_set_new {V} k (v : V) d :
  ~ In k (keys d) -> dict_set k v d = d ++ [(k, v)].
Proof.
  induction d as [|[k' v'] d IH]; intros H; [reflexivity|].
  cbn [dict_set]. destruct (String.eqb_spec k' k) as [->|Hne].
  - exfalso. apply H. left. reflexivity.
  - cbn [app]. rewrite IH; [reflexivity|]. intros Hin. apply H. now right.
Qed.

Lemma dict_set_keys {V} k (v : V) d :
  keys (dict_set k v d) = keys d \/
  (~ In k (keys d) /\ keys (dict_set k v d) = keys d ++ [k]).
Proof.
  induction d as [|[k' v'] d IH]; [right; split; [intros []|reflexivity]|].
  cbn [dict_set]. destruct (String.eqb_spec k' k) as [->|Hne].
  - left. reflexivity.
  - destruct IH as [IH|[Hnot IH]].
    + left. unfold keys in *. cbn [List.map fst]. now rewrite IH.
    + right. split.
      * intros [H|H]; [cbn in H; congruence|contradiction].
      * unfold keys in *. cbn [List.map fst app]. now rewrite IH.
Qed.

Lemma dict_set_distinct {V} k (v : V) d :
  NoDup (keys d) -> NoDup (keys (dict_set k v d)).
Proof.
  intros Hd. destruct (dict_set_keys k v d) as [->|[Hnot ->]];
    [exact Hd|].
  apply NoDup_app; [exact Hd|repeat constructor; intros []|].
  intros x Hx [<-|[]]. contradiction.
Qed.

Lemma dict_get_set {V} k k' (v : V) d :
  dict_get k' (dict_set k v d)
  = if String.eqb k k' then Some v else dict_get k' d.
Proof.
  induction d as [|[k0 v0] d IH].
  - cbn [dict_set dict_get]. reflexivity.
  - cbn [dict_set]. destruct (String.eqb_spec k0 k) as [->|Hne];
      cbn [dict_get].
    + destruct (String.eqb_spec k k'); reflexivity.
    + rewrite IH. destruct (String.eqb_spec k0 k') as [->|_]; [|reflexivity].
      destruct (String.eqb_spec k k'); [congruence|reflexivity].
Qed.

Lemma dict_get_app {V} k (d1 d2 : dict V) :
  dict_get k (d1 ++ d2)
  = match dict_get k d1 with
    | Some v => Some v
    | None => dict_get k d2
    end.
Proof.
  induction d1 as [|[k0 v0] d1 IH]; [reflexivity|].
  cbn [app dict_get]. destruct (String.eqb k0 k); [reflexivity|exact IH].
Qed.

Lemma fold_dict_set {V} (pairs : list (string * V)) : forall acc,
  NoDup (keys acc) ->
  let d := List.fold_left (fun d kv => dict_set (fst kv) (snd kv) d)
             pairs acc in
  NoDup (keys d) /\
  incl (keys d) (keys acc ++ keys pairs) /\
  forall k, dict_get k d
            = match dict_get k (List.rev pairs) with
              | Some v => Some v
              | None => dict_get k acc
              end.
Proof.
  induction pairs as [|[k1 v1] rest IH]; intros acc Hacc.
  - cbn. split; [exact Hacc|]. split; [|reflexivity].
    rewrite app_nil_r. apply incl_refl.
  - cbn [List.fold_left fst snd].
    destruct (IH (dict_set k1 v1 acc) (dict_set_distinct k1 v1 acc Hacc))
      as (Hnd & Hincl & Hget).
    split; [exact Hnd|]. split.
    + intros x Hx. apply Hincl in Hx. apply in_app_or in Hx.
      apply in_or_app. destruct Hx as [Hx|Hx]; [|right; now right].
      destruct (dict_set_keys k1 v1 acc) as [Hk|[_ Hk]]; rewrite Hk in Hx.
      * now left.
      * apply in_app_or in Hx. destruct Hx as [Hx|[<-|[]]];
          [now left|right; now left].
    + intros k. rewrite Hget. cbn [List.rev]. rewrite dict_get_app.
      destruct (dict_get k (List.rev rest)); [reflexivity|].
      cbn [dict_get]. rewrite dict_get_set.
      destruct (String.eqb k1 k); reflexivity.
Qed.

(** X17.  A record built from header names and cells never has a key
    twice; its keys are header names; and under a header name it holds
    the cell of the last column of that name that the row reaches. *)
Theorem record_keys (headers row : list string) :
  let record := dict_of (List.combine headers row) in
  NoDup (keys record) /\
  incl (keys record) headers /\
  forall k,
    dict_get k record = dict_get k (List.rev (List.combine headers row)).
Proof.
  intros record. subst record. unfold dict_of.
  destruct (fold_dict_set (List.combine headers row) [] (NoDup_nil _))
    as (Hnd & Hincl & Hget).
  split; [exact Hnd|]. split.
  - intros x Hx. apply Hincl in Hx. cbn [keys List.map app] in Hx.
    unfold keys in Hx. apply in_map_iff in Hx.
    destruct Hx as ([k v] & <- & Hin). cbn [fst].
    exact (in_combine_l _ _ _ _ Hin).
  - intros k. rewrite (Hget k).
    destruct (dict_get k (List.rev (List.combine headers row))); reflexivity.
Qed.

Lemma dict_of_distinct {V} (pairs : list (string * V)) :
  NoDup (keys pairs) -> dict_of pairs = pairs.
Proof.
  unfold dict_of.
  assert (H : forall acc,
            NoDup (keys (acc ++ pairs)) ->
            List.fold_left (fun d kv => dict_set (fst kv) (snd kv) d)
              pairs acc = acc ++ pairs).
  { induction pairs as [|[k v] rest IH]; intros acc Hnd.
    - cbn. now rewrite app_nil_r.
    - cbn [List.fold_left fst snd]. rewrite dict_set_new.
      + rewrite IH; rewrite <- app_assoc; [reflexivity|exact Hnd].
      + unfold keys in *. rewrite map_app in Hnd.
        apply NoDup_remove_2 in Hnd. intros Hin. apply Hnd.
        apply in_or_app. now left. }
  intros Hnd. apply (H []). exact Hnd.
Qed.

Lemma combine_keys (headers row : list string) :
  keys (List.combine headers row) = List.firstn (List.length row) headers.
Proof.
  revert row. induction headers as [|h headers IH]; intros [|c row];
    try reflexivity.
  cbn. f_equal. apply IH.
Qed.

Lemma combine_values (headers row : list string) :
  List.map snd (List.combine headers row)
  = List.firstn (List.length headers) row.
Proof.
  revert row. induction headers as [|h headers IH]; intros [|c row];
    try reflexivity.
  cbn. f_equal. apply IH.
Qed.

Lemma firstn_distinct {A} n (l : list A) : NoDup l -> NoDup (List.firstn n l).
Proof.
  revert n. induction l as [|a l IH]; intros [|n] H; try constructor.
  - inversion H as [|? ? Hnot Hl]; subst. intros Hin. apply Hnot.
    rewrite <- (firstn_skipn n l). apply in_or_app. now left.
  - inversion H; subst. now apply IH.
Qed.

(** X18.  With header names that are all different, every record is the
    header names paired with the cells of its row, in the order of the
    columns: its keys are the first header names, as many as the row has
    cells, and cells beyond the last header name are left out. *)
Theorem records_follow_headers (headers : list string)
  (rows : list (list string)) :
  headers <> [] ->
  NoDup headers ->
  format_rows headers rows
  = Records (List.map (fun row => List.combine headers row) rows) /\
  Forall (fun row =>
            keys (List.combine headers row)
              = List.firstn (List.length row) headers /\
            List.map snd (List.combine headers row)
              = List.firstn (List.length headers) row) rows.
Proof.
  intros Hne Hnd. split.
  - unfold format_rows. rewrite (TableFacts.truthy_list_nonempty _ Hne).
    f_equal. apply map_ext. intros row. apply dict_of_distinct.
    rewrite combine_keys. now apply firstn_distinct.
  - apply Forall_forall. intros row _.
    split; [apply combine_keys|apply combine_values].
Qed.

Lemma records_follow_headers_witness :
  format_rows ["A"; "B"] [["1"; "2"; "3"]; ["4"]]
  = Records [[("A", "1"); ("B", "2")]; [("A", "4")]].
Proof.
  refine (proj1 (records_follow_headers ["A"; "B"] [["1"; "2"; "3"]; ["4"]]
                   _ _)).
  - discriminate.
  - repeat constructor; cbn; intuition discriminate.
Defined.

(** *** The rows *)

Lemma read_rows_not_empty text tr_list :
  Forall (fun row => row <> []) (read_rows text tr_list) /\
  List.length (read_rows text tr_list) <= List.length tr_list.
Proof.
  induction tr_list as [|tr rest [IH1 IH2]]; [split; [constructor|]; cbn; lia|].
  cbn [read_rows].
  destruct (truthy_list (cell_texts _ _)) eqn:Ht.
  - split; [constructor; [|exact IH1]|cbn; lia].
    intros Hnil. rewrite Hnil in Ht. discriminate Ht.
  - split; [exact IH1|cbn; lia].
Qed.

(** X19.  In a JSON result of [extract_table_data] the [row_count] is the
    number of rows returned, and no row returned is empty: neither a row
    given by position nor a record. *)
Theorem table_rows_counted fs launch (m m' : Manager) selector output_file
  include_header headers rows row_count out :
  extract_table_data fs launch m selector "json" output_file include_header
    = (m', TableJson headers rows row_count out) ->
  row_count = Z.of_nat (rows_count rows) /\
  match rows with
  | Records data => Forall (fun record => record <> []) data
  | Positional data => Forall (fun row => row <> []) data
  end.
Proof.
  unfold extract_table_data.
  destruct (Session.acquire_tab Tab url title launch m) as [m1 [a|msg]];
    cbn [bind catch]; [|intros H; discriminate H].
  destruct a as [| |tab]; cbn [bind catch]; try (intros H; discriminate H).
  unfold read_table.
  destruct (ele tab selector) as [[table|]|msg]; cbn [bind catch];
    try (intros H; discriminate H).
  cbn [String.eqb Ascii.eqb Bool.eqb].
  match goal with
  | |- context [bind ?w _] => destruct w as [[]|]; cbn [bind catch]
  end; [|intros H; discriminate H].
  intros H. injection H as _ _ <- <- _.
  set (hs := extract_headers (text_of tab) table).
  set (rs := read_rows (text_of tab) (body_rows table hs include_header)).
  destruct (read_rows_not_empty (text_of tab)
              (body_rows table hs include_header))
    as [Hne _]. fold rs in Hne.
  unfold format_rows. destruct hs as [|h hs'] eqn:Hhs; cbn [truthy_list].
  - split; [reflexivity|exact Hne].
  - split; [cbn [rows_count]; now rewrite length_map|].
    apply Forall_map. eapply Forall_impl; [|exact Hne].
    intros [|c row] Hrow; [congruence|].
    intros Hnil.
    destruct (fold_dict_set (List.combine (h :: hs') (c :: row)) []
                (NoDup_nil _)) as (_ & _ & Hget).
    specialize (Hget h). fold (dict_of (List.combine (h :: hs') (c :: row)))
      in Hget.
    rewrite Hnil in Hget. cbn [dict_get] in Hget.
    cbn [List.combine List.rev] in Hget. rewrite dict_get_app in Hget.
    destruct (dict_get h (List.rev (List.combine hs' row)));
      [discriminate Hget|].
    cbn [dict_get] in Hget. rewrite String.eqb_refl in Hget.
    discriminate Hget.
Qed.

Lemma table_rows_counted_witness :
  2%Z = Z.of_nat (rows_count (Records [[("A", "A"); ("B", "B")];
                                       [("A", "1"); ("B", "2")]])) /\
  Forall (fun record : dict string => record <> [])
    [[("A", "A"); ("B", "B")]; [("A", "1"); ("B", "2")]].
Proof.
  exact (table_rows_counted no_files (Raises "")
           (holding (tab_showing small_table_in_tbody))
           (holding (tab_showing small_table_in_tbody)) "tag:table" None true
           (Some ["A"; "B"])
           (Records [[("A", "A"); ("B", "B")]; [("A", "1"); ("B", "2")]])
           2 None eq_refl).
Defined.

End TableMore.

(* --------------------------------------------------------------------- *)
(** ** Form filling: further properties *)
(* --------------------------------------------------------------------- *)

Module FormMore.
Import Form.

Lemma submit_cases tab submit_selector errs :
  (submit tab submit_selector errs = (false, errs) /\
   truthy_opt_str submit_selector = false) \/
  (submit tab submit_selector errs = (true, errs) /\
   truthy_opt_str submit_selector = true) \/
  (exists message,
     submit tab submit_selector errs = (false, errs ++ [message]) /\
     truthy_opt_str submit_selector = true).
Proof.
  unfold submit. destruct (truthy_opt_str submit_selector); [|now left].
  right.
  destruct (ele tab (selector_text submit_selector)) as [[btn|]|msg];
    cbn [bind catch]; [| |right; eauto].
  - destruct (click btn) as [[]|msg]; cbn [bind catch]; [|right; eauto].
    destruct (sleep tab) as [[]|msg]; cbn [bind catch]; [|right; eauto].
    left. auto.
  - right. eauto.
Qed.

Lemma no_errors_all_filled tab fields :
  errors_of tab fields = [] -> filled_of tab fields = List.map fst fields.
Proof.
  unfold errors_of, filled_of.
  induction fields as [|[selector v] rest IH]; [reflexivity|].
  cbn [flat_map List.filter fst snd List.map].
  destruct (fill_field tab selector v); cbn [app]; [discriminate|].
  intros H. cbn [List.map fst]. now rewrite IH.
Qed.

Lemma filled_of_selectors tab fields :
  incl (filled_of tab fields) (List.map fst fields) /\
  List.length (filled_of tab fields) <= List.length fields.
Proof.
  unfold filled_of. split.
  - intros x Hx. apply in_map_iff in Hx. destruct Hx as (f & <- & Hf).
    apply filter_In in Hf. apply in_map. tauto.
  - rewrite length_map. apply filter_length_le.
Qed.

(** X20.  Whenever [fill_form] returns its lists: [success] is [True]
    exactly when [errors] is [None]; the selectors in [filled_fields] are
    selectors of the fields; [submitted] is [True] only if a submit
    selector was given; and with [success: True] every field was filled,
    in the order given, and the form was submitted if a submit selector
    was given. *)
Theorem fill_form_result launch (m m' : Manager) fields submit_selector
  success filled submitted errs :
  fill_form launch m fields submit_selector
    = (m', FormDone success filled submitted errs) ->
  (success = true <-> errs = None) /\
  incl filled (List.map fst fields) /\
  List.length filled <= List.length fields /\
  (submitted = true -> truthy_opt_str submit_selector = true) /\
  (success = true ->
   filled = List.map fst fields /\
   submitted = truthy_opt_str submit_selector).
Proof.
  unfold fill_form.
  destruct (Session.acquire_tab Tab url title launch m) as [m1 [a|msg]];
    cbn [bind catch]; [|intros H; discriminate H].
  destruct a as [| |tab]; cbn [bind catch]; try (intros H; discriminate H).
  rewrite FormFacts.fill_fields_lists. cbn [filled_fields errors app].
  destruct (filled_of_selectors tab fields) as [Hincl Hlen].
  destruct (submit_cases tab submit_selector (errors_of tab fields))
    as [[-> Hs]|[[-> Hs]|(message & -> & Hs)]];
    intros H; injection H as _ <- <- <- <-; rewrite Hs.
  - destruct (errors_of tab fields) as [|e es] eqn:He; cbn.
    + repeat split; auto; try discriminate.
      now apply no_errors_all_filled.
    + repeat split; auto; try discriminate.
  - destruct (errors_of tab fields) as [|e es] eqn:He; cbn.
    + repeat split; auto; try discriminate.
      now apply no_errors_all_filled.
    + repeat split; auto; try discriminate.
  - destruct (errors_of tab fields ++ [message]) as [|e es] eqn:He.
    + apply app_eq_nil in He. destruct He as [_ He]. discriminate He.
    + cbn. repeat split; auto; try discriminate.
Qed.

Lemma fill_form_result_witness :
  (false = true <-> Some ["未找到元素: #nickname"] = None) /\
  incl ["#name"] (List.map fst [("#nickname", VStr "ada");
                                ("#name", VStr "Ada")]).
Proof.
  destruct (fill_form_result (Raises "") (holding login_page)
              (holding login_page)
              [("#nickname", VStr "ada"); ("#name", VStr "Ada")] None
              false ["#name"] false (Some ["未找到元素: #nickname"])
              eq_refl) as (H1 & H2 & _).
  split; [exact H1|exact H2].
Defined.

End FormMore.

(* --------------------------------------------------------------------- *)
(** ** Field-mapped extraction *)
(* --------------------------------------------------------------------- *)

Module ExtractFacts.
Import Extract Results.

Lemma smart_extract_done launch (m m' : Manager) selector fields limit
  count data :
  smart_extract launch m selector fields limit = (m', SmartDone count data) ->
  exists tab containers,
    snd (Session.acquire_tab Tab url title launch m)
      = Returns (Session.GotTab tab) /\
    eles tab selector = Returns containers /\
    containers <> [] /\
    data = List.map (extract_item fields) (slice_to limit containers) /\
    count = Z.of_nat (List.length data).
Proof.
  unfold smart_extract.
  destruct (Session.acquire_tab Tab url title launch m) as [m1 [a|msg]];
    cbn [bind catch snd]; [|intros H; discriminate H].
  destruct a as [| |tab]; cbn [bind catch]; try (intros H; discriminate H).
  destruct (eles tab selector) as [containers|msg] eqn:He; cbn [bind catch];
    [|intros H; discriminate H].
  destruct containers as [|c cs]; cbn [truthy_list negb catch];
    [intros H; discriminate H|].
  intros H. injection H as _ <- <-.
  exists tab, (c :: cs). repeat split; [exact He|discriminate].
Qed.

(** X21.  [smart_extract] returns one record for each container kept,
    and [count] is their number: with [0 <= limit] the smaller of [limit]
    and the number of containers matched, so that [limit = 0] gives a
    success with no record; with a negative [limit], the containers
    matched but for the last [-limit]. *)
Theorem smart_extract_count launch (m m' : Manager) selector fields limit
  count data :
  smart_extract launch m selector fields limit = (m', SmartDone count data) ->
  exists tab containers,
    snd (Session.acquire_tab Tab url title launch m)
      = Returns (Session.GotTab tab) /\
    eles tab selector = Returns containers /\
    count = Z.of_nat (List.length data) /\
    count = (if 0 <=? limit
             then Z.min limit (Z.of_nat (List.length containers))
             else Z.max 0 (Z.of_nat (List.length containers) + limit))%Z.
Proof.
  intros H.
  destruct (smart_extract_done _ _ _ _ _ _ _ _ H)
    as (tab & containers & Ha & He & _ & -> & ->).
  exists tab, containers. repeat split; [exact Ha|exact He|].
  rewrite length_map. unfold slice_to.
  destruct (Z.leb_spec 0 limit); rewrite length_firstn; lia.
Qed.

Lemma smart_extract_count_witness :
  exists tab containers,
    snd (Session.acquire_tab Tab url title (Raises "") (holding three_cards))
      = Returns (Session.GotTab tab) /\
    eles tab ".card" = Returns containers /\
    2%Z = Z.of_nat (List.length [item_of [("title", "h2")] bare_container;
                                 item_of [("title", "h2")] bare_container]) /\
    2%Z = Z.min 2 (Z.of_nat (List.length containers)).
Proof.
  exact (smart_extract_count (Raises "") (holding three_cards)
           (holding three_cards) ".card" [("title", "h2")] 2 2 _ eq_refl).
Defined.

Lemma extract_item_as_dict fields container :
  extract_item fields container = dict_of (item_of fields container).
Proof.
  unfold extract_item, dict_of, item_of.
  generalize (@nil (string * FieldValue)).
  induction fields as [|f rest IH]; intros acc; [reflexivity|].
  cbn [List.fold_left List.map fst snd]. apply IH.
Qed.

(** X22.  With field names that are all different, every record holds
    each field name once, in the order of the mapping, each with the
    value read for its own selector below the record's container. *)
Theorem smart_extract_records launch (m m' : Manager) selector fields limit
  count data :
  NoDup (keys fields) ->
  smart_extract launch m selector fields limit = (m', SmartDone count data) ->
  exists tab containers,
    snd (Session.acquire_tab Tab url title launch m)
      = Returns (Session.GotTab tab) /\
    eles tab selector = Returns containers /\
    data = List.map (item_of fields) (slice_to limit containers) /\
    Forall (fun record => keys record = keys fields) data.
Proof.
  intros Hnd H.
  destruct (smart_extract_done _ _ _ _ _ _ _ _ H)
    as (tab & containers & Ha & He & _ & -> & _).
  assert (Hitem : forall c, extract_item fields c = item_of fields c).
  { intros c. rewrite extract_item_as_dict. apply TableMore.dict_of_distinct.
    unfold keys, item_of in *. rewrite map_map. exact Hnd. }
  exists tab, containers. repeat split; [exact Ha|exact He| |].
  - apply map_ext. exact Hitem.
  - apply Forall_map, Forall_forall. intros c _. rewrite Hitem.
    unfold keys, item_of. now rewrite map_map.
Qed.

Lemma smart_extract_records_witness :
  exists tab containers,
    snd (Session.acquire_tab Tab url title (Raises "") (holding three_cards))
      = Returns (Session.GotTab tab) /\
    eles tab ".card" = Returns containers /\
    [ [("title", Null); ("link", Null)] ]
    = List.map (item_of [("title", "h2"); ("link", "a")])
        (slice_to 1 containers) /\
    Forall (fun record => keys record = ["title"; "link"])
      [ [("title", Null); ("link", Null)] ].
Proof.
  refine (smart_extract_records (Raises "") (holding three_cards)
            (holding three_cards) ".card" [("title", "h2"); ("link", "a")] 1
            1 _ _ eq_refl).
  repeat constructor; cbn; intuition discriminate.
Defined.

Lemma extract_field_missing container field_selector :
  (ele container field_selector = Returns None \/
   exists msg, ele container field_selector = Raises msg) ->
  extract_field container field_selector = Null.
Proof.
  unfold extract_field. intros [->|[msg ->]]; reflexivity.
Qed.

(** X23.  A sub-selector that finds nothing, or whose lookup raises,
    gives [None] for its field and stops nothing: when that is so for
    every field below every container matched, with field names all
    different and [limit] at least the number of containers, the call
    succeeds with one record for each container, every field [None]. *)
Theorem smart_extract_all_missing launch (m : Manager) b tab selector
  fields limit containers :
  Session._browser m = Some b ->
  Session._current_tab m = Some tab ->
  NoDup (keys fields) ->
  eles tab selector = Returns containers ->
  containers <> [] ->
  (Z.of_nat (List.length containers) <= limit)%Z ->
  (forall c f, In c containers -> In f fields ->
     ele c (snd f) = Returns None \/ exists msg, ele c (snd f) = Raises msg) ->
  smart_extract launch m selector fields limit
  = (m, SmartDone (Z.of_nat (List.length containers))
          (List.repeat (List.map (fun f => (fst f, Null)) fields)
             (List.length containers))).
Proof.
  intros Hb Ht Hnd He Hne Hlimit Hmissing.
  unfold smart_extract.
  rewrite (SessionFacts.acquire_held Tab url title launch m b tab Hb Ht).
  cbn [bind catch]. rewrite He. cbn [bind].
  rewrite (TableFacts.truthy_list_nonempty _ Hne). cbn [negb catch].
  assert (Hslice : slice_to limit containers = containers).
  { unfold slice_to. destruct (Z.leb_spec 0 limit); [|lia].
    apply firstn_all2. lia. }
  rewrite Hslice, length_map. do 2 f_equal.
  assert (Hall : forall cs, incl cs containers ->
            List.map (extract_item fields) cs
            = List.repeat (List.map (fun f => (fst f, Null)) fields)
                (List.length cs)).
  { induction cs as [|c cs IH]; intros Hincl; [reflexivity|].
    cbn [List.map List.length List.repeat]. f_equal.
    - rewrite extract_item_as_dict, TableMore.dict_of_distinct.
      + unfold item_of. apply map_ext_in. intros f Hf. f_equal.
        apply extract_field_missing, Hmissing; [|exact Hf].
        apply Hincl. now left.
      + unfold keys, item_of in *. rewrite map_map. exact Hnd.
    - apply IH. intros x Hx. apply Hincl. now right. }
  apply Hall, incl_refl.
Qed.

Lemma smart_extract_all_missing_witness :
  smart_extract (Raises "") (holding three_cards) ".card"
    [("price", ".price")] 100
  = (holding three_cards,
     SmartDone 3 [[("price", Null)]; [("price", Null)]; [("price", Null)]]).
Proof.
  refine (smart_extract_all_missing (Raises "") (holding three_cards) _
            three_cards ".card" [("price", ".price")] 100
            [bare_container; bare_container; bare_container]
            eq_refl eq_refl _ eq_refl _ _ _).
  - repeat constructor. intros [].
  - discriminate.
  - cbn. lia.
  - intros c f Hc _. left.
    repeat (destruct Hc as [<-|Hc]; [reflexivity|]). destruct Hc.
Defined.

End ExtractFacts.

(* --------------------------------------------------------------------- *)
(** ** Tab switching *)
(* --------------------------------------------------------------------- *)

Module TabFacts.
Import Tabs TabSwitch.

(** *** The session invariant *)

Lemma keeps_ret {A} (a : A) : keeps_session (ret a).
Proof. intros m Hr Hb. split; assumption. Qed.

Lemma keeps_lift {A} (c : outcome A) : keeps_session (lift c).
Proof. intros m Hr Hb. split; assumption. Qed.

Lemma keeps_mbind {A B} (c : method A) (k : A -> method B) :
  keeps_session c -> (forall a, keeps_session (k a)) ->
  keeps_session (mbind c k).
Proof.
  intros Hc Hk m Hr Hb. unfold mbind.
  destruct (Hc m Hr Hb) as [Hr1 Hb1].
  destruct (c m) as [m1 [a|msg]]; cbn [fst] in *.
  - apply Hk; assumption.
  - split; assumption.
Qed.

Lemma keeps_set_tab tab : keeps_session (set_tab tab).
Proof.
  intros m Hr Hb. unfold set_tab. cbn [fst]. split.
  - eapply Session.reach_call; [exact Hr|].
    apply Session.call_set_tab. exact Hb.
  - exact Hb.
Qed.

Lemma keeps_current_tab : keeps_session current_tab.
Proof.
  intros m Hr Hb. unfold current_tab. split.
  - eapply Session.reach_call; [exact Hr|]. apply Session.call_current_tab.
  - now rewrite SessionFacts.get_current_tab_browser.
Qed.

Lemma keeps_current_alone : keeps_session current_alone.
Proof.
  apply keeps_mbind; [apply keeps_current_tab|]. intros t. apply keeps_ret.
Qed.

Lemma keeps_list_tabs browser : keeps_session (list_tabs browser).
Proof.
  intros m Hr Hb. unfold list_tabs.
  destruct (Session.get_tabs browser) as [[tabs|msg]|].
  - split; assumption.
  - now apply keeps_current_alone.
  - destruct (keeps_current_alone m Hr Hb) as [Hr1 Hb1].
    destruct (current_alone m) as [m1 [tabs|msg]]; cbn [fst] in *.
    + split; assumption.
    + now apply keeps_current_alone.
Qed.

Lemma keeps_switch_to index tab : keeps_session (switch_to index tab).
Proof.
  unfold switch_to.
  repeat (apply keeps_mbind; [|intros ?]);
    auto using keeps_set_tab, keeps_lift, keeps_ret.
Qed.

Lemma keeps_describe tabs : forall i, keeps_session (describe i tabs).
Proof.
  induction tabs as [|tab rest IH]; intros i; cbn [describe].
  - apply keeps_ret.
  - repeat (apply keeps_mbind; [|intros ?]);
      auto using keeps_current_tab, keeps_lift, keeps_ret.
Qed.

Lemma keeps_act browser new_tab latest_then action url index title_pattern :
  keeps_session
    (act browser new_tab latest_then action url index title_pattern).
Proof.
  unfold act.
  destruct (String.eqb action "new").
  { repeat (apply keeps_mbind; [|intros ?]);
      auto using keeps_set_tab, keeps_lift, keeps_ret. }
  destruct (String.eqb action "switch").
  { apply keeps_mbind; [apply keeps_list_tabs|]. intros tabs.
    destruct index as [i|].
    - destruct (in_range i tabs); [apply keeps_switch_to|apply keeps_ret].
    - destruct (truthy_opt_str url).
      + apply keeps_mbind; [apply keeps_lift|]. intros [tab|];
          [apply keeps_switch_to|apply keeps_ret].
      + destruct (truthy_opt_str title_pattern); [|apply keeps_ret].
        apply keeps_mbind; [apply keeps_lift|]. intros [tab|];
          [apply keeps_switch_to|apply keeps_ret]. }
  destruct (String.eqb action "close").
  { apply keeps_mbind; [apply keeps_current_tab|]. intros current.
    destruct index as [i|].
    - destruct (in_range i (list_tabs_or browser current));
        [|apply keeps_ret].
      apply keeps_mbind; [apply keeps_lift|]. intros _.
      apply keeps_mbind; [|intros _; apply keeps_ret].
      destruct (same_tab _ current); [|apply keeps_ret].
      apply keeps_mbind; [apply keeps_lift|]. intros latest.
      apply keeps_set_tab.
    - destruct current as [tab|]; [|apply keeps_ret].
      repeat (apply keeps_mbind; [|intros ?]);
        auto using keeps_set_tab, keeps_lift, keeps_ret. }
  destruct (String.eqb action "list"); [|apply keeps_ret].
  apply keeps_mbind; [apply keeps_list_tabs|]. intros tabs.
  apply keeps_mbind; [apply keeps_describe|]. intros infos. apply keeps_ret.
Qed.

(** X24.  Whatever [switch_to_tab] is asked to do and however it ends, it
    leaves the manager in a state its own calls can reach: in
    particular, no tab is tracked without a browser. *)
Theorem switch_to_tab_keeps_session launch new_tab latest_then action url
  index title_pattern (m : Manager) :
  Session.reachable Tab Tabs.url Tabs.title m ->
  let m' := fst (switch_to_tab launch new_tab latest_then action url index
                   title_pattern m) in
  Session.reachable Tab Tabs.url Tabs.title m' /\
  (Session._browser m' = None -> Session._current_tab m' = None).
Proof.
  intros Hr m'.
  assert (Hr' : Session.reachable Tab Tabs.url Tabs.title m').
  { subst m'. unfold switch_to_tab.
    assert (Hr1 : Session.reachable Tab Tabs.url Tabs.title
                    (fst (Session.ensure_browser Tab Tabs.url Tabs.title
                            launch m)))
      by (eapply Session.reach_call; [exact Hr|apply Session.call_ensure]).
    destruct (Session.ensure_browser Tab Tabs.url Tabs.title launch m)
      as [m1 ok]. cbn [fst] in Hr1.
    destruct ok; cbn [negb]; [|exact Hr1].
    unfold Session.get_browser.
    destruct (Session._browser m1) as [browser|] eqn:Hb; [|exact Hr1].
    pose proof (keeps_act browser new_tab latest_then action url index
                  title_pattern m1 Hr1) as H.
    destruct (act browser new_tab latest_then action url index
                title_pattern m1) as [m2 r].
    cbn [fst] in *. apply H. rewrite Hb. discriminate. }
  split; [exact Hr'|].
  apply (SessionFacts.reachable_tab_needs_browser _ _ _ _ Hr').
Qed.

Lemma switch_to_tab_keeps_session_witness :
  Session._browser
    (fst (switch_to_tab (Raises "no display") (fun _ => Raises "")
            (Raises "") "new" None None None Session.init)) = None /\
  Session._current_tab
    (fst (switch_to_tab (Raises "no display") (fun _ => Raises "")
            (Raises "") "new" None None None Session.init)) = None.
Proof.
  split; [reflexivity|].
  apply (switch_to_tab_keeps_session (Raises "no display")
           (fun _ => Raises "") (Raises "") "new" None None None
           Session.init (Session.reach_init _ _ _)).
  reflexivity.
Defined.

(** *** The actions on a running manager *)

Lemma switch_to_tab_running launch new_tab latest_then action url index
  title_pattern (m : Manager) browser :
  Session._browser m = Some browser ->
  switch_to_tab launch new_tab latest_then action url index title_pattern m
  = (fst (act browser new_tab latest_then action url index title_pattern m),
     catch (snd (act browser new_tab latest_then action url index
                   title_pattern m))
       (fun msg => TabFailed ("Tab 管理失败: " ++ msg))).
Proof.
  intros Hb. unfold switch_to_tab, Session.ensure_browser, Session.is_running,
    Session.get_browser.
  rewrite Hb. cbn [negb]. rewrite Hb.
  destruct (act browser new_tab latest_then action url index title_pattern m).
  reflexivity.
Qed.

Lemma at_index_some (tabs : list Tab) i t :
  (0 <= i)%Z ->
  List.nth_error tabs (Z.to_nat i) = Some t ->
  at_index i (List.map Some tabs) = Some t.
Proof.
  intros _ H. unfold at_index.
  apply (nth_error_nth _ _ None). now rewrite nth_error_map, H.
Qed.

(** X25.  Switching by index, on a running manager whose browser lists
    its tabs: an index below 0 or not below the number of tabs fails with
    the out-of-range message and leaves the manager as it was; an index in
    range makes the tab at that place the current tab.  The index decides
    even when a url or a title pattern is given as well. *)
Theorem switch_by_index launch new_tab latest_then url title_pattern
  (m : Manager) browser tabs i :
  Session._browser m = Some browser ->
  Session.get_tabs browser = Some (Returns tabs) ->
  ((i < 0 \/ Z.of_nat (List.length tabs) <= i)%Z ->
   switch_to_tab launch new_tab latest_then "switch" url (Some i)
     title_pattern m
   = (m, out_of_range i)) /\
  (forall t u ti,
     (0 <= i)%Z ->
     List.nth_error tabs (Z.to_nat i) = Some t ->
     Tabs.url t = Returns u ->
     Tabs.title t = Returns ti ->
     switch_to_tab launch new_tab latest_then "switch" url (Some i)
       title_pattern m
     = (Session.set_current_tab (Some t) m, TabSwitched (Some i) u ti)).
Proof.
  intros Hb Htabs.
  assert (Hact : act browser new_tab latest_then "switch" url (Some i)
                   title_pattern m
                 = (if in_range i (List.map Some tabs)
                    then switch_to (Some i) (at_index i (List.map Some tabs))
                    else ret (out_of_range i)) m).
  { unfold act. cbn [String.eqb Ascii.eqb Bool.eqb].
    unfold mbind at 1. unfold list_tabs. rewrite Htabs. reflexivity. }
  split.
  - intros Hout.
    rewrite (switch_to_tab_running _ _ _ _ _ _ _ m browser Hb), Hact.
    replace (in_range i (List.map Some tabs)) with false; [reflexivity|].
    unfold in_range. rewrite length_map. symmetry.
    apply andb_false_iff. destruct Hout; [left|right]; lia.
  - intros t u ti Hi Hnth Hu Hti.
    rewrite (switch_to_tab_running _ _ _ _ _ _ _ m browser Hb), Hact.
    assert (Hlen : (Z.to_nat i < List.length tabs)%nat)
      by (apply nth_error_Some; congruence).
    replace (in_range i (List.map Some tabs)) with true.
    + rewrite (at_index_some tabs i t Hi Hnth).
      unfold switch_to, mbind, set_tab, lift, ret. cbn [url_of title_of].
      rewrite Hu, Hti. reflexivity.
    + unfold in_range. rewrite length_map. symmetry.
      apply andb_true_iff. split; lia.
Qed.

Lemma switch_by_index_witness :
  switch_to_tab (Raises "") (fun _ => Raises "") (Raises "") "switch"
    (Some "docs") (Some 3%Z) None on_docs
  = (on_docs, out_of_range 3) /\
  switch_to_tab (Raises "") (fun _ => Raises "") (Raises "") "switch"
    (Some "docs") (Some 1%Z) None on_docs
  = (Session.set_current_tab (Some mail_tab) on_docs,
     TabSwitched (Some 1%Z) "https://mail.example.org/inbox" "").
Proof.
  split.
  - refine (proj1 (switch_by_index (Raises "") (fun _ => Raises "")
                     (Raises "") (Some "docs") None on_docs three_tabs
                     [docs_tab; mail_tab; blog_tab] 3 eq_refl eq_refl) _).
    right. cbn. lia.
  - refine (proj2 (switch_by_index (Raises "") (fun _ => Raises "")
                     (Raises "") (Some "docs") None on_docs three_tabs
                     [docs_tab; mail_tab; blog_tab] 1 eq_refl eq_refl)
              mail_tab _ _ _ eq_refl eq_refl eq_refl).
    lia.
Defined.

Lemma first_with_found key pattern pre t post k :
  Forall (fun p => exists k', key p = Returns k' /\
                              contains pattern k' = false) pre ->
  key t = Returns k ->
  contains pattern k = true ->
  first_with key pattern (pre ++ t :: post) = Returns (Some t).
Proof.
  induction 1 as [|p pre (k' & Hk' & Hc') _ IH]; intros Hk Hc;
    cbn [app first_with].
  - rewrite Hk. cbn [bind]. now rewrite Hc.
  - rewrite Hk'. cbn [bind]. rewrite Hc'. now apply IH.
Qed.

Lemma first_with_none key pattern tabs :
  Forall (fun p => exists k', key p = Returns k' /\
                              contains pattern k' = false) tabs ->
  first_with key pattern tabs = Returns None.
Proof.
  induction 1 as [|p rest (k' & Hk' & Hc') _ IH]; cbn [first_with];
    [reflexivity|].
  rewrite Hk'. cbn [bind]. now rewrite Hc'.
Qed.

(** X26.  Switching by url, without an index, on a running manager whose
    browser lists its tabs: the tab that becomes current is the first in
    the list whose url holds the text asked for; when no url holds it the
    call fails and leaves the manager as it was. *)
Theorem switch_by_url launch new_tab latest_then title_pattern
  (m : Manager) browser tabs pattern :
  Session._browser m = Some browser ->
  Session.get_tabs browser = Some (Returns tabs) ->
  truthy_str pattern = true ->
  (forall pre t post u ti,
     tabs = pre ++ t :: post ->
     Forall (fun p => exists u', Tabs.url p = Returns u' /\
                                 contains pattern u' = false) pre ->
     Tabs.url t = Returns u ->
     contains pattern u = true ->
     Tabs.title t = Returns ti ->
     switch_to_tab launch new_tab latest_then "switch" (Some pattern) None
       title_pattern m
     = (Session.set_current_tab (Some t) m, TabSwitched None u ti)) /\
  (Forall (fun p => exists u', Tabs.url p = Returns u' /\
                               contains pattern u' = false) tabs ->
   switch_to_tab launch new_tab latest_then "switch" (Some pattern) None
     title_pattern m
   = (m, TabFailed ("未找到匹配 URL 的标签页: " ++ pattern))).
Proof.
  intros Hb Htabs Hp.
  assert (Htruthy : truthy_opt_str (Some pattern) = true)
    by (destruct pattern; [discriminate Hp|reflexivity]).
  assert (Hact : act browser new_tab latest_then "switch" (Some pattern) None
                   title_pattern m
                 = match first_with url_of pattern (List.map Some tabs) with
                   | Returns (Some tab) => switch_to None tab m
                   | Returns None =>
                       (m, Returns (TabFailed
                                      ("未找到匹配 URL 的标签页: " ++ pattern)))
                   | Raises msg => (m, Raises msg)
                   end).
  { unfold act. cbn [String.eqb Ascii.eqb Bool.eqb].
    unfold mbind at 1. unfold list_tabs. rewrite Htabs, Htruthy.
    unfold mbind, lift, ret. cbn [selector_text].
    destruct (first_with url_of pattern (List.map Some tabs)) as [[tab|]|];
      reflexivity. }
  rewrite (switch_to_tab_running _ _ _ _ _ _ _ m browser Hb), Hact.
  assert (Hlift : forall l : list Tab,
            Forall (fun p => exists u', Tabs.url p = Returns u' /\
                                        contains pattern u' = false) l ->
            Forall (fun p => exists k', url_of p = Returns k' /\
                                        contains pattern k' = false)
              (List.map Some l)).
  { intros l H. apply Forall_map. exact H. }
  split.
  - intros pre t post u ti -> Hpre Hu Hc Hti.
    rewrite map_app. cbn [List.map].
    rewrite (first_with_found url_of pattern _ (Some t) _ u (Hlift _ Hpre)
               Hu Hc).
    unfold switch_to, mbind, set_tab, lift, ret. cbn [url_of title_of].
    rewrite Hu, Hti. reflexivity.
  - intros Hnone.
    rewrite (first_with_none url_of pattern _ (Hlift _ Hnone)).
    reflexivity.
Qed.

Lemma switch_by_url_witness :
  switch_to_tab (Raises "") (fun _ => Raises "") (Raises "") "switch"
    (Some "example.org/b") None None on_docs
  = (Session.set_current_tab (Some blog_tab) on_docs,
     TabSwitched None "https://example.org/blog" "").
Proof.
  refine (proj1 (switch_by_url (Raises "") (fun _ => Raises "") (Raises "")
                   None on_docs three_tabs [docs_tab; mail_tab; blog_tab]
                   "example.org/b" eq_refl eq_refl eq_refl)
            [docs_tab; mail_tab] blog_tab [] _ _ eq_refl _ eq_refl eq_refl
            eq_refl).
  repeat constructor; eexists; split; reflexivity.
Defined.

(** X27.  A tab that [browser.new_tab] returns is the current tab from
    then on, also when reading its url or title afterwards raises and the
    call reports a failure; with no url, or an empty one, the address
    opened is about:blank. *)
Theorem new_tab_becomes_current launch new_tab latest_then url index
  title_pattern (m : Manager) browser t :
  Session._browser m = Some browser ->
  new_tab (if truthy_opt_str url then selector_text url else "about:blank")
    = Returns t ->
  fst (switch_to_tab launch new_tab latest_then "new" url index
         title_pattern m)
  = Session.set_current_tab (Some t) m /\
  snd (switch_to_tab launch new_tab latest_then "new" url index
         title_pattern m)
  = catch (u <- Tabs.url t ;; ti <- Tabs.title t ;; Returns (TabNew u ti))%py
      (fun msg => TabFailed ("Tab 管理失败: " ++ msg)).
Proof.
  intros Hb Hnew.
  rewrite (switch_to_tab_running _ _ _ _ _ _ _ m browser Hb).
  unfold act. cbn [String.eqb Ascii.eqb Bool.eqb].
  unfold mbind, lift, set_tab, ret. rewrite Hnew.
  destruct (Tabs.url t); [|split; reflexivity].
  destruct (Tabs.title t); split; reflexivity.
Qed.

Lemma new_tab_becomes_current_witness :
  fst (switch_to_tab (Raises "")
         (fun address => Returns {| tid := 4; url := Raises "detached";
                                    title := Returns address;
                                    close := Returns tt |})
         (Raises "") "new" (Some "") None None on_docs)
  = Session.set_current_tab
      (Some {| tid := 4; url := Raises "detached";
               title := Returns "about:blank"; close := Returns tt |})
      on_docs.
Proof.
  exact (proj1 (new_tab_becomes_current (Raises "")
                  (fun address => Returns {| tid := 4;
                                             url := Raises "detached";
                                             title := Returns address;
                                             close := Returns tt |})
                  (Raises "") (Some "") None None on_docs three_tabs _
                  eq_refl eq_refl)).
Defined.

(** X28.  Closing the current tab, without an index, on a running manager
    that tracks a tab: when the close returns, the current tab becomes
    what [latest_tab] then answers; when [latest_tab] then raises, the
    call fails and the manager still tracks the tab just closed; when the
    close itself raises, the call fails and nothing has changed. *)
Theorem close_current_tab launch new_tab latest_then url title_pattern
  (m : Manager) browser t :
  Session._browser m = Some browser ->
  Session._current_tab m = Some t ->
  switch_to_tab launch new_tab latest_then "close" url None title_pattern m
  = match Tabs.close t with
    | Returns _ =>
        match latest_then with
        | Returns latest =>
            (Session.set_current_tab latest m, TabClosed None)
        | Raises msg => (m, TabFailed ("Tab 管理失败: " ++ msg))
        end
    | Raises msg => (m, TabFailed ("Tab 管理失败: " ++ msg))
    end.
Proof.
  intros Hb Ht.
  assert (Hact : act browser new_tab latest_then "close" url None
                   title_pattern m
                 = match Tabs.close t with
                   | Returns _ =>
                       match latest_then with
                       | Returns latest =>
                           (Session.set_current_tab latest m,
                            Returns (TabClosed None))
                       | Raises msg => (m, Raises msg)
                       end
                   | Raises msg => (m, Raises msg)
                   end).
  { unfold act. cbn [String.eqb Ascii.eqb Bool.eqb].
    unfold mbind at 1. unfold current_tab, Session.get_current_tab.
    rewrite Hb, Ht. unfold mbind, lift, set_tab, ret.
    destruct (Tabs.close t) as [[]|]; [|reflexivity].
    destruct latest_then; reflexivity. }
  rewrite (switch_to_tab_running _ _ _ _ _ _ _ m browser Hb), Hact.
  destruct (Tabs.close t) as [[]|]; [|reflexivity].
  destruct latest_then; reflexivity.
Qed.

Lemma close_current_tab_witness :
  switch_to_tab (Raises "") (fun _ => Raises "") (Raises "browser gone")
    "close" None None None on_docs
  = (on_docs, TabFailed "Tab 管理失败: browser gone").
Proof.
  exact (close_current_tab (Raises "") (fun _ => Raises "")
           (Raises "browser gone") None None on_docs three_tabs docs_tab
           eq_refl eq_refl).
Defined.

End TabFacts.

(* --------------------------------------------------------------------- *)
(** ** Element search *)
(* --------------------------------------------------------------------- *)

Module BasicFacts.
Import Basic.

Lemma describe_each_length elements : forall infos,
  describe_each elements = Returns infos ->
  List.length infos = List.length elements.
Proof.
  induction elements as [|el rest IH]; intros infos H.
  - injection H as <-. reflexivity.
  - cbn [describe_each] in H.
    destruct (describe el) as [info|]; cbn [bind] in H; [|discriminate H].
    destruct (describe_each rest) as [infos'|]; cbn [bind] in H;
      [|discriminate H].
    injection H as <-. cbn [List.length]. f_equal. now apply IH.
Qed.

(** X29.  When [find_elements] returns a list, [count] is the number of
    elements the tab matched, at least 1, while [elements] describes the
    first ten of them at most, in order; elements after the tenth are
    counted and not read. *)
Theorem find_elements_cap launch (m m' : Manager) selector selector_type
  single count infos :
  find_elements launch m selector selector_type single
    = (m', FoundMany count infos) ->
  exists tab loc found,
    snd (Session.acquire_tab Tab url title launch m)
      = Returns (Session.GotTab tab) /\
    single = false /\
    locator selector_type selector = Some loc /\
    eles tab loc = Returns found /\
    count = Z.of_nat (List.length found) /\
    (1 <= count)%Z /\
    describe_each (List.firstn 10 found) = Returns infos /\
    List.length infos = Nat.min 10 (List.length found).
Proof.
  unfold find_elements.
  destruct (Session.acquire_tab Tab url title launch m) as [m1 [a|msg]];
    cbn [bind catch snd]; [|intros H; discriminate H].
  destruct a as [| |tab]; cbn [bind catch]; try (intros H; discriminate H).
  unfold find_in.
  destruct (locator selector_type selector) as [loc|]; cbn [catch];
    [|intros H; discriminate H].
  destruct single.
  { destruct (ele tab loc) as [[el|]|]; cbn [bind catch];
      try (intros H; discriminate H).
    destruct (describe el); cbn [bind catch]; intros H; discriminate H. }
  destruct (eles tab loc) as [found|] eqn:He; cbn [bind catch];
    [|intros H; discriminate H].
  destruct found as [|el rest] eqn:Hfound; cbn [truthy_list catch];
    [intros H; discriminate H|].
  rewrite <- Hfound in *.
  destruct (describe_each (List.firstn 10 found)) as [infos'|] eqn:Hd;
    cbn [bind catch]; [|intros H; discriminate H].
  intros H. injection H as _ <- <-.
  exists tab, loc, found. repeat split; try assumption || reflexivity.
  - subst found. cbn [List.length]. lia.
  - rewrite (describe_each_length _ _ Hd). apply length_firstn.
Qed.

Lemma find_elements_cap_witness :
  exists tab loc found,
    snd (Session.acquire_tab Tab url title (Raises "") (holding long_list))
      = Returns (Session.GotTab tab) /\
    false = false /\
    locator "css" "li" = Some loc /\
    eles tab loc = Returns found /\
    12%Z = Z.of_nat (List.length found).
Proof.
  destruct (find_elements_cap (Raises "") (holding long_list)
              (holding long_list) "li" "css" false 12
              (List.repeat {| info_tag := "li"; info_text := "x";
                              info_attrs := [] |} 10)
              eq_refl)
    as (tab & loc & found & Ha & Hs & Hl & He & Hc & _).
  exists tab, loc, found. auto.
Defined.

End BasicFacts.
